(** * plottr fitter node: model discovery, fitting options and the fit stage

    A shallow embedding of [plottr/node/fitter_2.py]: the discovery of fit
    models in modules and packages, the [FittingNode] processing stage with
    its option setter, and the [FittingGui] widget that registers user
    modules, mirrors upstream options and signals option changes.

    Python objects are values of [pyval]; exceptions are results of the
    [M] monad, which threads the mutated state through normal and
    exceptional exits alike, the way Python keeps partial effects. *)

From Stdlib Require Import String Ascii List ZArith Bool Lia.
From stdpp Require Import base option list gmap strings.
Import ListNotations.
Local Open Scope string_scope.

(** ** Exceptions and the state-and-exception monad *)

Inductive exn : Type :=
| TypeError
| KeyError
| IndexError
| AttributeError
| ValueError
| NotImplementedError
| ModuleNotFoundError
| OtherError (name : string).

Inductive outcome (A : Type) : Type :=
| Return (a : A)
| Raise (e : exn).
Arguments Return {A} a.
Arguments Raise {A} e.

Definition M (S A : Type) : Type := S -> outcome A * S.

Definition ret {S A} (a : A) : M S A := fun s => (Return a, s).
Definition raise {S A} (e : exn) : M S A := fun s => (Raise e, s).
Definition bind {S A B} (c : M S A) (k : A -> M S B) : M S B :=
  fun s => match c s with
           | (Return a, s') => k a s'
           | (Raise e, s') => (Raise e, s')
           end.
Definition gets {S A} (f : S -> A) : M S A := fun s => (Return (f s), s).
Definition modify {S} (f : S -> S) : M S unit := fun s => (Return tt, f s).

(** [try: c except: pass] for a statement [c]. *)
Definition try_pass {S} (c : M S unit) : M S unit :=
  fun s => match c s with
           | (Return _, s') => (Return tt, s')
           | (Raise _, s') => (Return tt, s')
           end.

(** [try: c except TypeError: pass] *)
Definition try_pass_TypeError {S} (c : M S unit) : M S unit :=
  fun s => match c s with
           | (Raise TypeError, s') => (Return tt, s')
           | r => r
           end.

(** [for a in l: body(a)] *)
Fixpoint for_each {S A} (l : list A) (body : A -> M S unit) : M S unit :=
  match l with
  | [] => ret tt
  | a :: l' => bind (body a) (fun _ => for_each l' body)
  end.

(** Run a computation on a component of the state. *)
Definition zoom {S T A} (get : S -> T) (set : T -> S -> S) (c : M T A) : M S A :=
  fun s => match c (get s) with (r, t') => (r, set t' s) end.

Declare Scope py_scope.
Delimit Scope py_scope with py.
Notation "x <- c ;; k" := (bind c (fun x => k))
  (at level 100, c at next level, right associativity) : py_scope.
Notation "c ;; k" := (bind c (fun _ => k))
  (at level 100, right associativity) : py_scope.
Local Open Scope py_scope.

(** ** Python dictionaries: insertion-ordered, one binding per key *)

Definition pydict (V : Type) : Type := list (string * V).

Fixpoint dict_get {V} (k : string) (d : pydict V) : option V :=
  match d with
  | [] => None
  | (k', v) :: d' => if String.eqb k k' then Some v else dict_get k d'
  end.

Definition dict_mem {V} (k : string) (d : pydict V) : bool :=
  match dict_get k d with Some _ => true | None => false end.

(** [d[k] = v]: overwrite in place, or append a new key at the end. *)
Fixpoint dict_set {V} (k : string) (v : V) (d : pydict V) : pydict V :=
  match d with
  | [] => [(k, v)]
  | (k', v') :: d' =>
      if String.eqb k k' then (k, v) :: d' else (k', v') :: dict_set k v d'
  end.

Definition dict_keys {V} (d : pydict V) : list string := map fst d.
Definition dict_values {V} (d : pydict V) : list V := map snd d.

(** ** Python strings: the slices and splits the code uses *)

(** [s[-n:]] *)
Definition str_suffix (n : nat) (s : string) : string :=
  string_of_list_ascii
    (skipn (length (list_ascii_of_string s) - n) (list_ascii_of_string s)).

(** [s[:-n]] for [n > 0] *)
Definition str_drop_end (n : nat) (s : string) : string :=
  string_of_list_ascii
    (firstn (length (list_ascii_of_string s) - n) (list_ascii_of_string s)).

(** [s.split(sep)] for a one-character separator: never empty. *)
Fixpoint split_chars (sep : ascii) (cur : list ascii) (l : list ascii)
  : list string :=
  match l with
  | [] => [string_of_list_ascii (rev cur)]
  | c :: l' =>
      if Ascii.eqb c sep
      then string_of_list_ascii (rev cur) :: split_chars sep [] l'
      else split_chars sep (c :: cur) l'
  end.

Definition str_split (sep : ascii) (s : string) : list string :=
  split_chars sep [] (list_ascii_of_string s).

(** [sep.join(parts)] *)
Fixpoint str_join (sep : string) (parts : list string) : string :=
  match parts with
  | [] => ""
  | [p] => p
  | p :: ps => p ++ sep ++ str_join sep ps
  end.

(** [l[-1]] and [l[:-1]] *)
Definition list_last (l : list string) : string := List.last l "".
Definition list_init (l : list string) : list string := removelast l.

(** ** Python values *)

(** Numbers are stored, compared for clamping and handed to the fit engine;
    the code under study does no arithmetic on them.  Integers stand for
    them: fractions, the rounding of the spin box to its decimals and
    infinities are not modelled. *)
Definition number : Type := Z.
Definition array : Type := list number.

(** A class object: its identity, [__qualname__], [__module__], the file
    [inspect.getsourcefile] reports, the identities along its MRO (itself
    included) and, for fit models, the signature and docstring of its
    [model] function. *)
Record pyclass : Type := {
  cls_id : positive;
  cls_qualname : string;
  cls_module : string;
  cls_file : string;
  cls_mro : list positive;
  cls_model_params : list string;
  cls_model_doc : option string
}.

(** [lmfit.Parameter] by what the getter assigns to it: [min]/[max] are
    numbers or [None].  What [lmfit] makes of a [None] afterwards, an
    infinite bound, is not modelled. *)
Record lmParameter : Type := {
  p_vary : bool;
  p_value : number;
  p_min : option number;
  p_max : option number
}.

Definition lmParameters : Type := pydict lmParameter.

Inductive pyval : Type :=
| PyNone
| PyStr (s : string)
| PyClass (c : pyclass)
| PyFittingOptions (model : pyval) (parameters : lmParameters)
| PyOther (repr : string).

Definition is_None (v : pyval) : bool :=
  match v with PyNone => true | _ => false end.

(** [isinstance(v, FittingOptions)] *)
Definition is_FittingOptions (v : pyval) : bool :=
  match v with PyFittingOptions _ _ => true | _ => false end.

(** The base class [plottr.analyzer.fitters.fitter_base.Fit]. *)
Definition Fit : pyclass := {|
  cls_id := 1%positive;
  cls_qualname := "Fit";
  cls_module := "plottr.analyzer.fitters.fitter_base";
  cls_file := "plottr/analyzer/fitters/fitter_base.py";
  cls_mro := [1%positive];
  cls_model_params := [];
  cls_model_doc := None
|}.

(** ** Modules, packages and the import system *)

(** A module object: [__name__], [__file__] and its members as
    [inspect.getmembers] lists them, sorted by name, every name once. *)
Record pymodule : Type := {
  module_name : string;
  module_file : string;
  module_members : list (string * pyval)
}.

Record pypackage : Type := {
  pkg_name : string;
  pkg_path : list string
}.

(** [sys.modules] and [sys.path]. *)
Record ImportSystem : Type := {
  sys_modules : gmap string pymodule;
  sys_path : list string
}.

(** What lies outside the program: the files an import finds on a search
    path, the units [pkgutil.iter_modules] lists, the [run] of a fit model
    on data, and Python's [eval] and [str] on the text of a number field
    ([eval_number] is [None] when [eval] raises or yields no number). *)
Record lm_result : Type := {
  success : bool;
  best_fit : array;
  fit_report : string
}.

Record Externals : Type := {
  find_module : list string -> string -> option pymodule;
  iter_modules : list string -> list (string * bool);
  run_fit : pyclass -> array -> array -> lmParameters -> outcome lm_result;
  eval_number : string -> option number;
  str_number : number -> string
}.

Section Discovery.
Context (ext : Externals).

Definition set_sys_modules (sm : gmap string pymodule) (st : ImportSystem)
  : ImportSystem :=
  {| sys_modules := sm; sys_path := sys_path st |}.

(** [importlib.import_module(name, package)]: a leading dot, the one
    the code passes, makes the name relative to [package]; a module
    already in [sys.modules] is returned as it is, any other is looked
    for on [sys.path], executed and cached.  This is the import of a
    name that is not empty; names that [importlib] refuses before it
    looks for anything are not modelled. *)
Definition resolve_name (name package : string) : string :=
  match name with
  | String "." _ => package ++ name
  | _ => name
  end.

Definition import_module (name package : string) : M ImportSystem pymodule :=
  fun st =>
    let full := resolve_name name package in
    match sys_modules st !! full with
    | Some m => (Return m, st)
    | None =>
        match find_module ext (sys_path st) full with
        | Some m => (Return m, set_sys_modules (<[full := m]> (sys_modules st)) st)
        | None => (Raise ModuleNotFoundError, st)
        end
    end.

(** [del sys.modules[name]] *)
Definition del_sys_modules (name : string) : M ImportSystem unit :=
  fun st =>
    match sys_modules st !! name with
    | Some _ => (Return tt, set_sys_modules (delete name (sys_modules st)) st)
    | None => (Raise KeyError, st)
    end.

(** [issubclass(cls, Fit) and (cls is not Fit)], [False] on the
    [TypeError] that a non-class argument raises. *)
Definition is_Fit_subclass (v : pyval) : bool :=
  match v with
  | PyClass c =>
      existsb (Pos.eqb (cls_id Fit)) (cls_mro c)
      && negb (Pos.eqb (cls_id c) (cls_id Fit))
  | _ => false
  end.

(** [inspect.getmembers(module, predicate)] *)
Definition getmembers (m : pymodule) (pred : pyval -> bool)
  : list (string * pyval) :=
  List.filter (fun mc => pred (snd mc)) (module_members m).

Definition get_models_in_module (module : pymodule)
  : M ImportSystem (pydict pyval) :=
  try_pass (del_sys_modules (module_name module)) ;;
  module' <- import_module (module_name module) "" ;;
  let model_classes := getmembers module' is_Fit_subclass in
  ret (fold_left (fun model_dict mc => dict_set (fst mc) (snd mc) model_dict)
                 model_classes []).

Fixpoint get_modules_loop (pkg : pypackage) (units : list (string * bool))
    (modules : pydict pymodule) : M ImportSystem (pydict pymodule) :=
  match units with
  | [] => ret modules
  | (modname, ispkg) :: rest =>
      if negb (String.eqb modname "fitter_base") then
        module_ <- import_module ("." ++ modname) (pkg_name pkg) ;;
        try_pass (del_sys_modules (module_name module_)) ;;
        module_ <- import_module ("." ++ modname) (pkg_name pkg) ;;
        get_modules_loop pkg rest (dict_set modname module_ modules)
      else get_modules_loop pkg rest modules
  end.

Definition get_modules_in_pkg (pkg : pypackage)
  : M ImportSystem (pydict pymodule) :=
  get_modules_loop pkg (iter_modules ext (pkg_path pkg)) [].

End Discovery.

(** ** Datasets *)

(** Modelled from the spec: the dataset container [DataDictBase] of
    [plottr/data/datadict.py], which the node only uses through
    [axes], [dependents], [data_vals], [get], [copy], [add_meta] and item
    assignment.  A dataset has its axis names, its dependent names, named
    data entries (values tagged with axis names) and a metadata mapping;
    ['__fitting_options__'] and ['info'] are metadata keys. *)
Record DataField : Type := {
  values : array;
  field_axes : list string
}.

Record Dataset : Type := {
  ds_axes : list string;
  ds_dependents : list string;
  ds_data : gmap string DataField;
  ds_meta : gmap string pyval
}.

(** [d.get(key)]: the metadata entry, [None] when absent. *)
Definition ds_get (d : Dataset) (key : string) : pyval :=
  match ds_meta d !! key with Some v => v | None => PyNone end.

(** [d[key] = dict(values=..., axes=...)] *)
Definition ds_setitem (key : string) (f : DataField) (d : Dataset) : Dataset :=
  {| ds_axes := ds_axes d; ds_dependents := ds_dependents d;
     ds_data := <[key := f]> (ds_data d); ds_meta := ds_meta d |}.

(** [d.add_meta(key, value)] *)
Definition ds_add_meta (key : string) (v : pyval) (d : Dataset) : Dataset :=
  {| ds_axes := ds_axes d; ds_dependents := ds_dependents d;
     ds_data := ds_data d; ds_meta := <[key := v]> (ds_meta d) |}.

(** ** The fitting node *)

(** Dataset objects live in a store and are named by their address, so
    that a copy and the object it was copied from can be told apart. *)
Definition loc : Type := nat.

Record NodeState : Type := {
  heap : list Dataset;
  _fitting_options : pyval;
  default_fitting_options : list pyval
}.

Definition set_heap (h : list Dataset) (st : NodeState) : NodeState :=
  {| heap := h; _fitting_options := _fitting_options st;
     default_fitting_options := default_fitting_options st |}.

Definition set_options (v : pyval) (st : NodeState) : NodeState :=
  {| heap := heap st; _fitting_options := v;
     default_fitting_options := default_fitting_options st |}.

(** [self.default_fitting_options.emit(v)]: the emission is recorded; the
    slots connected to the signal are the widget's business. *)
Definition emit_default (v : pyval) (st : NodeState) : NodeState :=
  {| heap := heap st; _fitting_options := _fitting_options st;
     default_fitting_options := default_fitting_options st ++ [v] |}.

Section Node.
Context (ext : Externals).

Definition deref (l : loc) : M NodeState Dataset :=
  fun st => match heap st !! l with
            | Some d => (Return d, st)
            | None => (Raise (OtherError "ReferenceError"), st)
            end.

(** [d.copy()]: a new object with the contents of the old one. *)
Definition ds_copy (l : loc) : M NodeState loc :=
  d <- deref l ;;
  fun st => (Return (length (heap st)), set_heap (heap st ++ [d]) st).

Definition update_at (l : loc) (f : Dataset -> Dataset) : M NodeState unit :=
  d <- deref l ;;
  modify (fun st => set_heap (<[l := f d]> (heap st)) st).

(** [names[0]] *)
Definition index0 {S} (names : list string) : M S string :=
  match names with
  | n :: _ => ret n
  | [] => raise IndexError
  end.

(** [d.data_vals(name)] *)
Definition data_vals {S} (d : Dataset) (name : string) : M S array :=
  match ds_data d !! name with
  | Some f => ret (values f)
  | None => raise KeyError
  end.

(** The body of the [fitting_options] setter, lines 538-541.  The
    decorator [updateOption] of [plottr/node/node.py] that wraps it is not
    part of this file and is not modelled: this is the function the
    decorator is given, not the assignment to the property. *)
Definition set_fitting_options (opt : pyval) : M NodeState unit :=
  if is_FittingOptions opt || is_None opt
  then modify (set_options opt)
  else raise TypeError.

(** [fitting_process] from the comment [# fitting process] on. *)
Definition run_fitting (dataIn dataOut : loc) : M NodeState (option loc) :=
  d <- deref dataIn ;;
  axname <- index0 (ds_axes d) ;;
  x <- data_vals d axname ;;
  depname <- index0 (ds_dependents d) ;;
  y <- data_vals d depname ;;
  opts <- gets _fitting_options ;;
  match opts with
  | PyFittingOptions (PyClass model) parameters =>
      lm_result <- (fun st => (run_fit ext model x y parameters, st)) ;;
      (if success lm_result then
         update_at dataOut
           (ds_setitem "fit" {| values := best_fit lm_result;
                                field_axes := [axname] |}) ;;
         update_at dataOut (ds_add_meta "info" (PyStr (fit_report lm_result)))
       else ret tt) ;;
      ret (Some dataOut)
  | PyFittingOptions _ _ => raise TypeError
  | _ => raise AttributeError
  end.

Definition fitting_process (dataIn : option loc) : M NodeState (option loc) :=
  match dataIn with
  | None => ret None
  | Some l =>
      d <- deref l ;;
      if (1 <? length (ds_axes d))%nat || (1 <? length (ds_dependents d))%nat
      then ret (Some l)
      else
        let dataIn_opt := ds_get d "__fitting_options__" in
        dataOut <- ds_copy l ;;
        opts <- gets _fitting_options ;;
        if is_None opts then
          if negb (is_None dataIn_opt) then
            modify (emit_default dataIn_opt) ;;
            modify (set_options dataIn_opt) ;;
            run_fitting l dataOut
          else ret (Some dataOut)
        else run_fitting l dataOut
  end.

Definition process (dataIn : option loc) : M NodeState (option loc) :=
  fitting_process dataIn.

End Node.

(** ** The widget: state *)

(** Qt widgets are kept by the part of their state the code reads and
    writes.  A signal of a parameter cell is an entry of [connections]:
    the number of times [_signalAllOptions] is connected to it. *)
Record QComboBox : Type := {
  combo_items : list string;
  combo_index : option nat
}.

Record QListWidget : Type := {
  list_items : list string;
  list_current : option nat
}.

(** One row of the parameter table: its header label, the check box, the
    [OptionSpinbox] with its range, the two [NumberInput] texts, and the
    index of [stateChanged]; [valueChanged] and the two [newTextEntered]
    follow it. *)
Record ParamRow : Type := {
  row_name : string;
  fix_checked : bool;
  spin_value : number;
  spin_min : number;
  spin_max : number;
  lower_text : string;
  upper_text : string;
  row_signals : nat
}.

Record Gui : Type := {
  imports : ImportSystem;
  fitting_modules : pydict pymodule;
  input_options : pyval;
  live_update : bool;
  param_signals : list nat;
  module_combo : QComboBox;
  model_list : QListWidget;
  model_doc_box : string;
  param_table : list ParamRow;
  connections : list nat;
  model_list_connections : nat;
  options_changed : list pyval;
  slot_errors : list exn
}.

Definition set_imports (x : ImportSystem) (g : Gui) : Gui :=
  {| imports := x; fitting_modules := fitting_modules g;
     input_options := input_options g; live_update := live_update g;
     param_signals := param_signals g; module_combo := module_combo g;
     model_list := model_list g; model_doc_box := model_doc_box g;
     param_table := param_table g; connections := connections g;
     model_list_connections := model_list_connections g;
     options_changed := options_changed g; slot_errors := slot_errors g |}.

Definition set_fitting_modules (x : pydict pymodule) (g : Gui) : Gui :=
  {| imports := imports g; fitting_modules := x;
     input_options := input_options g; live_update := live_update g;
     param_signals := param_signals g; module_combo := module_combo g;
     model_list := model_list g; model_doc_box := model_doc_box g;
     param_table := param_table g; connections := connections g;
     model_list_connections := model_list_connections g;
     options_changed := options_changed g; slot_errors := slot_errors g |}.

Definition set_input_options (x : pyval) (g : Gui) : Gui :=
  {| imports := imports g; fitting_modules := fitting_modules g;
     input_options := x; live_update := live_update g;
     param_signals := param_signals g; module_combo := module_combo g;
     model_list := model_list g; model_doc_box := model_doc_box g;
     param_table := param_table g; connections := connections g;
     model_list_connections := model_list_connections g;
     options_changed := options_changed g; slot_errors := slot_errors g |}.

Definition set_live_update (x : bool) (g : Gui) : Gui :=
  {| imports := imports g; fitting_modules := fitting_modules g;
     input_options := input_options g; live_update := x;
     param_signals := param_signals g; module_combo := module_combo g;
     model_list := model_list g; model_doc_box := model_doc_box g;
     param_table := param_table g; connections := connections g;
     model_list_connections := model_list_connections g;
     options_changed := options_changed g; slot_errors := slot_errors g |}.

Definition set_param_signals (x : list nat) (g : Gui) : Gui :=
  {| imports := imports g; fitting_modules := fitting_modules g;
     input_options := input_options g; live_update := live_update g;
     param_signals := x; module_combo := module_combo g;
     model_list := model_list g; model_doc_box := model_doc_box g;
     param_table := param_table g; connections := connections g;
     model_list_connections := model_list_connections g;
     options_changed := options_changed g; slot_errors := slot_errors g |}.

Definition set_module_combo (x : QComboBox) (g : Gui) : Gui :=
  {| imports := imports g; fitting_modules := fitting_modules g;
     input_options := input_options g; live_update := live_update g;
     param_signals := param_signals g; module_combo := x;
     model_list := model_list g; model_doc_box := model_doc_box g;
     param_table := param_table g; connections := connections g;
     model_list_connections := model_list_connections g;
     options_changed := options_changed g; slot_errors := slot_errors g |}.

Definition set_model_list (x : QListWidget) (g : Gui) : Gui :=
  {| imports := imports g; fitting_modules := fitting_modules g;
     input_options := input_options g; live_update := live_update g;
     param_signals := param_signals g; module_combo := module_combo g;
     model_list := x; model_doc_box := model_doc_box g;
     param_table := param_table g; connections := connections g;
     model_list_connections := model_list_connections g;
     options_changed := options_changed g; slot_errors := slot_errors g |}.

Definition set_model_doc_box (x : string) (g : Gui) : Gui :=
  {| imports := imports g; fitting_modules := fitting_modules g;
     input_options := input_options g; live_update := live_update g;
     param_signals := param_signals g; module_combo := module_combo g;
     model_list := model_list g; model_doc_box := x;
     param_table := param_table g; connections := connections g;
     model_list_connections := model_list_connections g;
     options_changed := options_changed g; slot_errors := slot_errors g |}.

Definition set_param_table (x : list ParamRow) (g : Gui) : Gui :=
  {| imports := imports g; fitting_modules := fitting_modules g;
     input_options := input_options g; live_update := live_update g;
     param_signals := param_signals g; module_combo := module_combo g;
     model_list := model_list g; model_doc_box := model_doc_box g;
     param_table := x; connections := connections g;
     model_list_connections := model_list_connections g;
     options_changed := options_changed g; slot_errors := slot_errors g |}.

Definition set_connections (x : list nat) (g : Gui) : Gui :=
  {| imports := imports g; fitting_modules := fitting_modules g;
     input_options := input_options g; live_update := live_update g;
     param_signals := param_signals g; module_combo := module_combo g;
     model_list := model_list g; model_doc_box := model_doc_box g;
     param_table := param_table g; connections := x;
     model_list_connections := model_list_connections g;
     options_changed := options_changed g; slot_errors := slot_errors g |}.

Definition set_model_list_connections (x : nat) (g : Gui) : Gui :=
  {| imports := imports g; fitting_modules := fitting_modules g;
     input_options := input_options g; live_update := live_update g;
     param_signals := param_signals g; module_combo := module_combo g;
     model_list := model_list g; model_doc_box := model_doc_box g;
     param_table := param_table g; connections := connections g;
     model_list_connections := x;
     options_changed := options_changed g; slot_errors := slot_errors g |}.

Definition set_options_changed (x : list pyval) (g : Gui) : Gui :=
  {| imports := imports g; fitting_modules := fitting_modules g;
     input_options := input_options g; live_update := live_update g;
     param_signals := param_signals g; module_combo := module_combo g;
     model_list := model_list g; model_doc_box := model_doc_box g;
     param_table := param_table g; connections := connections g;
     model_list_connections := model_list_connections g;
     options_changed := x; slot_errors := slot_errors g |}.

Definition set_slot_errors (x : list exn) (g : Gui) : Gui :=
  {| imports := imports g; fitting_modules := fitting_modules g;
     input_options := input_options g; live_update := live_update g;
     param_signals := param_signals g; module_combo := module_combo g;
     model_list := model_list g; model_doc_box := model_doc_box g;
     param_table := param_table g; connections := connections g;
     model_list_connections := model_list_connections g;
     options_changed := options_changed g; slot_errors := x |}.

(** [sys.float_info.max] *)
Definition MAX_FLOAT : number := (2 ^ 1024 - 2 ^ 971)%Z.

(** ** The widget: operations *)

Section Widget.
Context (ext : Externals).

(** A slot run by the emission of a signal.  An exception that escapes
    the slot is reported by the Qt binding; the effects the slot had so
    far stay, and the code that caused the emission goes on. *)
Definition call_slot (c : M Gui unit) : M Gui unit :=
  fun g => match c g with
           | (Return _, g') => (Return tt, g')
           | (Raise e, g') => (Return tt, set_slot_errors (slot_errors g' ++ [e]) g')
           end.

Fixpoint call_slots (n : nat) (c : M Gui unit) : M Gui unit :=
  match n with
  | O => ret tt
  | S n' => call_slot c ;; call_slots n' c
  end.

(** [combo.currentText()] *)
Definition currentText (c : QComboBox) : string :=
  match combo_index c with
  | Some i => match combo_items c !! i with Some t => t | None => "" end
  | None => ""
  end.

(** [model_list.currentItem()], by its text *)
Definition currentItem (w : QListWidget) : option string :=
  match list_current w with
  | Some i => list_items w !! i
  | None => None
  end.

(** [self.fitting_modules[name]] *)
Definition lookup_module (name : string) : M Gui pymodule :=
  fun g => match dict_get name (fitting_modules g) with
           | Some m => (Return m, g)
           | None => (Raise KeyError, g)
           end.

(** [getattr(module, name)] *)
Definition getattr {S} (m : pymodule) (name : string) : M S pyval :=
  match dict_get name (module_members m) with
  | Some v => ret v
  | None => raise AttributeError
  end.

(** [str(value)] for a number or [None] *)
Definition py_str (v : option number) : string :=
  match v with
  | Some n => str_number ext n
  | None => "None"
  end.

(** The [lmfit] parameter read off one row of the table. *)
Definition row_parameter (r : ParamRow) : lmParameter :=
  {| p_vary := negb (fix_checked r);
     p_value := spin_value r;
     p_min := eval_number ext (lower_text r);
     p_max := eval_number ext (upper_text r) |}.

Definition fittingOptionGetter : M Gui pyval :=
  text <- gets (fun g => currentText (module_combo g)) ;;
  current_module <- lookup_module text ;;
  model_selected <- gets (fun g => currentItem (model_list g)) ;;
  match model_selected with
  | None => ret PyNone
  | Some name =>
      model <- getattr current_module name ;;
      rows <- gets param_table ;;
      let parameters :=
        fold_left (fun ps r => dict_set (row_name r) (row_parameter r) ps)
                  rows [] in
      ret (PyFittingOptions model parameters)
  end.

(** Modelled from the spec: [NodeWidget.signalAllOptions] of
    [plottr/node/node.py], the aggregated "options changed" event: one
    event that carries all the options the getter reads off the widget. *)
Definition signalAllOptions : M Gui unit :=
  opts <- fittingOptionGetter ;;
  modify (fun g => set_options_changed (options_changed g ++ [opts]) g).

Definition _signalAllOptions : M Gui unit :=
  cur <- gets (fun g => currentItem (model_list g)) ;;
  match cur with
  | Some _ => signalAllOptions
  | None => ret tt
  end.

(** [psig.connect(self._signalAllOptions)], for the signal of a widget
    that exists.  [param_signals] keeps the signals of rows that were
    dropped until the next table is built; what the binding does for
    those is not modelled. *)
Definition connect (psig : nat) : M Gui unit :=
  modify (fun g => set_connections (alter S psig (connections g)) g).

(** [psig.disconnect(self._signalAllOptions)]: one connection is removed,
    [TypeError] when there is none. *)
Definition disconnect (psig : nat) : M Gui unit :=
  fun g => match connections g !! psig with
           | Some (S n) => (Return tt, set_connections (<[psig := n]> (connections g)) g)
           | _ => (Raise TypeError, g)
           end.

Definition changeParamLiveUpdate (enable : bool) : M Gui unit :=
  sigs <- gets param_signals ;;
  if enable
  then for_each sigs connect
  else for_each sigs (fun psig => try_pass_TypeError (disconnect psig)).

(** The widgets of a fresh row: an unchecked box, [OptionSpinbox(1.0)] on
    the full range and two [NumberInput(None)]. *)
Definition new_row (name : string) (sig : nat) : ParamRow :=
  {| row_name := name;
     fix_checked := false;
     spin_value := 1%Z;
     spin_min := (- MAX_FLOAT)%Z;
     spin_max := MAX_FLOAT;
     lower_text := py_str None;
     upper_text := py_str None;
     row_signals := sig |}.

(** One turn of the loop over [params]: the four signals of the new cell
    widgets are created and gathered in [param_signals]. *)
Definition add_param_row (name : string) : M Gui unit :=
  modify (fun g =>
    let sig := length (connections g) in
    set_param_table (param_table g ++ [new_row name sig])
      (set_param_signals (param_signals g ++ [sig; sig + 1; sig + 2; sig + 3])
         (set_connections (connections g ++ [0; 0; 0; 0]) g))).

Definition updateParamTable (model_cls : pyval) : M Gui unit :=
  modify (set_param_table []) ;;
  match model_cls with
  | PyClass c =>
      let params := tl (cls_model_params c) in
      modify (set_param_signals []) ;;
      for_each params add_param_row ;;
      live <- gets live_update ;;
      changeParamLiveUpdate live
  | _ => raise AttributeError
  end.

(** [modelChanged]; [setText] takes a string, and for a model function
    without docstring, whose [__doc__] is [None], the binding raises
    [TypeError]. *)
Definition modelChanged (current : option string) : M Gui unit :=
  match current with
  | None =>
      modify (set_model_doc_box "") ;;
      modify (set_param_table [])
  | Some text =>
      name <- gets (fun g => currentText (module_combo g)) ;;
      current_module <- lookup_module name ;;
      model_cls <- getattr current_module text ;;
      updateParamTable model_cls ;;
      match model_cls with
      | PyClass c =>
          match cls_model_doc c with
          | Some doc => modify (set_model_doc_box doc)
          | None => raise TypeError
          end
      | _ => raise AttributeError
      end
  end.

(** [model_list.currentItemChanged]: [modelChanged] was connected when the
    widget was built, [_signalAllOptions] by each switch to live update. *)
Definition emit_currentItemChanged (current : option string) : M Gui unit :=
  call_slot (modelChanged current) ;;
  n <- gets model_list_connections ;;
  call_slots n _signalAllOptions.

(** [model_list.clear()] *)
Definition model_list_clear : M Gui unit :=
  w <- gets model_list ;;
  match currentItem w with
  | Some _ =>
      modify (set_model_list {| list_items := list_items w; list_current := None |}) ;;
      emit_currentItemChanged None
  | None => ret tt
  end ;;
  modify (set_model_list {| list_items := []; list_current := None |}).

(** [model_list.addItem(text)] *)
Definition model_list_addItem (text : string) : M Gui unit :=
  modify (fun g =>
    set_model_list {| list_items := list_items (model_list g) ++ [text];
                      list_current := list_current (model_list g) |} g).

(** [model_list.findItems(text, MatchExactly)], by row *)
Fixpoint find_rows (text : string) (i : nat) (items : list string) : list nat :=
  match items with
  | [] => []
  | t :: items' =>
      if String.eqb t text then i :: find_rows text (S i) items'
      else find_rows text (S i) items'
  end.

Definition findItems (text : string) (w : QListWidget) : list nat :=
  find_rows text 0 (list_items w).

(** [model_list.setCurrentItem(item)] *)
Definition model_list_setCurrentItem (i : nat) : M Gui unit :=
  w <- gets model_list ;;
  if match list_current w with Some j => Nat.eqb j i | None => false end
  then ret tt
  else
    modify (set_model_list {| list_items := list_items w; list_current := Some i |}) ;;
    emit_currentItemChanged (list_items w !! i).

Definition moduleUpdate (current_module_name : string) : M Gui unit :=
  model_list_clear ;;
  current_module <- lookup_module current_module_name ;;
  new_models <- zoom imports set_imports (get_models_in_module ext current_module) ;;
  for_each (dict_keys new_models) model_list_addItem.

Definition moduleRefreshClicked : M Gui unit :=
  text <- gets (fun g => currentText (module_combo g)) ;;
  moduleUpdate text.

(** [module_combo.addItem(text)]: the first item of an empty box becomes
    the current one, and [currentTextChanged] runs [moduleUpdate]. *)
Definition module_combo_addItem (text : string) : M Gui unit :=
  c <- gets module_combo ;;
  match combo_items c with
  | [] =>
      modify (set_module_combo {| combo_items := [text]; combo_index := Some 0 |}) ;;
      call_slot (moduleUpdate text)
  | _ =>
      modify (set_module_combo {| combo_items := combo_items c ++ [text];
                                  combo_index := combo_index c |})
  end.

(** [module_combo.setCurrentText(text)] of a box that is not editable: the
    first item with that text becomes the current one; nothing happens
    when there is none or when it is current already. *)
Definition module_combo_setCurrentText (text : string) : M Gui unit :=
  c <- gets module_combo ;;
  match find_rows text 0 (combo_items c) with
  | i :: _ =>
      if match combo_index c with Some j => Nat.eqb j i | None => false end
      then ret tt
      else
        modify (set_module_combo {| combo_items := combo_items c; combo_index := Some i |}) ;;
        call_slot (moduleUpdate text)
  | [] => ret tt
  end.

(** The last three statements of [add_user_module]. *)
Definition register_module (mod_name : string) (user_module : pymodule) : M Gui unit :=
  modify (fun g => set_fitting_modules (dict_set mod_name user_module (fitting_modules g)) g) ;;
  module_combo_addItem mod_name ;;
  module_combo_setCurrentText mod_name.

(** [add_user_module]; [mod_file] is what the file dialog returned. *)
Definition add_user_module (mod_file : option string) : M Gui unit :=
  match mod_file with
  | None => ret tt
  | Some mod_file =>
      if negb (String.eqb (str_suffix 3 mod_file) ".py") then ret tt
      else
        let mod_name := str_drop_end 3 (list_last (str_split "/" mod_file)) in
        let mod_dir := str_join "\" (list_init (str_split "/" mod_file)) in
        modify (fun g =>
          set_imports {| sys_modules := sys_modules (imports g);
                         sys_path := sys_path (imports g) ++ [mod_dir] |} g) ;;
        user_module <- zoom imports set_imports (import_module ext mod_name mod_dir) ;;
        modules <- gets fitting_modules ;;
        if dict_mem mod_name modules then
          if existsb (fun existing_module =>
                        String.eqb (module_file user_module) (module_file existing_module))
                     (dict_values modules)
          then
            module_combo_setCurrentText mod_name ;;
            moduleUpdate mod_name
          else register_module (mod_name ++ "(" ++ mod_dir ++ ")") user_module
        else register_module mod_name user_module
  end.

End Widget.

Section WidgetOptions.
Context (ext : Externals).

Definition update_row (i : nat) (f : ParamRow -> ParamRow) : M Gui unit :=
  modify (fun g => set_param_table (alter f i (param_table g)) g).

(** [param_table.cellWidget(i, _)]; on a row that does not exist it is
    [None], and the method call on it fails. *)
Definition get_cell (i : nat) : M Gui ParamRow :=
  fun g => match param_table g !! i with
           | Some r => (Return r, g)
           | None => (Raise AttributeError, g)
           end.

(** The emission of a signal of a parameter cell to the connections that
    live update made. *)
Definition emit_param_signal (psig : nat) : M Gui unit :=
  n <- gets (fun g => default 0 (connections g !! psig)) ;;
  call_slots n (_signalAllOptions ext).

(** [QCheckBox.setChecked]: [stateChanged] when the state changes. *)
Definition setChecked (i : nat) (b : bool) : M Gui unit :=
  r <- get_cell i ;;
  if Bool.eqb (fix_checked r) b then ret tt
  else
    update_row i (fun r =>
      {| row_name := row_name r; fix_checked := b;
         spin_value := spin_value r; spin_min := spin_min r;
         spin_max := spin_max r; lower_text := lower_text r;
         upper_text := upper_text r; row_signals := row_signals r |}) ;;
    emit_param_signal (row_signals r).

(** The spin box takes a new range and value; the value is kept inside
    the range and [valueChanged] is emitted when it changes. *)
Definition spin_update (i : nat) (lo hi v : number) : M Gui unit :=
  r <- get_cell i ;;
  let v' := Z.max lo (Z.min hi v) in
  update_row i (fun r =>
    {| row_name := row_name r; fix_checked := fix_checked r;
       spin_value := v'; spin_min := lo; spin_max := hi;
       lower_text := lower_text r; upper_text := upper_text r;
       row_signals := row_signals r |}) ;;
  if Z.eqb v' (spin_value r) then ret tt
  else emit_param_signal (row_signals r + 1).

(** [QDoubleSpinBox.setValue] *)
Definition spin_setValue (i : nat) (v : number) : M Gui unit :=
  r <- get_cell i ;;
  spin_update i (spin_min r) (spin_max r) v.

(** [OptionSpinbox.setMinimum] and [setMaximum]: the text is evaluated,
    anything that is no number stands for the widest bound. *)
Definition OptionSpinbox_setMinimum (i : nat) (minimum : string) : M Gui unit :=
  r <- get_cell i ;;
  let value := match eval_number ext minimum with
               | Some n => n
               | None => (- MAX_FLOAT)%Z
               end in
  spin_update i value (Z.max value (spin_max r)) (spin_value r).

Definition OptionSpinbox_setMaximum (i : nat) (maximum : string) : M Gui unit :=
  r <- get_cell i ;;
  let value := match eval_number ext maximum with
               | Some n => n
               | None => MAX_FLOAT
               end in
  spin_update i (Z.min value (spin_min r)) value (spin_value r).

(** [NumberInput.setValue]: the text is replaced, nothing is emitted. *)
Definition lower_setValue (i : nat) (v : option number) : M Gui unit :=
  _ <- get_cell i ;;
  update_row i (fun r =>
    {| row_name := row_name r; fix_checked := fix_checked r;
       spin_value := spin_value r; spin_min := spin_min r;
       spin_max := spin_max r; lower_text := py_str ext v;
       upper_text := upper_text r; row_signals := row_signals r |}).

Definition upper_setValue (i : nat) (v : option number) : M Gui unit :=
  _ <- get_cell i ;;
  update_row i (fun r =>
    {| row_name := row_name r; fix_checked := fix_checked r;
       spin_value := spin_value r; spin_min := spin_min r;
       spin_max := spin_max r; lower_text := lower_text r;
       upper_text := py_str ext v; row_signals := row_signals r |}).

(** [inspect.getsourcefile(model)] *)
Definition getsourcefile {S} (model : pyval) : M S string :=
  match model with
  | PyClass c => ret (cls_file c)
  | _ => raise TypeError
  end.

(** The loop of [fittingOptionSetter] over [fitting_modules.items()];
    the result is [module_exist]. *)
Fixpoint find_module_of (model : pyval) (items : list (string * pymodule))
  : M Gui bool :=
  match items with
  | [] => ret false
  | (mdu_name, mdu) :: rest =>
      src <- getsourcefile model ;;
      if String.eqb (module_file mdu) src
      then module_combo_setCurrentText ext mdu_name ;; ret true
      else find_module_of model rest
  end.

(** One turn of the loop of [fittingOptionSetter] over the table rows. *)
Definition set_param_row (parameters : lmParameters) (i : nat) : M Gui unit :=
  r <- get_cell i ;;
  match dict_get (row_name r) parameters with
  | None => raise KeyError
  | Some param_options =>
      setChecked i (negb (p_vary param_options)) ;;
      spin_setValue i (p_value param_options) ;;
      lower_setValue i (p_min param_options) ;;
      upper_setValue i (p_max param_options)
  end.

(** [fittingOptionSetter], with [DEBUG] set as in the file: a model that
    is not listed exactly once is printed, not raised. *)
Definition fittingOptionSetter (fitting_options : pyval) : M Gui unit :=
  match fitting_options with
  | PyNone => ret tt
  | PyFittingOptions model parameters =>
      items <- gets fitting_modules ;;
      module_exist <- find_module_of model items ;;
      (if module_exist : bool then
         match model with
         | PyClass c =>
             w <- gets model_list ;;
             match findItems (cls_qualname c) w with
             | [i] => model_list_setCurrentItem ext i
             | _ => ret tt
             end
         | _ => raise AttributeError
         end
       else raise NotImplementedError) ;;
      n <- gets (fun g => length (param_table g)) ;;
      for_each (seq 0 n) (set_param_row parameters)
  | _ => raise AttributeError
  end.

(** [model_list.currentItemChanged.disconnect(self._signalAllOptions)] *)
Definition model_list_disconnect : M Gui unit :=
  fun g => match model_list_connections g with
           | S n => (Return tt, set_model_list_connections n g)
           | O => (Raise TypeError, g)
           end.

(** [setLiveUpdate(live)], with [live] standing for [live == Checked]. *)
Definition setLiveUpdate (live : bool) : M Gui unit :=
  if live then
    modify (fun g => set_model_list_connections (S (model_list_connections g)) g) ;;
    changeParamLiveUpdate true ;;
    modify (set_live_update true)
  else
    try_pass_TypeError model_list_disconnect ;;
    changeParamLiveUpdate false ;;
    modify (set_live_update false).

Definition reloadInputOption : M Gui unit :=
  opts <- gets input_options ;;
  fittingOptionSetter opts.

(** [setDefaultFit], the slot of the node's [default_fitting_options]:
    the function as written.  The decorator [updateGuiFromNode] of
    [plottr/node/node.py] that wraps it is not part of this file and is
    not modelled. *)
Definition setDefaultFit (fitting_options : pyval) : M Gui unit :=
  fittingOptionSetter fitting_options ;;
  cur <- gets input_options ;;
  if is_None cur then modify (set_input_options fitting_options) else ret tt.

(** *** What the user does to a parameter field

    A click on the check box and a new value in the spin box go through
    the widget's own setter; a text entered in a bound field is emitted as
    [newTextEntered], first to the spin box of the row, connected when the
    row was built, then to the connections of live update. *)
Inductive edit : Type :=
| EditFixed (row : nat) (checked : bool)
| EditInitial (row : nat) (value : number)
| EditLower (row : nat) (text : string)
| EditUpper (row : nat) (text : string).

Definition apply_edit (e : edit) : M Gui unit :=
  match e with
  | EditFixed i b => setChecked i b
  | EditInitial i v => spin_setValue i v
  | EditLower i text =>
      r <- get_cell i ;;
      update_row i (fun r =>
        {| row_name := row_name r; fix_checked := fix_checked r;
           spin_value := spin_value r; spin_min := spin_min r;
           spin_max := spin_max r; lower_text := text;
           upper_text := upper_text r; row_signals := row_signals r |}) ;;
      call_slot (OptionSpinbox_setMinimum i text) ;;
      emit_param_signal (row_signals r + 2)
  | EditUpper i text =>
      r <- get_cell i ;;
      update_row i (fun r =>
        {| row_name := row_name r; fix_checked := fix_checked r;
           spin_value := spin_value r; spin_min := spin_min r;
           spin_max := spin_max r; lower_text := lower_text r;
           upper_text := text; row_signals := row_signals r |}) ;;
      call_slot (OptionSpinbox_setMaximum i text) ;;
      emit_param_signal (row_signals r + 3)
  end.

End WidgetOptions.

(** ** Node and widget together *)

(** [setupUi] connects the node's [default_fitting_options] to the
    widget's [setDefaultFit]; the "Reload Input Option" button is
    connected to [reloadInputOption].  A dataset that arrives becomes an
    object of the store and is handed to [process].  The slot neither
    reads nor writes the node, so what the node emitted is handed to it
    once [process] is over.

    The way back, from the "options changed" events of the widget to the
    node, lies in [plottr/node/node.py], which is not part of this file:
    it is the parameter [to_node], what the node does with the options of
    one event.  Every event the widget raised while it handled an arrival
    or a request reaches the node, in the order of the events.  Since the
    decorator of [setDefaultFit] is not modelled, nothing is stated below
    about what the node gets back from an adoption under live update. *)
Record System : Type := {
  node : NodeState;
  gui : Gui
}.

Inductive event : Type :=
| Arrive (dataIn : Dataset)
| ReloadInputOption.

Section Wiring.
Context (ext : Externals).
Context (to_node : pyval -> NodeState -> NodeState).

Definition deliver (emitted : list pyval) (g : Gui) : Gui :=
  fold_left (fun g v => snd (call_slot (setDefaultFit ext v) g)) emitted g.

(** The events raised between two states of the widget, handed to the
    node. *)
Definition feed_back (before after : Gui) (st : NodeState) : NodeState :=
  fold_left (fun st v => to_node v st)
    (skipn (length (options_changed before)) (options_changed after)) st.

Definition step (s : System) (e : event) : System :=
  match e with
  | Arrive dataIn =>
      let st0 := set_heap (heap (node s) ++ [dataIn]) (node s) in
      let st1 := snd (process ext (Some (length (heap (node s)))) st0) in
      let emitted := skipn (length (default_fitting_options st0))
                           (default_fitting_options st1) in
      let g1 := deliver emitted (gui s) in
      {| node := feed_back (gui s) g1 st1; gui := g1 |}
  | ReloadInputOption =>
      let g1 := snd (call_slot (reloadInputOption ext) (gui s)) in
      {| node := feed_back (gui s) g1 (node s); gui := g1 |}
  end.

Definition run (events : list event) (s : System) : System :=
  fold_left step events s.

(** The options most recently supplied by upstream data. *)
Fixpoint last_upstream (events : list event) (acc : pyval) : pyval :=
  match events with
  | [] => acc
  | Arrive d :: rest =>
      last_upstream rest
        (if is_None (ds_get d "__fitting_options__") then acc
         else ds_get d "__fitting_options__")
  | ReloadInputOption :: rest => last_upstream rest acc
  end.

End Wiring.
(** * Concrete data and the vocabulary of the statements *)

Local Open Scope list_scope.

(** ** Modules, externals and datasets to run the definitions on *)

(** A module [generic_functions] with two models, and a user file that
    imports one of them, derives a model from it and binds an alias. *)
Definition Cosine : pyclass := {|
  cls_id := 2%positive;
  cls_qualname := "Cosine";
  cls_module := "plottr.analyzer.fitters.generic_functions";
  cls_file := "plottr/analyzer/fitters/generic_functions.py";
  cls_mro := [2%positive; 1%positive];
  cls_model_params := ["coordinates"; "A"; "f"; "phi"; "of"];
  cls_model_doc := Some "$A \cos(2 \pi f x + \phi) + of$"
|}.

Definition Linear : pyclass := {|
  cls_id := 3%positive;
  cls_qualname := "Linear";
  cls_module := "plottr.analyzer.fitters.generic_functions";
  cls_file := "plottr/analyzer/fitters/generic_functions.py";
  cls_mro := [3%positive; 1%positive];
  cls_model_params := ["coordinates"; "m"; "of"];
  cls_model_doc := Some "$m x + of$"
|}.

Definition MyCosine : pyclass := {|
  cls_id := 4%positive;
  cls_qualname := "MyCosine";
  cls_module := "my_fits";
  cls_file := "C:/Users/lab/my_fits.py";
  cls_mro := [4%positive; 2%positive; 1%positive];
  cls_model_params := ["coordinates"; "A"; "f"];
  cls_model_doc := Some "a cosine without offset"
|}.

Definition generic_functions : pymodule := {|
  module_name := "plottr.analyzer.fitters.generic_functions";
  module_file := "plottr/analyzer/fitters/generic_functions.py";
  module_members :=
    [("Cosine", PyClass Cosine); ("Fit", PyClass Fit);
     ("Linear", PyClass Linear); ("__name__", PyStr "generic_functions");
     ("np", PyOther "<module 'numpy'>")]
|}.

Definition my_fits : pymodule := {|
  module_name := "my_fits";
  module_file := "C:/Users/lab/my_fits.py";
  module_members :=
    [("Cos", PyClass MyCosine); ("Cosine", PyClass Cosine);
     ("Fit", PyClass Fit); ("MyCosine", PyClass MyCosine);
     ("pi", PyOther "3.141592653589793")]
|}.

(** A unit [my_fits] of the package itself. *)
Definition packaged_my_fits : pymodule := {|
  module_name := "plottr.analyzer.fitters.my_fits";
  module_file := "plottr/analyzer/fitters/my_fits.py";
  module_members := [("Fit", PyClass Fit); ("Linear", PyClass Linear)]
|}.

(** An import finder that knows these files, the user's one in its own
    directory only; the listing of the package; a fit engine that
    succeeds exactly for [Linear] and returns the data as the best fit;
    number fields whose text is no number. *)
Definition ext0 : Externals := {|
  find_module := fun path name =>
    if String.eqb name "plottr.analyzer.fitters.generic_functions"
    then Some generic_functions
    else if String.eqb name "plottr.analyzer.fitters.my_fits"
    then Some packaged_my_fits
    else if String.eqb name "my_fits" && existsb (String.eqb "C:\Users\lab") path
         then Some my_fits else None;
  iter_modules := fun _ =>
    [("fitter_base", false); ("generic_functions", false); ("my_fits", false)];
  run_fit := fun model x y _ =>
    Return {| success := Pos.eqb (cls_id model) (cls_id Linear);
              best_fit := y;
              fit_report := "[[Model]]" |};
  eval_number := fun _ => None;
  str_number := fun _ => "0"
|}.

Definition fitters : pypackage := {|
  pkg_name := "plottr.analyzer.fitters";
  pkg_path := ["plottr/analyzer/fitters"]
|}.

Definition imports0 : ImportSystem := {|
  sys_modules := empty;
  sys_path := ["."]
|}.

Definition imports_lab : ImportSystem := {|
  sys_modules := empty;
  sys_path := ["."; "C:\Users\lab"]
|}.

(** A line [y = 2 x + 1] on one axis, a map [z(x, y)] on two axes, and
    fitting options for the models above. *)
Definition line_data (meta : gmap string pyval) : Dataset := {|
  ds_axes := ["x"];
  ds_dependents := ["y"];
  ds_data :=
    <["x" := {| values := [0; 1; 2; 3]%Z; field_axes := [] |}]>
      (<["y" := {| values := [1; 3; 5; 7]%Z; field_axes := ["x"] |}]> empty);
  ds_meta := meta
|}.

Definition grid_data : Dataset := {|
  ds_axes := ["x"; "y"];
  ds_dependents := ["z"];
  ds_data :=
    <["x" := {| values := [0; 0; 1; 1]%Z; field_axes := [] |}]>
      (<["y" := {| values := [0; 1; 0; 1]%Z; field_axes := [] |}]>
         (<["z" := {| values := [0; 1; 1; 2]%Z; field_axes := ["x"; "y"] |}]>
            empty));
  ds_meta := empty
|}.

Definition free_parameter (v : number) : lmParameter :=
  {| p_vary := true; p_value := v; p_min := None; p_max := None |}.

Definition linear_options : pyval :=
  PyFittingOptions (PyClass Linear)
    [("m", free_parameter 1%Z); ("of", free_parameter 1%Z)].

Definition linear_options' : pyval :=
  PyFittingOptions (PyClass Linear)
    [("m", free_parameter 2%Z); ("of", free_parameter 0%Z)].

Definition cosine_options : pyval :=
  PyFittingOptions (PyClass Cosine)
    [("A", free_parameter 1%Z); ("f", free_parameter 1%Z);
     ("phi", free_parameter 0%Z); ("of", free_parameter 0%Z)].

Definition upstream (v : pyval) : gmap string pyval :=
  <["__fitting_options__" := v]> empty.

Definition node0 (input : Dataset) (opts : pyval) : NodeState := {|
  heap := [input];
  _fitting_options := opts;
  default_fitting_options := []
|}.

(** The widget as [__init__] leaves it for this package: its units are
    listed, the first is current and its models are read, no model is
    selected, live update is off. *)
Definition gui_built : Gui := {|
  imports := imports0;
  fitting_modules :=
    [("generic_functions", generic_functions); ("my_fits", packaged_my_fits)];
  input_options := PyNone;
  live_update := false;
  param_signals := [];
  module_combo := {| combo_items := ["generic_functions"; "my_fits"];
                     combo_index := Some 0 |};
  model_list := {| list_items := []; list_current := None |};
  model_doc_box := "";
  param_table := [];
  connections := [];
  model_list_connections := 0;
  options_changed := [];
  slot_errors := []
|}.

Definition gui0 : Gui := snd (moduleUpdate ext0 "generic_functions" gui_built).

(** The same widget after the user added the file [my_fits.py] of the
    laboratory, whose name is that of a unit of the package. *)
Definition gui_lab : Gui :=
  snd (add_user_module ext0 (Some "C:/Users/lab/my_fits.py") gui0).

(** The widget with [Linear] selected and live update switched on, and
    three edits of its two parameters. *)
Definition gui_live : Gui :=
  snd (setLiveUpdate true (snd (model_list_setCurrentItem ext0 1 gui0))).

Definition three_edits : list edit :=
  [EditFixed 0 true; EditInitial 1 5%Z; EditLower 0 "-5"].

(** A node without options wired to the widget, and two datasets that
    arrive one after the other with different options for [Linear]. *)
Definition system0 : System := {|
  node := {| heap := []; _fitting_options := PyNone;
             default_fitting_options := [] |};
  gui := gui0
|}.

Definition two_arrivals : list event :=
  [Arrive (line_data (upstream linear_options));
   Arrive (line_data (upstream linear_options'))].

(** ** The vocabulary of the statements *)

(** A computation keeps the part [f] of the state, on normal and on
    exceptional exit. *)
Definition keeps {S A T} (f : S -> T) (c : M S A) : Prop :=
  forall s, f (snd (c s)) = f s.

(** The options a call of [process] works with: the node's own, or, when
    it has none, the ones the input carries. *)
Definition resolved_options (st : NodeState) (d : Dataset) : pyval :=
  if is_None (_fitting_options st)
  then ds_get d "__fitting_options__"
  else _fitting_options st.

(** The node after it took over the options of the input [d] and told
    its observers; a node that has options is left as it is. *)
Definition adopted (st : NodeState) (d : Dataset) : NodeState :=
  if is_None (_fitting_options st) && negb (is_None (ds_get d "__fitting_options__"))
  then set_options (ds_get d "__fitting_options__")
         (emit_default (ds_get d "__fitting_options__") st)
  else st.

(** The dataset [d] with a successful fit attached. *)
Definition with_fit (axname : string) (r : lm_result) (d : Dataset) : Dataset :=
  ds_add_meta "info" (PyStr (fit_report r))
    (ds_setitem "fit" {| values := best_fit r; field_axes := [axname] |} d).

(** C1 as the specification words it: the call that adopts the options
    of the input returns the untouched copy. *)
Definition adoption_returns_pass_through (ext : Externals) : Prop :=
  forall (st : NodeState) (l : loc) (d : Dataset),
    heap st !! l = Some d ->
    length (ds_axes d) = 1 ->
    length (ds_dependents d) = 1 ->
    _fitting_options st = PyNone ->
    ds_get d "__fitting_options__" <> PyNone ->
    exists st',
      fitting_process ext (Some l) st = (Return (Some (length (heap st))), st') /\
      _fitting_options st' = ds_get d "__fitting_options__" /\
      default_fitting_options st' =
        (default_fitting_options st ++ [ds_get d "__fitting_options__"])%list /\
      heap st' !! length (heap st) = Some d.

(** C2 as the specification words it: what comes back for data of more
    dimensions is another object than the input, with the same contents. *)
Definition pass_through_returns_a_copy (ext : Externals) : Prop :=
  forall (st : NodeState) (l : loc) (d : Dataset),
    heap st !! l = Some d ->
    1 < length (ds_axes d) \/ 1 < length (ds_dependents d) ->
    exists l' st',
      fitting_process ext (Some l) st = (Return (Some l'), st') /\
      heap st' !! l' = Some d /\
      l' <> l.

(** C6 as the specification words it: every model that discovery
    returns is a class defined in the module itself, listed under its own
    name, and no class is listed twice. *)
Definition discovers_own_definitions (ext : Externals) : Prop :=
  forall (module : pymodule) (st st' : ImportSystem) (D : pydict pyval),
    get_models_in_module ext module st = (Return D, st') ->
    (forall k c, dict_get k D = Some (PyClass c) ->
       cls_qualname c = k /\ cls_module c = module_name module) /\
    (forall k k' c, dict_get k D = Some (PyClass c) ->
       dict_get k' D = Some (PyClass c) -> k = k').

(** A computation that returns normally from every state. *)
Definition never_raises {S A} (c : M S A) : Prop :=
  forall s, exists a, fst (c s) = Return a.

(** C7 as the specification words it: a path that is no Python file is
    refused with an error, and the widget stays as it was. *)
Definition refuses_with_error (ext : Externals) : Prop :=
  forall (mod_file : string) (g : Gui),
    str_suffix 3 mod_file <> ".py" ->
    exists e, add_user_module ext (Some mod_file) g = (Raise e, g).

(** The name and the directory [add_user_module] derives from a path. *)
Definition derived_name (mod_file : string) : string :=
  str_drop_end 3 (list_last (str_split "/" mod_file)).

Definition derived_dir (mod_file : string) : string :=
  str_join "\" (list_init (str_split "/" mod_file)).

Definition disambiguated (mod_file : string) : string :=
  (derived_name mod_file ++ "(" ++ derived_dir mod_file ++ ")")%string.

(** The import system after [sys.path.append(mod_dir)]. *)
Definition with_dir (mod_file : string) (st : ImportSystem) : ImportSystem :=
  {| sys_modules := sys_modules st;
     sys_path := sys_path st ++ [derived_dir mod_file] |}.

(** C8 as the specification words it: the file of the module that was
    imported is compared with the file of the registered module of the
    same name; the same file adds nothing, another file is registered
    under the disambiguated name next to the old one. *)
Definition same_name_rule (ext : Externals) : Prop :=
  forall (mod_file : string) (g : Gui) (existing user_module : pymodule),
    str_suffix 3 mod_file = ".py" ->
    dict_get (derived_name mod_file) (fitting_modules g) = Some existing ->
    fst (import_module ext (derived_name mod_file) (derived_dir mod_file)
           (with_dir mod_file (imports g))) = Return user_module ->
    (module_file user_module = module_file existing ->
     fitting_modules (snd (add_user_module ext (Some mod_file) g))
       = fitting_modules g /\
     combo_items (module_combo (snd (add_user_module ext (Some mod_file) g)))
       = combo_items (module_combo g)) /\
    (module_file user_module <> module_file existing ->
     dict_get (disambiguated mod_file)
       (fitting_modules (snd (add_user_module ext (Some mod_file) g)))
       = Some user_module /\
     dict_get (derived_name mod_file)
       (fitting_modules (snd (add_user_module ext (Some mod_file) g)))
       = Some existing).

(** An operation of the widget may raise "options changed" events; it
    never takes one back. *)
Definition grows {A} (c : M Gui A) : Prop :=
  forall g, length (options_changed g) <= length (options_changed (snd (c g))).

(** Live update is on for the rows of the table: each of the four
    signals of each row is connected to [_signalAllOptions]. *)
Definition live_connected (g : Gui) : Prop :=
  forall i r k,
    param_table g !! i = Some r -> k < 4 ->
    exists n, connections g !! (row_signals r + k) = Some (S n).

(** The same with one connection each, as one switch to live update
    leaves the rows, and the edits of a check box or a spin box. *)
Definition singly_connected (g : Gui) : Prop :=
  forall i r k,
    param_table g !! i = Some r -> k < 4 ->
    connections g !! (row_signals r + k) = Some 1.

Definition is_value_edit (e : edit) : Prop :=
  match e with
  | EditFixed _ _ | EditInitial _ _ => True
  | EditLower _ _ | EditUpper _ _ => False
  end.

(** A model is selected in the list, and the getter can read it. *)
Definition model_selected (g : Gui) : Prop :=
  exists name m v,
    currentItem (model_list g) = Some name /\
    dict_get (currentText (module_combo g)) (fitting_modules g) = Some m /\
    dict_get name (module_members m) = Some v.

(** What the getter reads besides the table. *)
Definition selection (g : Gui) : QListWidget * QComboBox * pydict pymodule :=
  (model_list g, module_combo g, fitting_modules g).

(** The edit is one: the row exists, and a click or a new value differs
    from what the field held. *)
Definition changes_field (e : edit) (g : Gui) : Prop :=
  match e with
  | EditFixed i b =>
      exists r, param_table g !! i = Some r /\ fix_checked r <> b
  | EditInitial i v =>
      exists r, param_table g !! i = Some r /\
                Z.max (spin_min r) (Z.min (spin_max r) v) <> spin_value r
  | EditLower i _ => exists r, param_table g !! i = Some r
  | EditUpper i _ => exists r, param_table g !! i = Some r
  end.

(** Edits in immediate succession, each handled before the next. *)
Definition apply_edits (ext : Externals) (edits : list edit) (g : Gui) : Gui :=
  fold_left (fun g e => snd (apply_edit ext e g)) edits g.

Fixpoint all_change (ext : Externals) (edits : list edit) (g : Gui) : Prop :=
  match edits with
  | [] => True
  | e :: rest =>
      changes_field e g /\ all_change ext rest (snd (apply_edit ext e g))
  end.

(** C9 as the specification words it: three edits of parameter fields
    under live update raise one event between them. *)
Definition three_edits_one_event (ext : Externals) : Prop :=
  forall (g : Gui) (e1 e2 e3 : edit),
    live_connected g ->
    model_selected g ->
    all_change ext [e1; e2; e3] g ->
    length (options_changed (apply_edits ext [e1; e2; e3] g))
      = S (length (options_changed g)).

Definition is_arrival (e : event) : Prop :=
  match e with Arrive _ => True | ReloadInputOption => False end.

(** C3 as the specification words it: once the node has options, data
    that arrive never change them; and after a request to reload the
    input options, the node has the options that arrived last. *)
Definition reload_restores_latest (ext : Externals)
    (to_node : pyval -> NodeState -> NodeState) : Prop :=
  (forall (s : System) (events : list event),
     Forall is_arrival events ->
     _fitting_options (node s) <> PyNone ->
     _fitting_options (node (run ext to_node events s))
       = _fitting_options (node s)) /\
  (forall (s : System) (events : list event),
     last_upstream events PyNone <> PyNone ->
     _fitting_options (node (run ext to_node (events ++ [ReloadInputOption]) s))
       = last_upstream events PyNone).

(** A node that takes as its options whatever the widget signals. *)
Definition store_options (v : pyval) (st : NodeState) : NodeState :=
  set_options v st.


(** ** Further definitions: building the widget, and more vocabulary *)

(** [addModuleComboBox]: a box that is not editable, with one item per
    registered module; no slot is connected to it yet. *)
Definition addModuleComboBox (g : Gui) : QComboBox :=
  fold_left
    (fun combo module_name =>
       {| combo_items := combo_items combo ++ [module_name];
          combo_index := match combo_items combo with
                         | [] => Some 0
                         | _ => combo_index combo
                         end |})
    (dict_keys (fitting_modules g))
    {| combo_items := []; combo_index := None |}.

(** [FittingGui.__init__] for the import system and the module
    dictionary [INITIAL_MODULES] of the process: the fields are set, the
    module box is filled, and [moduleUpdate] is called on its current
    text before any slot is connected to the model list. *)
Definition FittingGui_fields (imp : ImportSystem)
    (INITIAL_MODULES : pydict pymodule) : Gui := {|
  imports := imp;
  fitting_modules := INITIAL_MODULES;
  input_options := PyNone;
  live_update := false;
  param_signals := [];
  module_combo := {| combo_items := []; combo_index := None |};
  model_list := {| list_items := []; list_current := None |};
  model_doc_box := "";
  param_table := [];
  connections := [];
  model_list_connections := 0;
  options_changed := [];
  slot_errors := []
|}.

Definition FittingGui_init (ext : Externals) (imp : ImportSystem)
    (INITIAL_MODULES : pydict pymodule) : outcome unit * Gui :=
  let g := FittingGui_fields imp INITIAL_MODULES in
  let g := set_module_combo (addModuleComboBox g) g in
  moduleUpdate ext (currentText (module_combo g)) g.

(** The externals above with an engine that raises, as [lmfit] does on
    data it cannot take. *)
Definition ext_failing : Externals := {|
  find_module := find_module ext0;
  iter_modules := iter_modules ext0;
  run_fit := fun _ _ _ _ => Raise ValueError;
  eval_number := eval_number ext0;
  str_number := str_number ext0
|}.

(** The package with one more unit, [scratch], that no import finds. *)
Definition ext_broken : Externals := {|
  find_module := find_module ext0;
  iter_modules := fun _ =>
    [("fitter_base", false); ("generic_functions", false);
     ("my_fits", false); ("scratch", false)];
  run_fit := run_fit ext0;
  eval_number := eval_number ext0;
  str_number := str_number ext0
|}.

(** A name that is not cached and that the finder does not find. *)
Definition never_cached (ext : Externals) (bad : string) (st : ImportSystem)
  : Prop :=
  sys_modules st !! bad = None /\ find_module ext (sys_path st) bad = None.

(** A widget for a package with the one unit [generic_functions]. *)
Definition gui_solo : Gui :=
  snd (FittingGui_init ext0 imports0 [("generic_functions", generic_functions)]).

(** The rows that the loop of [updateParamTable] builds for the names
    [params], the four signals of the first row starting at [sig]. *)
Fixpoint fresh_rows (ext : Externals) (params : list string) (sig : nat)
  : list ParamRow :=
  match params with
  | [] => []
  | name :: rest => new_row ext name sig :: fresh_rows ext rest (sig + 4)
  end.

(** Every signal of [sigs] has one connection more. *)
Definition connect_all (sigs : list nat) (conns : list nat) : list nat :=
  fold_left (fun c psig => alter S psig c) sigs conns.

(** The widget once the model list was cleared: a selection that is
    dropped takes the description and the parameter table with it. *)
Definition cleared (g : Gui) : Gui :=
  set_model_list {| list_items := []; list_current := None |}
    (match currentItem (model_list g) with
     | Some _ => set_param_table [] (set_model_doc_box "" g)
     | None => g
     end).

(** The models that discovery lists for the module [m'] as read from its
    file. *)
Definition models_of (m' : pymodule) : pydict pyval :=
  fold_left (fun d mc => dict_set (fst mc) (snd mc) d)
    (getmembers m' is_Fit_subclass) [].

(** ** Rows of the parameter table *)


Definition with_fixed (b : bool) (r : ParamRow) : ParamRow :=
  {| row_name := row_name r; fix_checked := b;
     spin_value := spin_value r; spin_min := spin_min r;
     spin_max := spin_max r; lower_text := lower_text r;
     upper_text := upper_text r; row_signals := row_signals r |}.

(** The spin box with a new range and the value [v] brought into it. *)
Definition with_spin (lo hi v : number) (r : ParamRow) : ParamRow :=
  {| row_name := row_name r; fix_checked := fix_checked r;
     spin_value := Z.max lo (Z.min hi v); spin_min := lo; spin_max := hi;
     lower_text := lower_text r; upper_text := upper_text r;
     row_signals := row_signals r |}.

Definition with_lower (text : string) (r : ParamRow) : ParamRow :=
  {| row_name := row_name r; fix_checked := fix_checked r;
     spin_value := spin_value r; spin_min := spin_min r;
     spin_max := spin_max r; lower_text := text;
     upper_text := upper_text r; row_signals := row_signals r |}.

Definition with_upper (text : string) (r : ParamRow) : ParamRow :=
  {| row_name := row_name r; fix_checked := fix_checked r;
     spin_value := spin_value r; spin_min := spin_min r;
     spin_max := spin_max r; lower_text := lower_text r;
     upper_text := text; row_signals := row_signals r |}.

(** The row an edit acts on, and the row it leaves there. *)
Definition edit_row (e : edit) : nat :=
  match e with
  | EditFixed i _ | EditInitial i _ | EditLower i _ | EditUpper i _ => i
  end.

Definition edited (ext : Externals) (e : edit) (r : ParamRow) : ParamRow :=
  match e with
  | EditFixed _ b => with_fixed b r
  | EditInitial _ v => with_spin (spin_min r) (spin_max r) v r
  | EditLower _ text =>
      let lo := default (- MAX_FLOAT)%Z (eval_number ext text) in
      with_spin lo (Z.max lo (spin_max r)) (spin_value r) (with_lower text r)
  | EditUpper _ text =>
      let hi := default MAX_FLOAT (eval_number ext text) in
      with_spin (Z.min hi (spin_min r)) hi (spin_value r) (with_upper text r)
  end.

(** The row [fittingOptionSetter] leaves for the options of a
    parameter. *)
Definition options_row (ext : Externals) (p : lmParameter) (r : ParamRow)
  : ParamRow :=
  with_upper (py_str ext (p_max p))
    (with_lower (py_str ext (p_min p))
       (with_spin (spin_min r) (spin_max r) (p_value p)
          (with_fixed (negb (p_vary p)) r))).

(** An operation on row [i] of the table: it returns, and the table is
    as before but for that row, which is [r'] now. *)
Definition row_op (c : M Gui unit) (i : nat) (g : Gui) (r' : ParamRow) : Prop :=
  fst (c g) = Return tt /\
  param_table (snd (c g)) = <[i := r']> (param_table g).

(** Externals whose number fields read the texts [5] and [-5]. *)
Definition ext_numbers : Externals := {|
  find_module := find_module ext0;
  iter_modules := iter_modules ext0;
  run_fit := run_fit ext0;
  eval_number := fun text =>
    if String.eqb text "5" then Some 5%Z
    else if String.eqb text "-5" then Some (-5)%Z else None;
  str_number := fun _ => "5"
|}.

(** The parameters the getter reads off the rows of the table. *)
Definition table_parameters (ext : Externals) (rows : list ParamRow)
  : lmParameters :=
  fold_left (fun ps r => dict_set (row_name r) (row_parameter ext r) ps) rows [].

(** A path component: a string without the separator [/]. *)
Definition no_slash (s : string) : Prop :=
  ~ In "/"%char (list_ascii_of_string s).

(** The call came back without an exception. *)
Definition returned {A} (o : outcome A) : bool :=
  match o with
  | Return _ => true
  | Raise _ => false
  end.

(** ** A second user file of the same name *)

(** The file [D:/data/my_fits.py], and an import finder that knows it
    next to the files of [ext0]: the directories of [sys.path] are tried
    in their order, and the first that holds a [my_fits.py] gives the
    module. *)
Definition data_fits : pymodule := {|
  module_name := "my_fits";
  module_file := "D:/data/my_fits.py";
  module_members := [("Fit", PyClass Fit); ("Linear", PyClass Linear)]
|}.

Fixpoint find_my_fits (path : list string) : option pymodule :=
  match path with
  | [] => None
  | dir :: rest =>
      if String.eqb dir "C:\Users\lab" then Some my_fits
      else if String.eqb dir "D:\data" then Some data_fits
      else find_my_fits rest
  end.

Definition ext_data : Externals := {|
  find_module := fun path name =>
    if String.eqb name "plottr.analyzer.fitters.generic_functions"
    then Some generic_functions
    else if String.eqb name "plottr.analyzer.fitters.my_fits"
    then Some packaged_my_fits
    else if String.eqb name "my_fits" then find_my_fits path else None;
  iter_modules := iter_modules ext0;
  run_fit := run_fit ext0;
  eval_number := eval_number ext0;
  str_number := str_number ext0
|}.

(** ** Vocabulary of the statements on events *)

(** The model [v] is the one selected: the member that the current
    module has under the name of the current item. *)
Definition selected_model (g : Gui) (v : pyval) : Prop :=
  exists name m,
    currentItem (model_list g) = Some name /\
    dict_get (currentText (module_combo g)) (fitting_modules g) = Some m /\
    dict_get name (module_members m) = Some v.

(** Each edit of [edits], made one after the other from [g], raises one
    event or more, and each event carries all the options: the model [v]
    with the parameters of every row as the table stands after the
    edit. *)
Fixpoint each_raises (ext : Externals) (v : pyval) (edits : list edit)
    (g : Gui) : Prop :=
  match edits with
  | [] => True
  | e :: rest =>
      (exists n,
         1 <= n /\
         options_changed (snd (apply_edit ext e g))
           = options_changed g
               ++ replicate n
                    (PyFittingOptions v
                       (table_parameters ext
                          (param_table (snd (apply_edit ext e g)))))) /\
      each_raises ext v rest (snd (apply_edit ext e g))
  end.

(** Live update is off and nothing is connected to
    [_signalAllOptions]. *)
Definition quiet (g : Gui) : Prop :=
  live_update g = false /\
  model_list_connections g = 0 /\
  Forall (fun n => n = 0) (connections g).

(** An operation that leaves a quiet widget quiet and raises no event
    on it. *)
Definition stays_quiet {A} (c : M Gui A) : Prop :=
  forall g, quiet g ->
    quiet (snd (c g)) /\ options_changed (snd (c g)) = options_changed g.

(** The signals that [param_signals] lists are those of the rows of the
    table: none is left from rows that were dropped. *)
Definition signals_of_rows (g : Gui) : Prop :=
  param_signals g =
    flat_map (fun r => [row_signals r; row_signals r + 1;
                        row_signals r + 2; row_signals r + 3])
             (param_table g).


(** The operation [c], run on [g], returns, leaves the table [T'] and
    raises [n] events, each carrying the model [v] with the parameters of
    [T']; nothing else of the widget changes. *)
Definition raises_on (ext : Externals) (v : pyval) (c : M Gui unit) (g : Gui)
    (n : nat) (T' : list ParamRow) : Prop :=
  c g = (Return tt,
         set_options_changed
           (options_changed g
              ++ replicate n (PyFittingOptions v (table_parameters ext T')))
           (set_param_table T' g)).

(** * Properties *)

(** ** The monad and the store *)

Lemma bind_Return {S A B} (c : M S A) (k : A -> M S B) s a s' :
  c s = (Return a, s') -> bind c k s = k a s'.
Proof. intros H. unfold bind. now rewrite H. Qed.

Lemma bind_modify {S B} (f : S -> S) (k : unit -> M S B) s :
  bind (modify f) k s = k tt (f s).
Proof. reflexivity. Qed.

Lemma bind_gets {S A B} (f : S -> A) (k : A -> M S B) s :
  bind (gets f) k s = k (f s) s.
Proof. reflexivity. Qed.

Lemma keeps_ret {S A T} (f : S -> T) (a : A) : keeps f (ret a).
Proof. intros s. reflexivity. Qed.

Lemma keeps_raise {S A T} (f : S -> T) e : keeps f (@raise S A e).
Proof. intros s. reflexivity. Qed.

Lemma keeps_gets {S A T} (f : S -> T) (g : S -> A) : keeps f (gets g).
Proof. intros s. reflexivity. Qed.

Lemma keeps_modify {S T} (f : S -> T) (g : S -> S) :
  (forall s, f (g s) = f s) -> keeps f (modify g).
Proof. intros H s. apply H. Qed.

Lemma keeps_bind {S A B T} (f : S -> T) (c : M S A) (k : A -> M S B) :
  keeps f c -> (forall a, keeps f (k a)) -> keeps f (bind c k).
Proof.
  intros Hc Hk s. unfold bind. specialize (Hc s).
  destruct (c s) as [[a | e] s']; cbn [snd] in *.
  - now rewrite Hk.
  - exact Hc.
Qed.

Lemma keeps_for_each {S A T} (f : S -> T) (l : list A) (body : A -> M S unit) :
  (forall a, keeps f (body a)) -> keeps f (for_each l body).
Proof.
  intros H. induction l as [| a l IH]; cbn [for_each].
  - apply keeps_ret.
  - apply keeps_bind; [apply H | intros _; exact IH].
Qed.

Lemma keeps_try_pass {S T} (f : S -> T) (c : M S unit) :
  keeps f c -> keeps f (try_pass c).
Proof.
  intros H s. unfold try_pass. specialize (H s).
  now destruct (c s) as [[a | e] s'].
Qed.

Lemma keeps_try_pass_TypeError {S T} (f : S -> T) (c : M S unit) :
  keeps f c -> keeps f (try_pass_TypeError c).
Proof.
  intros H s. unfold try_pass_TypeError. specialize (H s).
  destruct (c s) as [[a | e] s']; [exact H |]. now destruct e.
Qed.

Lemma keeps_zoom {S U A T} (f : S -> T) (get : S -> U) (set : U -> S -> S)
    (c : M U A) :
  (forall u s, f (set u s) = f s) -> keeps f (zoom get set c).
Proof.
  intros H s. unfold zoom. destruct (c (get s)) as [r u]. apply H.
Qed.

Section NodeFacts.
Context (ext : Externals).

Lemma deref_Some l d st :
  heap st !! l = Some d -> deref l st = (Return d, st).
Proof. intros H. unfold deref. now rewrite H. Qed.

Lemma ds_copy_Some l d st :
  heap st !! l = Some d ->
  ds_copy l st = (Return (length (heap st)), set_heap (heap st ++ [d]) st).
Proof.
  intros H. unfold ds_copy.
  now rewrite (bind_Return _ _ _ _ _ (deref_Some _ _ _ H)).
Qed.

Lemma update_at_last f h d st :
  heap st = h ++ [d] ->
  update_at (length h) f st = (Return tt, set_heap (h ++ [f d]) st).
Proof.
  intros H. unfold update_at.
  assert (Hd : heap st !! length h = Some d).
  { rewrite H. apply list_lookup_middle. reflexivity. }
  rewrite (bind_Return _ _ _ _ _ (deref_Some _ _ _ Hd)).
  unfold modify. rewrite H.
  rewrite insert_app_r_alt by lia.
  now rewrite Nat.sub_diag.
Qed.

(** [run_fitting] on data with an axis and a dependent, for options that
    name a model class: the engine decides what is written to the copy. *)
Lemma run_fitting_spec st h l d d' ax dep axs deps fx fy c ps :
  heap st = h ++ [d'] ->
  h !! l = Some d ->
  ds_axes d = ax :: axs ->
  ds_dependents d = dep :: deps ->
  ds_data d !! ax = Some fx ->
  ds_data d !! dep = Some fy ->
  _fitting_options st = PyFittingOptions (PyClass c) ps ->
  run_fitting ext l (length h) st =
    match run_fit ext c (values fx) (values fy) ps with
    | Return r =>
        (Return (Some (length h)),
         set_heap (h ++ [if success r then with_fit ax r d' else d']) st)
    | Raise e => (Raise e, st)
    end.
Proof.
  intros Hh Hl Hax Hdep Hx Hy Hopt.
  assert (Hd : heap st !! l = Some d).
  { rewrite Hh. now apply lookup_app_l_Some. }
  unfold run_fitting.
  rewrite (bind_Return _ _ _ _ _ (deref_Some _ _ _ Hd)).
  rewrite Hax. cbn [index0]. unfold bind at 1, ret at 1.
  unfold data_vals at 1. rewrite Hx. unfold bind at 1, ret at 1.
  rewrite Hdep. cbn [index0]. unfold bind at 1, ret at 1.
  unfold data_vals at 1. rewrite Hy. unfold bind at 1, ret at 1.
  unfold bind at 1, gets at 1. rewrite Hopt.
  unfold bind at 1.
  destruct (run_fit ext c (values fx) (values fy) ps) as [r | e]; [| reflexivity].
  destruct (success r) eqn:Hs.
  - erewrite bind_Return.
    2:{ erewrite bind_Return; [| apply update_at_last; exact Hh].
        apply update_at_last. reflexivity. }
    reflexivity.
  - unfold bind, ret. rewrite <- Hh. now destruct st.
Qed.

(** [fitting_process] on such data, when the node or the input has
    options that name a model class. *)
Lemma fitting_process_fit st l d ax dep fx fy c ps :
  heap st !! l = Some d ->
  ds_axes d = [ax] ->
  ds_dependents d = [dep] ->
  ds_data d !! ax = Some fx ->
  ds_data d !! dep = Some fy ->
  resolved_options st d = PyFittingOptions (PyClass c) ps ->
  fitting_process ext (Some l) st =
    match run_fit ext c (values fx) (values fy) ps with
    | Return r =>
        (Return (Some (length (heap st))),
         set_heap (heap st ++ [if success r then with_fit ax r d else d])
                  (adopted st d))
    | Raise e => (Raise e, set_heap (heap st ++ [d]) (adopted st d))
    end.
Proof.
  intros Hl Hax Hdep Hx Hy Hopt.
  unfold fitting_process.
  rewrite (bind_Return _ _ _ _ _ (deref_Some _ _ _ Hl)).
  rewrite Hax, Hdep. simpl.
  rewrite (bind_Return _ _ _ _ _ (ds_copy_Some _ _ _ Hl)).
  unfold bind at 1. unfold gets at 1. simpl.
  unfold resolved_options in Hopt. unfold adopted.
  destruct (is_None (_fitting_options st)) eqn:Hnone; simpl.
  - rewrite Hopt. simpl.
    unfold bind at 1 2, modify. simpl.
    erewrite (run_fitting_spec _ (heap st) l d d ax dep [] [] fx fy c ps);
      [| reflexivity | assumption .. | reflexivity ].
    destruct (run_fit ext c (values fx) (values fy) ps); reflexivity.
  - erewrite (run_fitting_spec _ (heap st) l d d ax dep [] [] fx fy c ps);
      [| reflexivity | assumption .. ].
    destruct (run_fit ext c (values fx) (values fy) ps); reflexivity.
Qed.

Lemma keeps_deref {T} (f : NodeState -> T) l : keeps f (deref l).
Proof. intros s. unfold deref. now destruct (heap s !! l). Qed.

Lemma keeps_update_at {T} (f : NodeState -> T) l g :
  (forall h s, f (set_heap h s) = f s) -> keeps f (update_at l g).
Proof.
  intros H. unfold update_at. apply keeps_bind; [apply keeps_deref |].
  intros d. apply keeps_modify. intros s. apply H.
Qed.

Lemma keeps_index0 {S T} (f : S -> T) names : keeps f (index0 names).
Proof. destruct names; [apply keeps_raise | apply keeps_ret]. Qed.

Lemma keeps_data_vals {S T} (f : S -> T) d name : keeps f (data_vals d name).
Proof.
  unfold data_vals. destruct (ds_data d !! name); [apply keeps_ret | apply keeps_raise].
Qed.

Lemma run_fitting_keeps_options l l' :
  keeps _fitting_options (run_fitting ext l l').
Proof.
  unfold run_fitting.
  repeat first
    [ apply keeps_deref | apply keeps_index0 | apply keeps_data_vals
    | apply keeps_gets | apply keeps_ret | apply keeps_raise
    | apply keeps_update_at; reflexivity
    | apply keeps_bind; [| intros ?]
    | match goal with
      | |- keeps _ (match ?x with _ => _ end) => destruct x
      end
    | intros ?; reflexivity ].
Qed.

Lemma fitting_process_keeps_options st dataIn :
  _fitting_options st <> PyNone ->
  _fitting_options (snd (fitting_process ext dataIn st)) = _fitting_options st.
Proof.
  intros Hset. destruct dataIn as [l |]; [| reflexivity].
  unfold fitting_process, bind at 1, deref.
  destruct (heap st !! l) as [d |] eqn:Hl; [| reflexivity].
  destruct (_ || _); [reflexivity |].
  rewrite (bind_Return _ _ _ _ _ (ds_copy_Some _ _ _ Hl)).
  unfold bind at 1, gets at 1. cbn [_fitting_options set_heap].
  destruct (is_None (_fitting_options st)) eqn:Hn.
  { destruct (_fitting_options st); try discriminate. now destruct Hset. }
  now rewrite run_fitting_keeps_options.
Qed.

End NodeFacts.

(** ** The fitting node *)

(** The function under the [fitting_options] setter, lines 538-541: it
    stores [v] when [v] is a [FittingOptions] instance or [None]; for any
    other value it raises [TypeError] and leaves the node, its stored
    options included, as it was.  This is the body alone: what the
    decorator of line 536 adds to an assignment lies in node.py. *)
Lemma setter_body_typed (v : pyval) (st : NodeState) :
  ((exists model parameters, v = PyFittingOptions model parameters) \/ v = PyNone ->
   set_fitting_options v st = (Return tt, set_options v st)) /\
  (~ ((exists model parameters, v = PyFittingOptions model parameters) \/ v = PyNone) ->
   set_fitting_options v st = (Raise TypeError, st)) /\
  ((exists st', set_fitting_options v st = (Return tt, st')) <->
   ((exists model parameters, v = PyFittingOptions model parameters) \/ v = PyNone)).
Proof.
  assert (Hok : (exists model parameters, v = PyFittingOptions model parameters)
                \/ v = PyNone ->
                set_fitting_options v st = (Return tt, set_options v st)).
  { intros [(m & p & ->) | ->]; reflexivity. }
  assert (Hbad : ~ ((exists model parameters, v = PyFittingOptions model parameters)
                    \/ v = PyNone) ->
                 set_fitting_options v st = (Raise TypeError, st)).
  { intros Hn. destruct v; try reflexivity.
    - destruct Hn. now right.
    - destruct Hn. left. eauto. }
  split; [exact Hok |]. split; [exact Hbad |]. split.
  - intros [st' Hst']. destruct v; try (now right); try (left; eauto);
      unfold set_fitting_options in Hst'; discriminate.
  - intros H. eexists. now apply Hok.
Qed.

Lemma setter_body_typed_at_linear :
  set_fitting_options linear_options (node0 grid_data cosine_options)
    = (Return tt, node0 grid_data linear_options) /\
  set_fitting_options (PyStr "Linear") (node0 grid_data cosine_options)
    = (Raise TypeError, node0 grid_data cosine_options).
Proof.
  split.
  - apply (proj1 (setter_body_typed linear_options
                    (node0 grid_data cosine_options))).
    left. eexists. eexists. reflexivity.
  - apply (proj1 (proj2 (setter_body_typed (PyStr "Linear")
                           (node0 grid_data cosine_options)))).
    intros [(m & p & H) | H]; discriminate.
Defined.

Lemma fitting_process_many_dims (ext : Externals) (st : NodeState)
    (l : loc) (d : Dataset) :
  heap st !! l = Some d ->
  1 < length (ds_axes d) \/ 1 < length (ds_dependents d) ->
  fitting_process ext (Some l) st = (Return (Some l), st).
Proof.
  intros Hl Hdim. unfold fitting_process.
  rewrite (bind_Return _ _ _ _ _ (deref_Some _ _ _ Hl)).
  assert (H : (1 <? length (ds_axes d))%nat || (1 <? length (ds_dependents d))%nat
               = true).
  { apply orb_true_iff. destruct Hdim; [left | right]; now apply Nat.ltb_lt. }
  now rewrite H.
Qed.

(** C2, as the code has it. For an input with more than one axis or more
    than one dependent, whatever the node's options, [process] returns the
    input object itself and changes nothing: the result has the arrays and
    the metadata of the input, no fit and no report, and no copy is made. *)
Theorem pass_through_returns_input (ext : Externals) (st : NodeState)
    (l : loc) (d : Dataset) :
  heap st !! l = Some d ->
  1 < length (ds_axes d) \/ 1 < length (ds_dependents d) ->
  process ext (Some l) st = (Return (Some l), st).
Proof.
  intros Hl Hdim. unfold process. now apply (fitting_process_many_dims ext st l d).
Qed.

Lemma pass_through_returns_input_witness :
  process ext0 (Some 0) (node0 grid_data linear_options)
    = (Return (Some 0), node0 grid_data linear_options).
Proof.
  apply (pass_through_returns_input ext0 (node0 grid_data linear_options) 0 grid_data).
  - reflexivity.
  - left. simpl. lia.
Defined.

(** C2, read literally, fails: for the map on two axes the object that
    comes back is the input, not a copy of it. *)
Lemma pass_through_is_not_a_copy : ~ pass_through_returns_a_copy ext0.
Proof.
  intros H.
  destruct (H (node0 grid_data PyNone) 0 grid_data) as (l' & st' & Hp & _ & Hne).
  - reflexivity.
  - left. simpl. lia.
  - rewrite (fitting_process_many_dims ext0 _ 0 grid_data) in Hp.
    + inversion Hp. congruence.
    + reflexivity.
    + left. simpl. lia.
Qed.

(** C1, as the code has it. On an input with one axis and one dependent,
    a node without options takes over the options of the input, tells its
    observers, and goes on to fit with them in the same call: the copy it
    returns carries the fit and the report when the engine reports
    success and is the plain copy when it reports failure; an exception of
    the engine leaves the adoption in place. *)
Theorem adoption_then_fit (ext : Externals) (st : NodeState) (l : loc)
    (d : Dataset) (ax dep : string) (fx fy : DataField) (c : pyclass)
    (ps : lmParameters) :
  heap st !! l = Some d ->
  ds_axes d = [ax] ->
  ds_dependents d = [dep] ->
  ds_data d !! ax = Some fx ->
  ds_data d !! dep = Some fy ->
  _fitting_options st = PyNone ->
  ds_get d "__fitting_options__" = PyFittingOptions (PyClass c) ps ->
  process ext (Some l) st =
    match run_fit ext c (values fx) (values fy) ps with
    | Return r =>
        (Return (Some (length (heap st))),
         {| heap := heap st ++ [if success r then with_fit ax r d else d];
            _fitting_options := PyFittingOptions (PyClass c) ps;
            default_fitting_options :=
              default_fitting_options st ++ [PyFittingOptions (PyClass c) ps] |})
    | Raise e =>
        (Raise e,
         {| heap := heap st ++ [d];
            _fitting_options := PyFittingOptions (PyClass c) ps;
            default_fitting_options :=
              default_fitting_options st ++ [PyFittingOptions (PyClass c) ps] |})
    end.
Proof.
  intros Hl Hax Hdep Hx Hy Hnone Hup. unfold process.
  rewrite (fitting_process_fit ext st l d ax dep fx fy c ps); try assumption.
  - unfold adopted. rewrite Hnone, Hup.
    destruct (run_fit ext c (values fx) (values fy) ps); reflexivity.
  - unfold resolved_options. now rewrite Hnone.
Qed.

Lemma adoption_then_fit_witness :
  process ext0 (Some 0) (node0 (line_data (upstream linear_options)) PyNone) =
    (Return (Some 1),
     {| heap := [line_data (upstream linear_options);
                 with_fit "x" {| success := true; best_fit := [1; 3; 5; 7]%Z;
                                 fit_report := "[[Model]]" |}
                   (line_data (upstream linear_options))];
        _fitting_options := linear_options;
        default_fitting_options := [linear_options] |}).
Proof.
  apply (adoption_then_fit ext0 (node0 (line_data (upstream linear_options)) PyNone)
           0 (line_data (upstream linear_options)) "x" "y"
           {| values := [0; 1; 2; 3]%Z; field_axes := [] |}
           {| values := [1; 3; 5; 7]%Z; field_axes := ["x"] |}
           Linear [("m", free_parameter 1%Z); ("of", free_parameter 1%Z)]);
    reflexivity.
Defined.

(** C1, read literally, fails: the call that adopts the options of the
    input already returns the fitted copy. *)
Lemma adoption_is_not_pass_through : ~ adoption_returns_pass_through ext0.
Proof.
  intros H.
  destruct (H (node0 (line_data (upstream linear_options)) PyNone) 0
              (line_data (upstream linear_options)))
    as (st' & Hp & _ & _ & Hcopy); try reflexivity; try discriminate.
  rewrite (fitting_process_fit ext0 _ 0 (line_data (upstream linear_options))
             "x" "y"
             {| values := [0; 1; 2; 3]%Z; field_axes := [] |}
             {| values := [1; 3; 5; 7]%Z; field_axes := ["x"] |}
             Linear [("m", free_parameter 1%Z); ("of", free_parameter 1%Z)])
    in Hp by reflexivity.
  cbn [run_fit ext0 success] in Hp.
  inversion Hp as [Hst]. rewrite <- Hst in Hcopy.
  cbn [heap set_heap node0 length app] in Hcopy.
  apply (f_equal (fun o => match o with
                           | Some d' => ds_meta d' !! "info"
                           | None => None
                           end)) in Hcopy.
  vm_compute in Hcopy. discriminate.
Qed.

(** C4. On an input with one axis and one dependent, with options that
    name a model class (the node's own, or the input's when the node has
    none), an engine that reports failure makes [process] return
    normally, and what it returns is a new object with exactly the
    contents of the input: no fit, no report, no exception. *)
Theorem failed_fit_passes_through (ext : Externals) (st : NodeState) (l : loc)
    (d : Dataset) (ax dep : string) (fx fy : DataField) (c : pyclass)
    (ps : lmParameters) (r : lm_result) :
  heap st !! l = Some d ->
  ds_axes d = [ax] ->
  ds_dependents d = [dep] ->
  ds_data d !! ax = Some fx ->
  ds_data d !! dep = Some fy ->
  resolved_options st d = PyFittingOptions (PyClass c) ps ->
  run_fit ext c (values fx) (values fy) ps = Return r ->
  success r = false ->
  exists st',
    process ext (Some l) st = (Return (Some (length (heap st))), st') /\
    heap st' = heap st ++ [d] /\
    heap st' !! length (heap st) = Some d /\
    heap st' !! l = Some d /\
    l <> length (heap st).
Proof.
  intros Hl Hax Hdep Hx Hy Hopt Hrun Hfail. unfold process.
  rewrite (fitting_process_fit ext st l d ax dep fx fy c ps) by assumption.
  rewrite Hrun, Hfail. eexists. split; [reflexivity |].
  assert (Hlt : l < length (heap st)) by (eapply lookup_lt_Some; eassumption).
  assert (Hh : heap (set_heap (heap st ++ [d]) (adopted st d)) = heap st ++ [d])
    by reflexivity.
  rewrite Hh. repeat split.
  - now apply list_lookup_middle.
  - now apply lookup_app_l_Some.
  - lia.
Qed.

Lemma failed_fit_passes_through_witness :
  exists st',
    process ext0 (Some 0) (node0 (line_data empty) cosine_options)
      = (Return (Some 1), st') /\
    heap st' = [line_data empty; line_data empty] /\
    heap st' !! 1 = Some (line_data empty) /\
    heap st' !! 0 = Some (line_data empty) /\
    0 <> 1.
Proof.
  apply (failed_fit_passes_through ext0 (node0 (line_data empty) cosine_options)
           0 (line_data empty) "x" "y"
           {| values := [0; 1; 2; 3]%Z; field_axes := [] |}
           {| values := [1; 3; 5; 7]%Z; field_axes := ["x"] |}
           Cosine
           [("A", free_parameter 1%Z); ("f", free_parameter 1%Z);
            ("phi", free_parameter 0%Z); ("of", free_parameter 0%Z)]
           {| success := false; best_fit := [1; 3; 5; 7]%Z;
              fit_report := "[[Model]]" |});
    reflexivity.
Defined.

(** C5. On an input with one axis and one dependent, with options that
    name a model class, an engine that reports success makes [process]
    return a new object: the contents of the input with the best fit
    under ['fit'], tagged with the axis of the input, and the report of
    the engine under the metadata key ['info'].  The input object is
    still in the store as it was. *)
Theorem successful_fit_attached (ext : Externals) (st : NodeState) (l : loc)
    (d : Dataset) (ax dep : string) (fx fy : DataField) (c : pyclass)
    (ps : lmParameters) (r : lm_result) :
  heap st !! l = Some d ->
  ds_axes d = [ax] ->
  ds_dependents d = [dep] ->
  ds_data d !! ax = Some fx ->
  ds_data d !! dep = Some fy ->
  resolved_options st d = PyFittingOptions (PyClass c) ps ->
  run_fit ext c (values fx) (values fy) ps = Return r ->
  success r = true ->
  exists st' out,
    process ext (Some l) st = (Return (Some (length (heap st))), st') /\
    heap st' !! length (heap st) = Some out /\
    out = ds_add_meta "info" (PyStr (fit_report r))
            (ds_setitem "fit" {| values := best_fit r; field_axes := [ax] |} d) /\
    ds_data out !! "fit" = Some {| values := best_fit r; field_axes := [ax] |} /\
    ds_meta out !! "info" = Some (PyStr (fit_report r)) /\
    heap st' !! l = Some d /\
    l <> length (heap st).
Proof.
  intros Hl Hax Hdep Hx Hy Hopt Hrun Hok. unfold process.
  rewrite (fitting_process_fit ext st l d ax dep fx fy c ps) by assumption.
  rewrite Hrun, Hok. eexists. eexists. split; [reflexivity |].
  assert (Hlt : l < length (heap st)) by (eapply lookup_lt_Some; eassumption).
  cbn [heap set_heap]. repeat split.
  - now apply list_lookup_middle.
  - cbn. apply lookup_insert_eq.
  - cbn. apply lookup_insert_eq.
  - now apply lookup_app_l_Some.
  - lia.
Qed.

Lemma successful_fit_attached_witness :
  exists st' out,
    process ext0 (Some 0) (node0 (line_data empty) linear_options)
      = (Return (Some 1), st') /\
    heap st' !! 1 = Some out /\
    out = ds_add_meta "info" (PyStr "[[Model]]")
            (ds_setitem "fit" {| values := [1; 3; 5; 7]%Z; field_axes := ["x"] |}
               (line_data empty)) /\
    ds_data out !! "fit" = Some {| values := [1; 3; 5; 7]%Z; field_axes := ["x"] |} /\
    ds_meta out !! "info" = Some (PyStr "[[Model]]") /\
    heap st' !! 0 = Some (line_data empty) /\
    0 <> 1.
Proof.
  apply (successful_fit_attached ext0 (node0 (line_data empty) linear_options)
           0 (line_data empty) "x" "y"
           {| values := [0; 1; 2; 3]%Z; field_axes := [] |}
           {| values := [1; 3; 5; 7]%Z; field_axes := ["x"] |}
           Linear [("m", free_parameter 1%Z); ("of", free_parameter 1%Z)]
           {| success := true; best_fit := [1; 3; 5; 7]%Z;
              fit_report := "[[Model]]" |});
    reflexivity.
Defined.

(** ** Dictionaries *)

Lemma dict_get_set_same {V} k (v : V) d : dict_get k (dict_set k v d) = Some v.
Proof.
  induction d as [| [k' v'] d IH]; cbn.
  - now rewrite String.eqb_refl.
  - destruct (String.eqb k k') eqn:E; cbn; rewrite ?String.eqb_refl, ?E; auto.
Qed.

Lemma dict_get_set_other {V} k k' (v : V) d :
  k <> k' -> dict_get k' (dict_set k v d) = dict_get k' d.
Proof.
  intros Hne. induction d as [| [k0 v0] d IH]; cbn.
  - destruct (String.eqb k' k) eqn:E; [| reflexivity].
    apply String.eqb_eq in E. congruence.
  - destruct (String.eqb k k0) eqn:E; cbn.
    + apply String.eqb_eq in E. subst k0.
      destruct (String.eqb k' k) eqn:E'; [| reflexivity].
      apply String.eqb_eq in E'. congruence.
    + now rewrite IH.
Qed.

Lemma dict_set_fresh {V} k (v : V) d :
  ~ In k (dict_keys d) -> dict_set k v d = d ++ [(k, v)].
Proof.
  induction d as [| [k' v'] d IH]; cbn; intros Hn; [reflexivity |].
  destruct (String.eqb k k') eqn:E.
  - apply String.eqb_eq in E. destruct Hn. now left.
  - rewrite IH; [reflexivity |]. intros Hin. apply Hn. now right.
Qed.

Lemma dict_get_None {V} k (d : pydict V) :
  dict_get k d = None <-> ~ In k (dict_keys d).
Proof.
  induction d as [| [k' v'] d IH]; cbn.
  - tauto.
  - destruct (String.eqb k k') eqn:E.
    + apply String.eqb_eq in E. subst. split; [discriminate | intros H; destruct H; now left].
    + apply String.eqb_neq in E. rewrite IH. split.
      * intros Hn [H | H]; [congruence | tauto].
      * tauto.
Qed.

Lemma dict_get_In {V} k (v : V) d :
  NoDup (dict_keys d) -> (dict_get k d = Some v <-> In (k, v) d).
Proof.
  induction d as [| [k' v'] d IH]; cbn; intros Hnd.
  - split; [discriminate | tauto].
  - apply NoDup_cons in Hnd as [Hk Hnd].
    destruct (String.eqb k k') eqn:E.
    + apply String.eqb_eq in E. subst k'. split.
      * intros [= ->]. now left.
      * intros [[= ->] | Hin]; [reflexivity |].
        destruct Hk. apply list_elem_of_In.
        apply in_map_iff. now exists (k, v).
    + apply String.eqb_neq in E. rewrite (IH Hnd). split.
      * tauto.
      * intros [[= -> _] | Hin]; [congruence | assumption].
Qed.

Lemma dict_mem_true {V} k (d : pydict V) :
  dict_mem k d = true <-> In k (dict_keys d).
Proof.
  unfold dict_mem. destruct (dict_get k d) eqn:E.
  - split; [| reflexivity]. intros _.
    destruct (in_dec string_dec k (dict_keys d)) as [H | H]; [exact H |].
    apply dict_get_None in H. congruence.
  - apply dict_get_None in E. split; [discriminate | tauto].
Qed.

Lemma fold_dict_set_fresh {V} (l acc : pydict V) :
  NoDup (dict_keys (acc ++ l)) ->
  fold_left (fun d mc => dict_set (fst mc) (snd mc) d) l acc = acc ++ l.
Proof.
  revert acc. induction l as [| [k v] l IH]; intros acc Hnd; cbn.
  - now rewrite app_nil_r.
  - rewrite dict_set_fresh.
    + rewrite IH; rewrite <- app_assoc; [reflexivity | exact Hnd].
    + unfold dict_keys in *. rewrite map_app in Hnd. cbn in Hnd.
      apply NoDup_app in Hnd as (_ & Hd & _). intros Hin.
      apply (Hd k); [now apply list_elem_of_In | left].
Qed.

(** ** Discovery *)

Section DiscoveryFacts.
Context (ext : Externals).

Lemma is_Fit_subclass_true v :
  is_Fit_subclass v = true <->
  exists c, v = PyClass c /\ In (cls_id Fit) (cls_mro c) /\ cls_id c <> cls_id Fit.
Proof.
  destruct v as [| s | c | m p | s]; cbn [is_Fit_subclass];
    try (split; [discriminate | intros (c' & [=] & _)]).
  rewrite andb_true_iff, negb_true_iff, Pos.eqb_neq, existsb_exists. split.
  - intros [(x & Hin & Hx) Hne]. apply Pos.eqb_eq in Hx. subst x.
    exists c. auto.
  - intros (c' & [= <-] & Hin & Hne). split; [| exact Hne].
    exists 1%positive. split; [exact Hin | apply Pos.eqb_refl].
Qed.

(** After the cached module is dropped, the import reads the file anew. *)
Lemma reimport_fresh name st m' :
  find_module ext (sys_path st) name = Some m' ->
  (try_pass (del_sys_modules name) ;; import_module ext name "") st =
    (Return m', set_sys_modules (<[name := m']> (delete name (sys_modules st))) st).
Proof.
  intros Hfind. unfold bind, try_pass, del_sys_modules, import_module.
  assert (Hres : resolve_name name "" = name).
  { destruct name as [| a s]; [reflexivity |].
    destruct a as [[] [] [] [] [] [] [] []]; reflexivity. }
  destruct (sys_modules st !! name) eqn:E; rewrite Hres; cbn.
  - rewrite lookup_delete_eq, Hfind. reflexivity.
  - rewrite E, Hfind. rewrite (delete_id _ _ E). reflexivity.
Qed.

Lemma get_models_in_module_fresh module st m' :
  find_module ext (sys_path st) (module_name module) = Some m' ->
  NoDup (map fst (module_members m')) ->
  get_models_in_module ext module st =
    (Return (List.filter (fun mc => is_Fit_subclass (snd mc)) (module_members m')),
     set_sys_modules (<[module_name module := m']>
                        (delete (module_name module) (sys_modules st))) st).
Proof.
  intros Hfind Hnd. unfold get_models_in_module.
  pose proof (reimport_fresh _ _ _ Hfind) as Hre. unfold bind in Hre |- *.
  destruct (try_pass (del_sys_modules (module_name module)) st) as [[[] | e] st1];
    [| discriminate].
  rewrite Hre. unfold ret, getmembers. f_equal. f_equal.
  apply (fold_dict_set_fresh _ []). cbn [app].
  unfold dict_keys. clear -Hnd.
  induction (module_members m') as [| [k v] l IH]; cbn; [constructor |].
  apply NoDup_cons in Hnd as [Hk Hnd].
  destruct (is_Fit_subclass v); cbn; [| auto].
  apply NoDup_cons. split; [| auto].
  intros Hin. apply Hk. apply list_elem_of_In in Hin. apply list_elem_of_In.
  apply in_map_iff in Hin as ([k' v'] & Heq & Hin). cbn in Heq. subst k'.
  apply filter_In in Hin as [Hin _]. apply in_map_iff. now exists (k, v').
Qed.

(** The loop over the units of a package never enters [fitter_base]. *)
Lemma get_modules_loop_skips_base pkg units modules st :
  dict_get "fitter_base" modules = None ->
  match get_modules_loop ext pkg units modules st with
  | (Return D, _) => dict_get "fitter_base" D = None
  | (Raise _, _) => True
  end.
Proof.
  revert modules st. induction units as [| [modname ispkg] units IH];
    intros modules st Hnone; cbn.
  - exact Hnone.
  - destruct (String.eqb modname "fitter_base") eqn:E; cbn; [now apply IH |].
    apply String.eqb_neq in E.
    unfold bind at 1.
    destruct (import_module ext _ _ st) as [[m1 | e1] st1]; [| exact I].
    unfold bind at 1.
    destruct (try_pass _ st1) as [[u | e2] st2]; [| exact I].
    unfold bind at 1.
    destruct (import_module ext _ _ st2) as [[m2 | e3] st3]; [| exact I].
    apply IH. rewrite dict_get_set_other by exact E. exact Hnone.
Qed.

(** The import system keeps its search path. *)
Lemma import_module_path name package st :
  sys_path (snd (import_module ext name package st)) = sys_path st.
Proof.
  unfold import_module.
  destruct (sys_modules st !! _); [reflexivity |].
  now destruct (find_module ext _ _).
Qed.

Lemma import_module_found name package st m :
  find_module ext (sys_path st) (resolve_name name package) = Some m ->
  exists m' st', import_module ext name package st = (Return m', st') /\
                 sys_path st' = sys_path st.
Proof.
  intros Hfind. unfold import_module.
  destruct (sys_modules st !! _) as [m0 |].
  - now exists m0, st.
  - rewrite Hfind. eexists. eexists. split; reflexivity.
Qed.

(** When every listed unit but [fitter_base] can be imported, the loop
    returns, and its keys are those of the start and the listed names. *)
Lemma get_modules_loop_total pkg units modules st :
  (forall modname ispkg, In (modname, ispkg) units ->
     modname <> "fitter_base" ->
     exists m, find_module ext (sys_path st)
                 (resolve_name ("." ++ modname) (pkg_name pkg)) = Some m) ->
  exists D st',
    get_modules_loop ext pkg units modules st = (Return D, st') /\
    forall k, In k (dict_keys D) <->
              In k (dict_keys modules) \/
              (In k (map fst units) /\ k <> "fitter_base").
Proof.
  revert modules st. induction units as [| [modname ispkg] units IH];
    intros modules st Hall; cbn.
  - exists modules, st. split; [reflexivity |]. intros k. tauto.
  - destruct (String.eqb modname "fitter_base") eqn:E; cbn.
    + apply String.eqb_eq in E. subst modname.
      destruct (IH modules st) as (D & st' & HD & Hkeys).
      { intros mn ip Hin. apply (Hall mn ip). now right. }
      exists D, st'. split; [exact HD |]. intros k. rewrite Hkeys.
      split; [tauto |]. intros [H | [[H | H] Hne]]; [tauto | congruence | tauto].
    + apply String.eqb_neq in E.
      destruct (Hall modname ispkg (or_introl eq_refl) E) as [m Hm].
      destruct (import_module_found _ _ _ _ Hm) as (m1 & st1 & H1 & Hp1).
      rewrite (bind_Return _ _ _ _ _ H1).
      unfold bind at 1.
      destruct (try_pass (del_sys_modules (module_name m1)) st1)
        as [[u | e2] st2] eqn:E2.
      2:{ unfold try_pass in E2.
          destruct (del_sys_modules (module_name m1) st1) as [[] ?]; discriminate. }
      assert (Hp2 : sys_path st2 = sys_path st1).
      { unfold try_pass, del_sys_modules in E2.
        destruct (sys_modules st1 !! module_name m1); inversion E2; reflexivity. }
      assert (Hm2 : find_module ext (sys_path st2)
                      (resolve_name ("." ++ modname) (pkg_name pkg)) = Some m)
        by now rewrite Hp2, Hp1.
      destruct (import_module_found _ _ _ _ Hm2) as (m2 & st3 & H3 & Hp3).
      rewrite (bind_Return _ _ _ _ _ H3).
      destruct (IH (dict_set modname m2 modules) st3) as (D & st' & HD & Hkeys).
      { intros mn ip Hin Hne. rewrite Hp3, Hp2, Hp1. apply (Hall mn ip); [now right | exact Hne]. }
      exists D, st'. split; [exact HD |]. intros k. rewrite Hkeys.
      assert (Hset : In k (dict_keys (dict_set modname m2 modules)) <->
                     k = modname \/ In k (dict_keys modules)).
      { rewrite <- !dict_mem_true. unfold dict_mem.
        destruct (string_dec modname k) as [-> | Hne].
        - rewrite dict_get_set_same. split; auto.
        - rewrite dict_get_set_other by exact Hne. split; [auto |].
          intros [-> | H]; [congruence | exact H]. }
      rewrite Hset. split.
      * intros [[-> | H] | [H Hne]]; [right; split; [now left | exact E] | now left |].
        right. split; [now right | exact Hne].
      * intros [H | [[<- | H] Hne]]; [left; now right | left; now left |].
        right. split; assumption.
Qed.

Lemma keeps_sys_path_import_module name package :
  keeps sys_path (import_module ext name package).
Proof. intros st. apply import_module_path. Qed.

Lemma keeps_sys_path_del_sys_modules name :
  keeps sys_path (del_sys_modules name).
Proof.
  intros st. unfold del_sys_modules. now destruct (sys_modules st !! name).
Qed.

Lemma keeps_sys_path_get_models_in_module module :
  keeps sys_path (get_models_in_module ext module).
Proof.
  unfold get_models_in_module.
  apply keeps_bind; [apply keeps_try_pass, keeps_sys_path_del_sys_modules |].
  intros _. apply keeps_bind; [apply keeps_sys_path_import_module |].
  intros m. apply keeps_ret.
Qed.

(** A module that the finder finds is read by discovery without error. *)
Lemma get_models_in_module_returns module st m' :
  find_module ext (sys_path st) (module_name module) = Some m' ->
  exists D, fst (get_models_in_module ext module st) = Return D.
Proof.
  intros Hfind. unfold get_models_in_module.
  pose proof (reimport_fresh _ _ _ Hfind) as Hre. unfold bind in Hre |- *.
  destruct (try_pass (del_sys_modules (module_name module)) st) as [[[] | e] st1];
    [| discriminate].
  rewrite Hre. eexists. reflexivity.
Qed.

End DiscoveryFacts.

(** C6, as the code has it. For every module that can be imported,
    discovery imports it anew and returns one entry for every member of
    it whose value is a class that derives from [Fit] and is not [Fit],
    under the name of the member: classes defined in the module, classes
    imported into it and aliases alike.  Members that are no classes and
    [Fit] itself are never returned.  For every package, the enumeration
    never lists [fitter_base]: when its other units can be imported, it
    returns exactly their names.  Each half holds under its own
    condition. *)
Theorem discovery_lists_fit_members (ext : Externals) :
  (forall (module m' : pymodule) (st : ImportSystem),
     find_module ext (sys_path st) (module_name module) = Some m' ->
     NoDup (map fst (module_members m')) ->
     exists D st',
       get_models_in_module ext module st = (Return D, st') /\
       NoDup (dict_keys D) /\
       forall k v,
         dict_get k D = Some v <->
         In (k, v) (module_members m') /\
         exists c, v = PyClass c /\ In (cls_id Fit) (cls_mro c) /\
                   cls_id c <> cls_id Fit) /\
  (forall (pkg : pypackage) (st_pkg : ImportSystem),
     (forall modname ispkg,
        In (modname, ispkg) (iter_modules ext (pkg_path pkg)) ->
        modname <> "fitter_base" ->
        exists m, find_module ext (sys_path st_pkg)
                    (resolve_name ("." ++ modname) (pkg_name pkg)) = Some m) ->
     exists mods st',
       get_modules_in_pkg ext pkg st_pkg = (Return mods, st') /\
       dict_get "fitter_base" mods = None /\
       forall k, In k (dict_keys mods) <->
                 In k (map fst (iter_modules ext (pkg_path pkg))) /\
                 k <> "fitter_base").
Proof.
  split.
  - intros module m' st Hfind Hnd. eexists. eexists.
    split; [exact (get_models_in_module_fresh ext module st m' Hfind Hnd) |].
    assert (Hkeys : NoDup (dict_keys (List.filter
                      (fun mc => is_Fit_subclass (snd mc)) (module_members m')))).
    { unfold dict_keys. clear -Hnd.
      induction (module_members m') as [| [k v] l IH]; cbn; [constructor |].
      apply NoDup_cons in Hnd as [Hk Hnd].
      destruct (is_Fit_subclass v); cbn; [| auto].
      apply NoDup_cons. split; [| auto].
      intros Hin. apply Hk. apply list_elem_of_In in Hin. apply list_elem_of_In.
      apply in_map_iff in Hin as ([k' v'] & Heq & Hin). cbn in Heq. subst k'.
      apply filter_In in Hin as [Hin _]. apply in_map_iff. now exists (k, v'). }
    split; [exact Hkeys |]. intros k v.
    rewrite (dict_get_In _ _ _ Hkeys), filter_In. cbn [snd].
    now rewrite is_Fit_subclass_true.
  - intros pkg st_pkg Hpkg.
    destruct (get_modules_loop_total ext pkg (iter_modules ext (pkg_path pkg))
                [] st_pkg Hpkg) as (D & st' & HD & Hkeys).
    exists D, st'. split; [exact HD |]. split.
    + pose proof (get_modules_loop_skips_base ext pkg
                    (iter_modules ext (pkg_path pkg)) [] st_pkg eq_refl) as H.
      now rewrite HD in H.
    + intros k. rewrite Hkeys. cbn. tauto.
Qed.

(** The module half at a user file, for externals whose package has a
    unit that cannot be imported, and the package half at the package of
    [ext0]. *)
Lemma discovery_lists_fit_members_witness :
  (exists D st',
     get_models_in_module ext_broken my_fits imports_lab = (Return D, st') /\
     NoDup (dict_keys D) /\
     forall k v,
       dict_get k D = Some v <->
       In (k, v) (module_members my_fits) /\
       exists c, v = PyClass c /\ In (cls_id Fit) (cls_mro c) /\
                 cls_id c <> cls_id Fit) /\
  (exists mods st',
     get_modules_in_pkg ext0 fitters imports0 = (Return mods, st') /\
     dict_get "fitter_base" mods = None /\
     forall k, In k (dict_keys mods) <->
               In k (map fst (iter_modules ext0 (pkg_path fitters))) /\
               k <> "fitter_base").
Proof.
  split.
  - apply (proj1 (discovery_lists_fit_members ext_broken) my_fits my_fits
             imports_lab).
    + reflexivity.
    + refine (bool_decide_unpack _ _). vm_compute. exact I.
  - apply (proj2 (discovery_lists_fit_members ext0) fitters imports0).
    intros modname ispkg Hin Hne. simpl in Hin.
    destruct Hin as [Hin | [Hin | [Hin | []]]]; inversion Hin; subst.
    + congruence.
    + eexists. reflexivity.
    + eexists. reflexivity.
Defined.

(** C6, read literally, fails: in a user file that imports [Cosine],
    derives [MyCosine] from it and binds the alias [Cos], discovery lists
    the imported class, and lists [MyCosine] twice, once under a name
    that is not its own. *)
Lemma discovery_lists_aliases_and_imports : ~ discovers_own_definitions ext0.
Proof.
  intros H.
  destruct (H my_fits imports_lab
              (snd (get_models_in_module ext0 my_fits imports_lab))
              (List.filter (fun mc => is_Fit_subclass (snd mc))
                           (module_members my_fits)))
    as [Hown _].
  - rewrite (get_models_in_module_fresh ext0 my_fits imports_lab my_fits).
    + reflexivity.
    + reflexivity.
    + refine (bool_decide_unpack _ _). vm_compute. exact I.
  - destruct (Hown "Cos" MyCosine eq_refl) as [Hname _]. discriminate.
Qed.

(** ** The widget: what each operation leaves alone *)

Create HintDb gui_ops.
#[local] Hint Unfold fittingOptionGetter signalAllOptions _signalAllOptions
  connect changeParamLiveUpdate add_param_row updateParamTable modelChanged
  emit_currentItemChanged model_list_clear model_list_addItem
  model_list_setCurrentItem moduleUpdate moduleRefreshClicked
  module_combo_addItem module_combo_setCurrentText register_module
  emit_param_signal setChecked spin_update spin_setValue
  OptionSpinbox_setMinimum OptionSpinbox_setMaximum lower_setValue
  upper_setValue set_param_row fittingOptionSetter setLiveUpdate
  reloadInputOption setDefaultFit apply_edit getattr getsourcefile : gui_ops.

Lemma keeps_call_slot {T} (f : Gui -> T) (c : M Gui unit) :
  (forall x g, f (set_slot_errors x g) = f g) ->
  keeps f c -> keeps f (call_slot c).
Proof.
  intros Hf H s. unfold call_slot. specialize (H s).
  destruct (c s) as [[a | e] s']; cbn [snd] in *; [exact H |].
  now rewrite Hf.
Qed.

Lemma keeps_call_slots {T} (f : Gui -> T) n (c : M Gui unit) :
  (forall x g, f (set_slot_errors x g) = f g) ->
  keeps f c -> keeps f (call_slots n c).
Proof.
  intros Hf H. induction n as [| n IH]; cbn [call_slots].
  - apply keeps_ret.
  - apply keeps_bind; [now apply keeps_call_slot | intros _; exact IH].
Qed.

Lemma keeps_lookup_module {T} (f : Gui -> T) name : keeps f (lookup_module name).
Proof. intros g. unfold lookup_module. now destruct (dict_get name _). Qed.

Lemma keeps_get_cell {T} (f : Gui -> T) i : keeps f (get_cell i).
Proof. intros g. unfold get_cell. now destruct (param_table g !! i). Qed.

Lemma keeps_disconnect {T} (f : Gui -> T) psig :
  (forall x g, f (set_connections x g) = f g) -> keeps f (disconnect psig).
Proof.
  intros Hf g. unfold disconnect.
  destruct (connections g !! psig) as [[| n] |]; cbn [snd]; auto.
Qed.

Lemma keeps_model_list_disconnect {T} (f : Gui -> T) :
  (forall x g, f (set_model_list_connections x g) = f g) ->
  keeps f model_list_disconnect.
Proof.
  intros Hf g. unfold model_list_disconnect.
  destruct (model_list_connections g); cbn [snd]; auto.
Qed.

Lemma keeps_update_row {T} (f : Gui -> T) i (h : ParamRow -> ParamRow) :
  (forall x g, f (set_param_table x g) = f g) -> keeps f (update_row i h).
Proof. intros Hf g. apply Hf. Qed.

Lemma keeps_zoom_sys_path {A} (c : M ImportSystem A) :
  keeps sys_path c ->
  keeps (fun g => sys_path (imports g)) (zoom imports set_imports c).
Proof.
  intros H g. unfold zoom. specialize (H (imports g)).
  now destruct (c (imports g)) as [r u].
Qed.

(** One step of the proof that an operation keeps a part of the widget:
    through the monad, into the branches, and into the operations it
    calls. *)
Ltac keeps_step :=
  lazymatch goal with
  | |- keeps _ (ret _) => apply keeps_ret
  | |- keeps _ (raise _) => apply keeps_raise
  | |- keeps _ (gets _) => apply keeps_gets
  | |- keeps _ (modify _) => apply keeps_modify; intros ?; reflexivity
  | |- keeps _ (bind _ _) => apply keeps_bind; [| intros ?]
  | |- keeps _ (for_each _ _) => apply keeps_for_each; intros ?
  | |- keeps _ (try_pass _) => apply keeps_try_pass
  | |- keeps _ (try_pass_TypeError _) => apply keeps_try_pass_TypeError
  | |- keeps _ (call_slot _) => apply keeps_call_slot; [intros ? ?; reflexivity |]
  | |- keeps _ (call_slots _ _) =>
      apply keeps_call_slots; [intros ? ?; reflexivity |]
  | |- keeps _ (lookup_module _) => apply keeps_lookup_module
  | |- keeps _ (get_cell _) => apply keeps_get_cell
  | |- keeps _ (update_row _ _) =>
      first [ solve [auto] | apply keeps_update_row; intros ? ?; reflexivity ]
  | |- keeps _ (disconnect _) => apply keeps_disconnect; intros ? ?; reflexivity
  | |- keeps _ model_list_disconnect =>
      apply keeps_model_list_disconnect; intros ? ?; reflexivity
  | |- keeps _ (zoom imports set_imports _) =>
      first
        [ apply keeps_zoom; intros ? ?; reflexivity
        | apply keeps_zoom_sys_path;
          first [ apply keeps_sys_path_get_models_in_module
                | apply keeps_sys_path_import_module ] ]
  | |- keeps _ (match ?x with _ => _ end) => destruct x
  | |- keeps _ (let _ := _ in _) => cbv zeta
  | |- keeps _ _ => first [ solve [auto] | progress autounfold with gui_ops ]
  end.

Ltac keeps_gui := repeat keeps_step.

Section WidgetFacts.
Context (ext : Externals).

Lemma keeps_fitting_modules_moduleUpdate name :
  keeps fitting_modules (moduleUpdate ext name).
Proof. keeps_gui. Qed.

Lemma keeps_module_combo_moduleUpdate name :
  keeps module_combo (moduleUpdate ext name).
Proof. keeps_gui. Qed.

End WidgetFacts.

(** ** The widget: operations that cannot fail *)

Lemma never_raises_ret {S A} (a : A) : never_raises (@ret S A a).
Proof. intros s. now exists a. Qed.

Lemma never_raises_gets {S A} (f : S -> A) : never_raises (gets f).
Proof. intros s. now exists (f s). Qed.

Lemma never_raises_modify {S} (f : S -> S) : never_raises (modify f).
Proof. intros s. now exists tt. Qed.

Lemma never_raises_bind {S A B} (c : M S A) (k : A -> M S B) :
  never_raises c -> (forall a, never_raises (k a)) -> never_raises (bind c k).
Proof.
  intros Hc Hk s. unfold bind. destruct (Hc s) as [a Ha].
  destruct (c s) as [[a' | e] s']; cbn [fst] in Ha; [| discriminate].
  apply Hk.
Qed.

Lemma never_raises_for_each {S A} (l : list A) (body : A -> M S unit) :
  (forall a, never_raises (body a)) -> never_raises (for_each l body).
Proof.
  intros H. induction l as [| a l IH]; cbn [for_each].
  - apply never_raises_ret.
  - apply never_raises_bind; [apply H | intros _; exact IH].
Qed.

Lemma never_raises_call_slot (c : M Gui unit) : never_raises (call_slot c).
Proof.
  intros s. exists tt. unfold call_slot. now destruct (c s) as [[a | e] s'].
Qed.

Lemma never_raises_call_slots n (c : M Gui unit) : never_raises (call_slots n c).
Proof.
  induction n as [| n IH]; cbn [call_slots].
  - apply never_raises_ret.
  - apply never_raises_bind; [apply never_raises_call_slot | intros _; exact IH].
Qed.

(** A statement that cannot fail hands its final state to the next one. *)
Lemma bind_total {S B} (c : M S unit) (k : M S B) s :
  never_raises c -> bind c (fun _ => k) s = k (snd (c s)).
Proof.
  intros H. unfold bind. destruct (H s) as [a Ha].
  destruct (c s) as [[a' | e] s']; cbn [fst] in Ha; [reflexivity | discriminate].
Qed.

Ltac total_step :=
  lazymatch goal with
  | |- never_raises (ret _) => apply never_raises_ret
  | |- never_raises (gets _) => apply never_raises_gets
  | |- never_raises (modify _) => apply never_raises_modify
  | |- never_raises (call_slot _) => apply never_raises_call_slot
  | |- never_raises (call_slots _ _) => apply never_raises_call_slots
  | |- never_raises (for_each _ _) => apply never_raises_for_each; intros ?
  | |- never_raises (bind _ _) => apply never_raises_bind; [| intros ?]
  | |- never_raises (match ?x with _ => _ end) => destruct x
  | |- never_raises _ => first [ solve [auto] | progress autounfold with gui_ops ]
  end.

Ltac total_gui := repeat total_step.

Section WidgetTotal.
Context (ext : Externals).

Lemma never_raises_model_list_clear : never_raises (model_list_clear ext).
Proof. total_gui. Qed.

Lemma never_raises_setCurrentText text :
  never_raises (module_combo_setCurrentText ext text).
Proof. total_gui. Qed.

Lemma never_raises_addItem text : never_raises (module_combo_addItem ext text).
Proof. total_gui. Qed.

Lemma never_raises_register_module name m :
  never_raises (register_module ext name m).
Proof. total_gui. Qed.

End WidgetTotal.

(** ** Adding a user module *)

Lemma find_rows_bound text k items i :
  In i (find_rows text k items) -> k <= i /\ items !! (i - k) = Some text.
Proof.
  revert k. induction items as [| t items IH]; intros k; cbn; [tauto |].
  destruct (String.eqb t text) eqn:E.
  - intros [<- | Hin].
    + rewrite Nat.sub_diag. apply String.eqb_eq in E. subst. now split.
    + destruct (IH _ Hin) as [Hle Hl]. split; [lia |].
      replace (i - k) with (S (i - S k)) by lia. exact Hl.
  - intros Hin. destruct (IH _ Hin) as [Hle Hl]. split; [lia |].
    replace (i - k) with (S (i - S k)) by lia. exact Hl.
Qed.

Lemma find_rows_In text k items :
  In text items -> find_rows text k items <> [].
Proof.
  revert k. induction items as [| t items IH]; intros k; cbn; [tauto |].
  intros [-> | Hin].
  - now rewrite String.eqb_refl.
  - destruct (String.eqb t text); [discriminate | now apply IH].
Qed.

Section AddModuleFacts.
Context (ext : Externals).

Lemma setCurrentText_combo text g :
  module_combo (snd (module_combo_setCurrentText ext text g)) =
    match find_rows text 0 (combo_items (module_combo g)) with
    | i :: _ => {| combo_items := combo_items (module_combo g);
                   combo_index := Some i |}
    | [] => module_combo g
    end.
Proof.
  unfold module_combo_setCurrentText, bind at 1, gets at 1.
  destruct (find_rows text 0 (combo_items (module_combo g))) as [| i rest];
    [reflexivity |].
  destruct (module_combo g) as [items [j |]] eqn:Ec; cbn [combo_index combo_items].
  - destruct (Nat.eqb j i) eqn:E.
    + apply Nat.eqb_eq in E. subst j. cbn. now rewrite Ec.
    + unfold bind, modify.
      now rewrite (keeps_call_slot module_combo _ (fun _ _ => eq_refl)
                     (keeps_module_combo_moduleUpdate ext text)).
  - unfold bind, modify.
    now rewrite (keeps_call_slot module_combo _ (fun _ _ => eq_refl)
                   (keeps_module_combo_moduleUpdate ext text)).
Qed.

Lemma addItem_combo text g :
  module_combo (snd (module_combo_addItem ext text g)) =
    {| combo_items := combo_items (module_combo g) ++ [text];
       combo_index := match combo_items (module_combo g) with
                      | [] => Some 0
                      | _ => combo_index (module_combo g)
                      end |}.
Proof.
  unfold module_combo_addItem, bind at 1, gets at 1.
  destruct (combo_items (module_combo g)) as [| t items]; [| reflexivity].
  unfold bind, modify.
  now rewrite (keeps_call_slot module_combo _ (fun _ _ => eq_refl)
                 (keeps_module_combo_moduleUpdate ext text)).
Qed.

Lemma keeps_fitting_modules_setCurrentText text :
  keeps fitting_modules (module_combo_setCurrentText ext text).
Proof. keeps_gui. Qed.

Lemma keeps_fitting_modules_addItem text :
  keeps fitting_modules (module_combo_addItem ext text).
Proof. keeps_gui. Qed.

Lemma keeps_sys_path_setCurrentText text :
  keeps (fun g => sys_path (imports g)) (module_combo_setCurrentText ext text).
Proof. keeps_gui. Qed.

Lemma keeps_sys_path_model_list_clear :
  keeps (fun g => sys_path (imports g)) (model_list_clear ext).
Proof. keeps_gui. Qed.

Lemma keeps_fitting_modules_model_list_clear :
  keeps fitting_modules (model_list_clear ext).
Proof. keeps_gui. Qed.

(** [moduleUpdate] returns normally for a registered module that the
    finder finds. *)
Lemma moduleUpdate_returns name g existing m :
  dict_get name (fitting_modules g) = Some existing ->
  find_module ext (sys_path (imports g)) (module_name existing) = Some m ->
  fst (moduleUpdate ext name g) = Return tt.
Proof.
  intros Hget Hfind. unfold moduleUpdate.
  rewrite (bind_total _ _ _ (never_raises_model_list_clear ext)).
  set (g1 := snd (model_list_clear ext g)).
  assert (Hm1 : fitting_modules g1 = fitting_modules g)
    by apply keeps_fitting_modules_model_list_clear.
  assert (Hp1 : sys_path (imports g1) = sys_path (imports g))
    by apply keeps_sys_path_model_list_clear.
  unfold bind at 1, lookup_module. rewrite Hm1, Hget.
  unfold bind at 1, zoom.
  destruct (get_models_in_module_returns ext existing (imports g1) m) as [D HD].
  { now rewrite Hp1. }
  destruct (get_models_in_module ext existing (imports g1)) as [[D' | e] st'];
    cbn [fst] in HD; [| discriminate].
  assert (Hadd : never_raises (for_each (dict_keys D') model_list_addItem)).
  { apply never_raises_for_each. intros a. unfold model_list_addItem.
    apply never_raises_modify. }
  destruct (Hadd (set_imports st' g1)) as [[] Hret]. exact Hret.
Qed.

(** The current text of a box whose current item is the first with that
    text. *)
Lemma currentText_first text items i rest :
  find_rows text 0 items = i :: rest ->
  currentText {| combo_items := items; combo_index := Some i |} = text.
Proof.
  intros H. destruct (find_rows_bound text 0 items i) as [_ Hl].
  { rewrite H. now left. }
  unfold currentText. cbn. rewrite Nat.sub_0_r in Hl. now rewrite Hl.
Qed.

(** Registration never fails; it extends the dictionary and the box, and
    makes the new entry the current one. *)
Lemma register_module_spec name m g :
  fst (register_module ext name m g) = Return tt /\
  fitting_modules (snd (register_module ext name m g))
    = dict_set name m (fitting_modules g) /\
  combo_items (module_combo (snd (register_module ext name m g)))
    = combo_items (module_combo g) ++ [name] /\
  currentText (module_combo (snd (register_module ext name m g))) = name.
Proof.
  unfold register_module. rewrite bind_modify.
  rewrite (bind_total _ _ _ (never_raises_addItem ext name)).
  set (g1 := set_fitting_modules (dict_set name m (fitting_modules g)) g).
  set (g2 := snd (module_combo_addItem ext name g1)).
  assert (Hc2 : combo_items (module_combo g2) = combo_items (module_combo g) ++ [name]).
  { unfold g2. now rewrite addItem_combo. }
  split; [| split; [| split]].
  - destruct (never_raises_setCurrentText ext name g2) as [[] H]. exact H.
  - rewrite keeps_fitting_modules_setCurrentText. unfold g2.
    now rewrite keeps_fitting_modules_addItem.
  - rewrite setCurrentText_combo.
    destruct (find_rows name 0 (combo_items (module_combo g2))); [exact Hc2 |].
    exact Hc2.
  - rewrite setCurrentText_combo.
    destruct (find_rows name 0 (combo_items (module_combo g2))) as [| i rest] eqn:E.
    + exfalso. apply (find_rows_In name 0 (combo_items (module_combo g2))); [| exact E].
      rewrite Hc2. apply in_app_iff. right. now left.
    + now apply (currentText_first name _ i rest).
Qed.

(** The way [add_user_module] goes once the path ends in [.py] and the
    import has returned a module. *)
Lemma add_user_module_imported mod_file g user_module imp' :
  str_suffix 3 mod_file = ".py" ->
  import_module ext (derived_name mod_file) (derived_dir mod_file)
    (with_dir mod_file (imports g)) = (Return user_module, imp') ->
  add_user_module ext (Some mod_file) g =
    (if dict_mem (derived_name mod_file) (fitting_modules g) then
       if existsb (fun existing_module =>
                     String.eqb (module_file user_module)
                                (module_file existing_module))
                  (dict_values (fitting_modules g))
       then module_combo_setCurrentText ext (derived_name mod_file) ;;
            moduleUpdate ext (derived_name mod_file)
       else register_module ext (disambiguated mod_file) user_module
     else register_module ext (derived_name mod_file) user_module)
      (set_imports imp' g).
Proof.
  intros Hpy Himp. unfold add_user_module. rewrite Hpy.
  assert (E : negb (String.eqb ".py" ".py") = false) by reflexivity.
  rewrite E. cbv zeta. rewrite bind_modify.
  unfold bind at 1, zoom. cbn [imports set_imports].
  fold (derived_name mod_file) (derived_dir mod_file).
  fold (with_dir mod_file (imports g)). rewrite Himp.
  reflexivity.
Qed.

End AddModuleFacts.

Lemma string_length_append (s t : string) :
  String.length (s ++ t)%string = String.length s + String.length t.
Proof.
  induction s as [| c s IH]; [reflexivity |].
  change (S (String.length (s ++ t)%string)
          = S (String.length s + String.length t)).
  now rewrite IH.
Qed.

Lemma append_not_self (s t : string) (c : ascii) :
  (s ++ String c t)%string <> s.
Proof.
  intros H. apply (f_equal String.length) in H.
  rewrite string_length_append in H. cbn in H. lia.
Qed.

Lemma add_user_module_not_py (ext : Externals) (path : string) (g : Gui) :
  str_suffix 3 path <> ".py" ->
  add_user_module ext (Some path) g = (Return tt, g).
Proof.
  intros Hpy. unfold add_user_module.
  destruct (String.eqb (str_suffix 3 path) ".py") eqn:E; [| reflexivity].
  apply String.eqb_eq in E. contradiction.
Qed.

(** C7, as the code has it. When the file dialog returns nothing, or a
    path that does not end in [.py], [add_user_module] returns at once
    without an error, and the widget, its modules and its module box
    included, is exactly as before. *)
Theorem add_user_module_ignores_other_files (ext : Externals)
    (mod_file : option string) (g : Gui) :
  mod_file = None \/
  (exists path, mod_file = Some path /\ str_suffix 3 path <> ".py") ->
  add_user_module ext mod_file g = (Return tt, g).
Proof.
  intros [-> | (path & -> & Hpy)]; [reflexivity |].
  now apply add_user_module_not_py.
Qed.

Lemma add_user_module_ignores_other_files_witness :
  add_user_module ext0 (Some "notes.txt") gui0 = (Return tt, gui0).
Proof.
  apply (add_user_module_ignores_other_files ext0 (Some "notes.txt") gui0).
  right. exists "notes.txt". split; [reflexivity | discriminate].
Defined.

(** C7, read literally, fails: a text file is not refused with an error,
    the call just returns. *)
Lemma other_files_raise_nothing : ~ refuses_with_error ext0.
Proof.
  intros H. destruct (H "notes.txt" gui0) as [e He]; [discriminate |].
  rewrite add_user_module_not_py in He by discriminate. discriminate.
Qed.

(** What [add_user_module] does with the module that the import
    returned, for a derived name that is the name of a registered module.
    When that module has the file of some registered module, whichever
    its name, nothing is registered: the dictionary and the items of the
    module box are as before, the box shows the entry of that name, and
    the call returns normally if the module of that entry can be read
    again.  When no registered module has that file, the call returns
    normally, the module is registered under the name followed by its
    directory in parentheses, the old entry stays under the plain name,
    and the box gets the new name as its last and current item.  Which
    file the import by name returns is not part of this statement. *)
Lemma same_name_module_added (ext : Externals) (mod_file : string) (g : Gui)
    (user_module : pymodule) (imp' : ImportSystem) :
  str_suffix 3 mod_file = ".py" ->
  import_module ext (derived_name mod_file) (derived_dir mod_file)
    (with_dir mod_file (imports g)) = (Return user_module, imp') ->
  In (derived_name mod_file) (dict_keys (fitting_modules g)) ->
  ((exists m, In m (dict_values (fitting_modules g)) /\
              module_file m = module_file user_module) ->
   fitting_modules (snd (add_user_module ext (Some mod_file) g))
     = fitting_modules g /\
   combo_items (module_combo (snd (add_user_module ext (Some mod_file) g)))
     = combo_items (module_combo g) /\
   (In (derived_name mod_file) (combo_items (module_combo g)) ->
    currentText (module_combo (snd (add_user_module ext (Some mod_file) g)))
      = derived_name mod_file) /\
   (forall existing m,
      dict_get (derived_name mod_file) (fitting_modules g) = Some existing ->
      find_module ext (sys_path (imports g) ++ [derived_dir mod_file])
        (module_name existing) = Some m ->
      fst (add_user_module ext (Some mod_file) g) = Return tt)) /\
  (~ (exists m, In m (dict_values (fitting_modules g)) /\
                module_file m = module_file user_module) ->
   fst (add_user_module ext (Some mod_file) g) = Return tt /\
   fitting_modules (snd (add_user_module ext (Some mod_file) g))
     = dict_set (disambiguated mod_file) user_module (fitting_modules g) /\
   dict_get (disambiguated mod_file)
     (fitting_modules (snd (add_user_module ext (Some mod_file) g)))
     = Some user_module /\
   dict_get (derived_name mod_file)
     (fitting_modules (snd (add_user_module ext (Some mod_file) g)))
     = dict_get (derived_name mod_file) (fitting_modules g) /\
   combo_items (module_combo (snd (add_user_module ext (Some mod_file) g)))
     = combo_items (module_combo g) ++ [disambiguated mod_file] /\
   currentText (module_combo (snd (add_user_module ext (Some mod_file) g)))
     = disambiguated mod_file).
Proof.
  intros Hpy Himp Hname.
  rewrite (add_user_module_imported ext mod_file g user_module imp' Hpy Himp).
  apply dict_mem_true in Hname. rewrite Hname.
  set (same := existsb _ _).
  assert (Hsame : same = true <->
                  exists m, In m (dict_values (fitting_modules g)) /\
                            module_file m = module_file user_module).
  { unfold same. rewrite existsb_exists. split.
    - intros (m & Hin & E). apply String.eqb_eq in E. now exists m.
    - intros (m & Hin & E). exists m. split; [exact Hin |].
      apply String.eqb_eq. now symmetry. }
  split.
  - intros Hex. apply Hsame in Hex. rewrite Hex.
    rewrite (bind_total _ _ _ (never_raises_setCurrentText ext _)).
    split; [| split; [| split]].
    + rewrite keeps_fitting_modules_moduleUpdate.
      now rewrite keeps_fitting_modules_setCurrentText.
    + rewrite keeps_module_combo_moduleUpdate, setCurrentText_combo.
      cbn [module_combo set_imports].
      now destruct (find_rows _ 0 (combo_items (module_combo g))).
    + intros Hin. rewrite keeps_module_combo_moduleUpdate, setCurrentText_combo.
      cbn [module_combo set_imports].
      destruct (find_rows _ 0 (combo_items (module_combo g))) as [| i rest] eqn:E.
      * exfalso. now apply (find_rows_In _ 0 _ Hin).
      * now apply (currentText_first _ _ i rest).
    + intros existing m Hget Hfind.
      apply (moduleUpdate_returns ext _ _ existing m).
      * now rewrite keeps_fitting_modules_setCurrentText.
      * rewrite (keeps_sys_path_setCurrentText ext _ (set_imports imp' g)).
        cbn [imports set_imports].
        pose proof (import_module_path ext (derived_name mod_file)
                      (derived_dir mod_file) (with_dir mod_file (imports g))) as Hp.
        rewrite Himp in Hp. cbn [snd] in Hp. rewrite Hp. exact Hfind.
  - intros Hno. destruct same eqn:Es.
    { destruct Hno. now apply Hsame. }
    destruct (register_module_spec ext (disambiguated mod_file) user_module
                (set_imports imp' g)) as (Hret & Hmods & Hitems & Hcur).
    cbn [fitting_modules module_combo set_imports] in Hmods, Hitems.
    repeat split; try assumption.
    + rewrite Hmods. apply dict_get_set_same.
    + rewrite Hmods. apply dict_get_set_other.
      unfold disambiguated. apply append_not_self.
Qed.

Lemma same_name_module_added_witness :
  fitting_modules (snd (add_user_module ext0 (Some "C:/Users/lab/my_fits.py") gui0))
    = [("generic_functions", generic_functions); ("my_fits", packaged_my_fits);
       ("my_fits(C:\Users\lab)", my_fits)] /\
  fitting_modules (snd (add_user_module ext0 (Some "C:/Users/lab/my_fits.py") gui_lab))
    = fitting_modules gui_lab.
Proof.
  split.
  - apply (proj2 (same_name_module_added ext0 "C:/Users/lab/my_fits.py" gui0 my_fits
             (snd (import_module ext0 "my_fits" "C:\Users\lab"
                     (with_dir "C:/Users/lab/my_fits.py" (imports gui0))))
             eq_refl eq_refl ltac:(vm_compute; tauto))).
    intros (m & Hin & Hfile). vm_compute in Hin.
    destruct Hin as [<- | [<- | []]]; discriminate.
  - apply (proj1 (same_name_module_added ext0 "C:/Users/lab/my_fits.py" gui_lab my_fits
             (snd (import_module ext0 "my_fits" "C:\Users\lab"
                     (with_dir "C:/Users/lab/my_fits.py" (imports gui_lab))))
             eq_refl eq_refl ltac:(vm_compute; tauto))).
    exists my_fits. split; [vm_compute; tauto | reflexivity].
Defined.

(** The rule of the specification fails on the code: once the user's
    [my_fits.py] is registered next to the unit of the package, another
    file of that name is imported as the module the import system already
    holds; its file is that of a registered module, though not of the one
    called [my_fits], and nothing is registered for it. *)
Lemma third_file_not_registered : ~ same_name_rule ext0.
Proof.
  intros H.
  destruct (H "D:/data/my_fits.py" gui_lab packaged_my_fits my_fits)
    as [_ Hreg]; try reflexivity.
  destruct Hreg as [Hnew _]; [discriminate |].
  vm_compute in Hnew. discriminate.
Qed.

(** ** Live update *)

Lemma grows_ret {A} (a : A) : grows (ret a).
Proof. intros g. reflexivity. Qed.

Lemma grows_raise {A} e : grows (@raise Gui A e).
Proof. intros g. reflexivity. Qed.

Lemma grows_keeps {A} (c : M Gui A) : keeps options_changed c -> grows c.
Proof. intros H g. now rewrite H. Qed.

Lemma grows_bind {A B} (c : M Gui A) (k : A -> M Gui B) :
  grows c -> (forall a, grows (k a)) -> grows (bind c k).
Proof.
  intros Hc Hk g. unfold bind. specialize (Hc g).
  destruct (c g) as [[a | e] g']; cbn [snd] in *; [| exact Hc].
  specialize (Hk a g'). lia.
Qed.

Lemma grows_call_slot (c : M Gui unit) : grows c -> grows (call_slot c).
Proof.
  intros H g. unfold call_slot. specialize (H g).
  now destruct (c g) as [[a | e] g'].
Qed.

Lemma grows_call_slots n (c : M Gui unit) : grows c -> grows (call_slots n c).
Proof.
  intros H. induction n as [| n IH]; cbn [call_slots].
  - apply grows_ret.
  - apply grows_bind; [now apply grows_call_slot | intros _; exact IH].
Qed.

Section LiveUpdateFacts.
Context (ext : Externals).

Lemma grows_signalAllOptions : grows (_signalAllOptions ext).
Proof.
  unfold _signalAllOptions, signalAllOptions.
  apply grows_bind; [apply grows_keeps; keeps_gui |].
  intros [name |]; [| apply grows_ret].
  apply grows_bind; [apply grows_keeps; keeps_gui |].
  intros opts g. cbn. rewrite length_app. lia.
Qed.

Lemma grows_emit_param_signal psig : grows (emit_param_signal ext psig).
Proof.
  unfold emit_param_signal. apply grows_bind; [apply grows_keeps; keeps_gui |].
  intros n. apply grows_call_slots, grows_signalAllOptions.
Qed.

Lemma grows_spin_update i lo hi v : grows (spin_update ext i lo hi v).
Proof.
  unfold spin_update. apply grows_bind; [apply grows_keeps; keeps_gui |].
  intros r. apply grows_bind; [apply grows_keeps; keeps_gui |].
  intros _. destruct (Z.eqb _ _); [apply grows_ret | apply grows_emit_param_signal].
Qed.

Lemma grows_setMinimum i text : grows (OptionSpinbox_setMinimum ext i text).
Proof.
  unfold OptionSpinbox_setMinimum.
  apply grows_bind; [apply grows_keeps; keeps_gui |].
  intros r. apply grows_spin_update.
Qed.

Lemma grows_setMaximum i text : grows (OptionSpinbox_setMaximum ext i text).
Proof.
  unfold OptionSpinbox_setMaximum.
  apply grows_bind; [apply grows_keeps; keeps_gui |].
  intros r. apply grows_spin_update.
Qed.

Lemma model_selected_selection g g' :
  selection g' = selection g -> model_selected g -> model_selected g'.
Proof.
  unfold selection, model_selected. intros [= -> -> ->]. auto.
Qed.

Lemma keeps_row_signals_update_row i (f : ParamRow -> ParamRow) :
  (forall r, row_signals (f r) = row_signals r) ->
  keeps (fun g => map row_signals (param_table g)) (update_row i f).
Proof.
  intros Hf g. unfold update_row, modify. cbn. revert i.
  induction (param_table g) as [| r l IH]; intros [| j]; cbn; try reflexivity.
  - now rewrite Hf.
  - f_equal. apply IH.
Qed.

Lemma keeps_selection_apply_edit e : keeps selection (apply_edit ext e).
Proof. keeps_gui. Qed.

Lemma keeps_connections_apply_edit e : keeps connections (apply_edit ext e).
Proof. keeps_gui. Qed.

Lemma keeps_row_signals_apply_edit e :
  keeps (fun g => map row_signals (param_table g)) (apply_edit ext e).
Proof.
  pose proof keeps_row_signals_update_row as Hrow.
  keeps_gui.
Qed.

(** With a model selected, [_signalAllOptions] raises one event. *)
Lemma signalAllOptions_raises g :
  model_selected g ->
  exists opts,
    _signalAllOptions ext g =
      (Return tt, set_options_changed (options_changed g ++ [opts]) g).
Proof.
  intros (name & m & v & Hcur & Hmod & Hattr).
  unfold _signalAllOptions. rewrite bind_gets, Hcur.
  unfold signalAllOptions, fittingOptionGetter.
  unfold bind at 1. rewrite bind_gets.
  unfold bind at 1, lookup_module. rewrite Hmod.
  rewrite bind_gets, Hcur.
  unfold bind at 1, getattr. rewrite Hattr. cbn [ret].
  rewrite bind_gets. cbn [ret]. eexists. reflexivity.
Qed.

(** The emission of a connected signal raises at least one event. *)
Lemma emit_param_signal_raises g psig n :
  model_selected g ->
  connections g !! psig = Some (S n) ->
  S (length (options_changed g))
    <= length (options_changed (snd (emit_param_signal ext psig g))).
Proof.
  intros Hsel Hconn. unfold emit_param_signal.
  rewrite bind_gets, Hconn. cbn [default from_option id call_slots].
  destruct (signalAllOptions_raises g Hsel) as [opts Hraise].
  assert (Hslot : call_slot (_signalAllOptions ext) g =
                  (Return tt, set_options_changed (options_changed g ++ [opts]) g)).
  { unfold call_slot. now rewrite Hraise. }
  rewrite (bind_Return _ _ _ _ _ Hslot).
  pose proof (grows_call_slots n _ grows_signalAllOptions
                (set_options_changed (options_changed g ++ [opts]) g)) as Hg.
  cbn [options_changed set_options_changed] in Hg.
  rewrite length_app in Hg. cbn in Hg. lia.
Qed.

Lemma emit_param_signal_once g psig :
  model_selected g ->
  connections g !! psig = Some 1 ->
  length (options_changed (snd (emit_param_signal ext psig g)))
    = S (length (options_changed g)).
Proof.
  intros Hsel Hconn. unfold emit_param_signal.
  rewrite bind_gets, Hconn. cbn [default from_option id call_slots].
  destruct (signalAllOptions_raises g Hsel) as [opts Hraise].
  assert (Hslot : call_slot (_signalAllOptions ext) g =
                  (Return tt, set_options_changed (options_changed g ++ [opts]) g)).
  { unfold call_slot. now rewrite Hraise. }
  rewrite (bind_Return _ _ _ _ _ Hslot). cbn.
  rewrite length_app. cbn. lia.
Qed.

Lemma get_cell_Some g i r :
  param_table g !! i = Some r -> get_cell i g = (Return r, g).
Proof. intros H. unfold get_cell. now rewrite H. Qed.

Lemma keeps_selection_setMinimum i text :
  keeps selection (call_slot (OptionSpinbox_setMinimum ext i text)).
Proof. keeps_gui. Qed.

Lemma keeps_selection_setMaximum i text :
  keeps selection (call_slot (OptionSpinbox_setMaximum ext i text)).
Proof. keeps_gui. Qed.

Lemma keeps_connections_setMinimum i text :
  keeps connections (call_slot (OptionSpinbox_setMinimum ext i text)).
Proof. keeps_gui. Qed.

Lemma keeps_connections_setMaximum i text :
  keeps connections (call_slot (OptionSpinbox_setMaximum ext i text)).
Proof. keeps_gui. Qed.

(** Under live update, with a model selected, an edit raises at least
    one event of its own. *)
Lemma edit_raises_event g e :
  live_connected g ->
  model_selected g ->
  changes_field e g ->
  S (length (options_changed g))
    <= length (options_changed (snd (apply_edit ext e g))).
Proof.
  intros Hlive Hsel Hch.
  destruct e as [i b | i v | i text | i text]; cbn [changes_field apply_edit] in *.
  - destruct Hch as (r & Hr & Hne).
    destruct (Hlive i r 0 Hr ltac:(lia)) as [n Hn]. rewrite Nat.add_0_r in Hn.
    unfold setChecked. rewrite (bind_Return _ _ _ _ _ (get_cell_Some _ _ _ Hr)).
    destruct (Bool.eqb (fix_checked r) b) eqn:E.
    { apply eqb_prop in E. contradiction. }
    unfold update_row. rewrite bind_modify.
    exact (emit_param_signal_raises (set_param_table _ g) _ n Hsel Hn).
  - destruct Hch as (r & Hr & Hne).
    destruct (Hlive i r 1 Hr ltac:(lia)) as [n Hn].
    unfold spin_setValue. rewrite (bind_Return _ _ _ _ _ (get_cell_Some _ _ _ Hr)).
    unfold spin_update. rewrite (bind_Return _ _ _ _ _ (get_cell_Some _ _ _ Hr)).
    unfold update_row. rewrite bind_modify.
    destruct (Z.eqb _ (spin_value r)) eqn:E.
    { apply Z.eqb_eq in E. contradiction. }
    exact (emit_param_signal_raises (set_param_table _ g) _ n Hsel Hn).
  - destruct Hch as (r & Hr).
    destruct (Hlive i r 2 Hr ltac:(lia)) as [n Hn].
    rewrite (bind_Return _ _ _ _ _ (get_cell_Some _ _ _ Hr)).
    unfold update_row at 1. rewrite bind_modify.
    rewrite (bind_total _ _ _ (never_raises_call_slot _)).
    match goal with
    | |- context [call_slot ?c ?g1] => set (g2 := snd (call_slot c g1))
    end.
    assert (Hsel2 : selection g2 = selection g).
    { unfold g2. now rewrite keeps_selection_setMinimum. }
    assert (Hconn2 : connections g2 = connections g).
    { unfold g2. now rewrite keeps_connections_setMinimum. }
    assert (Hgrow : length (options_changed g) <= length (options_changed g2)).
    { unfold g2.
      etransitivity; [| apply (grows_call_slot _ (grows_setMinimum i text))].
      reflexivity. }
    etransitivity; [| apply (emit_param_signal_raises g2 _ n)].
    + lia.
    + now apply (model_selected_selection g).
    + now rewrite Hconn2.
  - destruct Hch as (r & Hr).
    destruct (Hlive i r 3 Hr ltac:(lia)) as [n Hn].
    rewrite (bind_Return _ _ _ _ _ (get_cell_Some _ _ _ Hr)).
    unfold update_row at 1. rewrite bind_modify.
    rewrite (bind_total _ _ _ (never_raises_call_slot _)).
    match goal with
    | |- context [call_slot ?c ?g1] => set (g2 := snd (call_slot c g1))
    end.
    assert (Hsel2 : selection g2 = selection g).
    { unfold g2. now rewrite keeps_selection_setMaximum. }
    assert (Hconn2 : connections g2 = connections g).
    { unfold g2. now rewrite keeps_connections_setMaximum. }
    assert (Hgrow : length (options_changed g) <= length (options_changed g2)).
    { unfold g2.
      etransitivity; [| apply (grows_call_slot _ (grows_setMaximum i text))].
      reflexivity. }
    etransitivity; [| apply (emit_param_signal_raises g2 _ n)].
    + lia.
    + now apply (model_selected_selection g).
    + now rewrite Hconn2.
Qed.

(** With one connection per signal, a click on a check box or a new
    value in a spin box raises exactly one event. *)
Lemma value_edit_raises_one_event g e :
  singly_connected g ->
  model_selected g ->
  changes_field e g ->
  is_value_edit e ->
  length (options_changed (snd (apply_edit ext e g)))
    = S (length (options_changed g)).
Proof.
  intros Hone Hsel Hch Hval.
  destruct e as [i b | i v | i text | i text]; try contradiction;
    cbn [changes_field apply_edit] in *.
  - destruct Hch as (r & Hr & Hne).
    pose proof (Hone i r 0 Hr ltac:(lia)) as Hn. rewrite Nat.add_0_r in Hn.
    unfold setChecked. rewrite (bind_Return _ _ _ _ _ (get_cell_Some _ _ _ Hr)).
    destruct (Bool.eqb (fix_checked r) b) eqn:E.
    { apply eqb_prop in E. contradiction. }
    unfold update_row. rewrite bind_modify.
    exact (emit_param_signal_once (set_param_table _ g) _ Hsel Hn).
  - destruct Hch as (r & Hr & Hne).
    pose proof (Hone i r 1 Hr ltac:(lia)) as Hn.
    unfold spin_setValue. rewrite (bind_Return _ _ _ _ _ (get_cell_Some _ _ _ Hr)).
    unfold spin_update. rewrite (bind_Return _ _ _ _ _ (get_cell_Some _ _ _ Hr)).
    unfold update_row. rewrite bind_modify.
    destruct (Z.eqb _ (spin_value r)) eqn:E.
    { apply Z.eqb_eq in E. contradiction. }
    exact (emit_param_signal_once (set_param_table _ g) _ Hsel Hn).
Qed.

Lemma edit_keeps_single g e :
  singly_connected g -> singly_connected (snd (apply_edit ext e g)).
Proof.
  intros Hone i r' k Hr' Hk.
  rewrite keeps_connections_apply_edit.
  pose proof (keeps_row_signals_apply_edit e g) as Hsig. cbv beta in Hsig.
  assert (Hrow : map row_signals (param_table (snd (apply_edit ext e g))) !! i
                 = Some (row_signals r')).
  { rewrite list_lookup_fmap, Hr'. reflexivity. }
  rewrite Hsig, list_lookup_fmap in Hrow.
  destruct (param_table g !! i) as [r |] eqn:Hr; [| discriminate].
  cbn in Hrow. injection Hrow as <-. now apply (Hone i r k).
Qed.

(** An edit leaves live update connected and the model selected. *)
Lemma edit_keeps_live g e :
  live_connected g -> live_connected (snd (apply_edit ext e g)).
Proof.
  intros Hlive i r' k Hr' Hk.
  rewrite keeps_connections_apply_edit.
  pose proof (keeps_row_signals_apply_edit e g) as Hsig. cbv beta in Hsig.
  assert (Hrow : map row_signals (param_table (snd (apply_edit ext e g))) !! i
                 = Some (row_signals r')).
  { rewrite list_lookup_fmap, Hr'. reflexivity. }
  rewrite Hsig, list_lookup_fmap in Hrow.
  destruct (param_table g !! i) as [r |] eqn:Hr; [| discriminate].
  cbn in Hrow. injection Hrow as <-. now apply (Hlive i r k).
Qed.

Lemma edit_keeps_selected g e :
  model_selected g -> model_selected (snd (apply_edit ext e g)).
Proof.
  apply model_selected_selection, keeps_selection_apply_edit.
Qed.

End LiveUpdateFacts.

Lemma gui_live_connected : live_connected gui_live.
Proof.
  intros i r k Hr Hk.
  destruct i as [| [| i]]; vm_compute in Hr; try discriminate;
    injection Hr as <-;
    destruct k as [| [| [| [| k]]]]; try lia; eexists; vm_compute; reflexivity.
Qed.

Lemma gui_live_selected : model_selected gui_live.
Proof.
  exists "Linear", generic_functions, (PyClass Linear).
  repeat split; vm_compute; reflexivity.
Qed.

Lemma gui_live_single : singly_connected gui_live.
Proof.
  intros i r k Hr Hk.
  destruct i as [| [| i]]; vm_compute in Hr; try discriminate;
    injection Hr as <-;
    destruct k as [| [| [| [| k]]]]; try lia; vm_compute; reflexivity.
Qed.

(** ** Upstream options, the widget's record of them, and reload *)

Section ReloadFacts.
Context (ext : Externals).

Lemma keeps_find_module_of {T} (f : Gui -> T) model items :
  (forall name, keeps f (module_combo_setCurrentText ext name)) ->
  keeps f (find_module_of ext model items).
Proof.
  intros H. induction items as [| [mdu_name mdu] rest IH]; cbn [find_module_of].
  - apply keeps_ret.
  - apply keeps_bind; [unfold getsourcefile; destruct model;
                       first [apply keeps_ret | apply keeps_raise] |].
    intros src. destruct (String.eqb _ _); [| exact IH].
    apply keeps_bind; [apply H | intros _; apply keeps_ret].
Qed.

Lemma keeps_input_options_setCurrentText name :
  keeps input_options (module_combo_setCurrentText ext name).
Proof. keeps_gui. Qed.

Lemma keeps_input_options_fittingOptionSetter v :
  keeps input_options (fittingOptionSetter ext v).
Proof.
  pose proof (fun model items =>
                keeps_find_module_of input_options model items
                  keeps_input_options_setCurrentText) as Hfind.
  keeps_gui.
Qed.

(** [setDefaultFit] records the options it is given only when the widget
    has none on record. *)
Lemma setDefaultFit_keeps_record v g :
  input_options g <> PyNone ->
  input_options (snd (setDefaultFit ext v g)) = input_options g.
Proof.
  intros Hrec. unfold setDefaultFit, bind at 1.
  pose proof (keeps_input_options_fittingOptionSetter v g) as Hk.
  destruct (fittingOptionSetter ext v g) as [[[] | e] g1]; cbn [snd] in *;
    [| exact Hk].
  rewrite bind_gets, Hk.
  destruct (input_options g); try exact Hk. now destruct Hrec.
Qed.

Lemma deliver_keeps_record emitted g :
  input_options g <> PyNone ->
  input_options (deliver ext emitted g) = input_options g.
Proof.
  revert g. induction emitted as [| v emitted IH]; intros g Hrec; [reflexivity |].
  cbn [deliver fold_left].
  assert (H1 : input_options (snd (call_slot (setDefaultFit ext v) g))
               = input_options g).
  { unfold call_slot.
    pose proof (setDefaultFit_keeps_record v g Hrec) as Hk.
    now destruct (setDefaultFit ext v g) as [[[] | e] g1]. }
  unfold deliver in IH. rewrite IH; [exact H1 | now rewrite H1].
Qed.

Lemma reload_keeps_record g :
  input_options (snd (call_slot (reloadInputOption ext) g)) = input_options g.
Proof.
  apply (keeps_call_slot input_options _ (fun _ _ => eq_refl)).
  unfold reloadInputOption. apply keeps_bind; [apply keeps_gets |].
  intros v. apply keeps_input_options_fittingOptionSetter.
Qed.

End ReloadFacts.

(** * Further properties of the code *)

(** ** The fitting node *)

(** X1. A node without options that gets data without upstream options
    (none in the metadata, or [None] there) returns a new object with
    the contents of the input and stays as it was: nothing is adopted,
    nothing emitted, the engine is not run.  This holds for data with at
    most one axis and one dependent, whether or not the arrays, or any
    axis at all, are there. *)
Theorem process_without_options (ext : Externals) (st : NodeState) (l : loc)
    (d : Dataset) :
  heap st !! l = Some d ->
  length (ds_axes d) <= 1 ->
  length (ds_dependents d) <= 1 ->
  _fitting_options st = PyNone ->
  ds_get d "__fitting_options__" = PyNone ->
  process ext (Some l) st =
    (Return (Some (length (heap st))), set_heap (heap st ++ [d]) st).
Proof.
  intros Hl Hax Hdep Hnone Hup. unfold process, fitting_process.
  rewrite (bind_Return _ _ _ _ _ (deref_Some _ _ _ Hl)).
  assert (H : (1 <? length (ds_axes d))%nat || (1 <? length (ds_dependents d))%nat
               = false).
  { apply orb_false_iff. split; apply Nat.ltb_ge; assumption. }
  rewrite H, (bind_Return _ _ _ _ _ (ds_copy_Some _ _ _ Hl)).
  rewrite bind_gets. cbn [_fitting_options set_heap]. rewrite Hnone, Hup.
  reflexivity.
Qed.

Lemma process_without_options_witness :
  process ext0 (Some 0) (node0 (line_data empty) PyNone) =
    (Return (Some 1),
     {| heap := [line_data empty; line_data empty];
        _fitting_options := PyNone;
        default_fitting_options := [] |}).
Proof.
  apply (process_without_options ext0 (node0 (line_data empty) PyNone) 0
           (line_data empty)); try reflexivity; simpl; lia.
Defined.

Section NodeMore.
Context (ext : Externals).

(** What [run_fitting] writes, it writes to the output object. *)
Lemma keeps_update_at_prefix n l f :
  n <= l -> keeps (fun st => take n (heap st)) (update_at l f).
Proof.
  intros Hle. unfold update_at. apply keeps_bind; [apply keeps_deref |].
  intros d. apply keeps_modify. intros st. cbn [heap set_heap].
  now apply take_insert_ge.
Qed.

Lemma keeps_update_at_length l f :
  keeps (fun st => length (heap st)) (update_at l f).
Proof.
  unfold update_at. apply keeps_bind; [apply keeps_deref |].
  intros d. apply keeps_modify. intros st. cbn [heap set_heap].
  apply length_insert.
Qed.

Lemma run_fitting_keeps_prefix l out :
  keeps (fun st => take out (heap st)) (run_fitting ext l out).
Proof.
  unfold run_fitting.
  repeat first
    [ apply keeps_deref | apply keeps_index0 | apply keeps_data_vals
    | apply keeps_gets | apply keeps_ret | apply keeps_raise
    | apply keeps_update_at_prefix; reflexivity
    | apply keeps_bind; [| intros ?]
    | match goal with
      | |- keeps _ (match ?x with _ => _ end) => destruct x
      end
    | intros ?; reflexivity ].
Qed.

Lemma run_fitting_keeps_length l out :
  keeps (fun st => length (heap st)) (run_fitting ext l out).
Proof.
  unfold run_fitting.
  repeat first
    [ apply keeps_deref | apply keeps_index0 | apply keeps_data_vals
    | apply keeps_gets | apply keeps_ret | apply keeps_raise
    | apply keeps_update_at_length
    | apply keeps_bind; [| intros ?]
    | match goal with
      | |- keeps _ (match ?x with _ => _ end) => destruct x
      end
    | intros ?; reflexivity ].
Qed.

Lemma run_fitting_keeps_emitted l out :
  keeps default_fitting_options (run_fitting ext l out).
Proof.
  unfold run_fitting.
  repeat first
    [ apply keeps_deref | apply keeps_index0 | apply keeps_data_vals
    | apply keeps_gets | apply keeps_ret | apply keeps_raise
    | apply keeps_update_at; reflexivity
    | apply keeps_bind; [| intros ?]
    | match goal with
      | |- keeps _ (match ?x with _ => _ end) => destruct x
      end
    | intros ?; reflexivity ].
Qed.

(** The shape of every call of [fitting_process] on an object of the
    store with at most one axis and one dependent: after the copy, the
    node either returns it, or adopts and fits, or fits. *)
Lemma fitting_process_cases st l d :
  heap st !! l = Some d ->
  (1 <? length (ds_axes d))%nat || (1 <? length (ds_dependents d))%nat = false ->
  fitting_process ext (Some l) st =
    if is_None (_fitting_options st) then
      if negb (is_None (ds_get d "__fitting_options__")) then
        run_fitting ext l (length (heap st))
          (set_options (ds_get d "__fitting_options__")
             (emit_default (ds_get d "__fitting_options__")
                (set_heap (heap st ++ [d]) st)))
      else (Return (Some (length (heap st))), set_heap (heap st ++ [d]) st)
    else run_fitting ext l (length (heap st)) (set_heap (heap st ++ [d]) st).
Proof.
  intros Hl Hdim. unfold fitting_process.
  rewrite (bind_Return _ _ _ _ _ (deref_Some _ _ _ Hl)), Hdim.
  rewrite (bind_Return _ _ _ _ _ (ds_copy_Some _ _ _ Hl)), bind_gets.
  cbn [_fitting_options set_heap].
  destruct (is_None (_fitting_options st)); [| reflexivity].
  destruct (negb (is_None (ds_get d "__fitting_options__"))); reflexivity.
Qed.

End NodeMore.

(** X2. Whatever data come in, whatever the options and whatever the
    engine does, [process] leaves every dataset of the store as it was,
    the input among them, and creates at most one new object: all it
    writes goes to the copy it has just made. *)
Theorem process_never_writes_to_old_data (ext : Externals)
    (dataIn : option loc) (st : NodeState) :
  take (length (heap st)) (heap (snd (process ext dataIn st))) = heap st /\
  length (heap (snd (process ext dataIn st))) <= S (length (heap st)) /\
  forall l d, heap st !! l = Some d ->
              heap (snd (process ext dataIn st)) !! l = Some d.
Proof.
  assert (H : take (length (heap st)) (heap (snd (process ext dataIn st)))
              = heap st /\
              length (heap (snd (process ext dataIn st))) <= S (length (heap st))).
  { unfold process. destruct dataIn as [l |].
    2:{ cbn. rewrite firstn_all. split; [reflexivity | lia]. }
    destruct (heap st !! l) as [d |] eqn:Hl.
    2:{ unfold fitting_process, bind, deref. rewrite Hl. cbn. rewrite firstn_all.
        split; [reflexivity | lia]. }
    destruct ((1 <? length (ds_axes d))%nat || (1 <? length (ds_dependents d))%nat)
      eqn:Hdim.
    { unfold fitting_process, bind, deref. rewrite Hl, Hdim. cbn.
      rewrite firstn_all. split; [reflexivity | lia]. }
    rewrite (fitting_process_cases ext st l d Hl Hdim).
    assert (Hcopy : take (length (heap st)) (heap st ++ [d]) = heap st)
      by (rewrite take_app_length; reflexivity).
    assert (Hlen : length (heap st ++ [d]) = S (length (heap st)))
      by (rewrite length_app; cbn; lia).
    destruct (is_None (_fitting_options st));
      [destruct (negb (is_None (ds_get d "__fitting_options__"))) |].
    - rewrite (run_fitting_keeps_prefix ext l (length (heap st))),
              (run_fitting_keeps_length ext l (length (heap st))).
      cbn [heap set_heap set_options emit_default]. split; [exact Hcopy | lia].
    - cbn [snd heap set_heap]. split; [exact Hcopy | lia].
    - rewrite (run_fitting_keeps_prefix ext l (length (heap st))),
              (run_fitting_keeps_length ext l (length (heap st))).
      cbn [heap set_heap]. split; [exact Hcopy | lia]. }
  destruct H as [Htake Hlen]. split; [exact Htake |]. split; [exact Hlen |].
  intros l d Hl. rewrite <- Htake in Hl.
  apply lookup_take_Some in Hl. apply Hl.
Qed.

(** X3. A call of [process] changes the node's options only by adopting:
    either the options and the record of emissions are as before, or the
    node had none, the input carries options, these are now the node's,
    and they were emitted exactly once. *)
Theorem process_changes_options_by_adoption_only (ext : Externals)
    (dataIn : option loc) (st : NodeState) :
  (_fitting_options (snd (process ext dataIn st)) = _fitting_options st /\
   default_fitting_options (snd (process ext dataIn st))
     = default_fitting_options st) \/
  (exists l d,
     dataIn = Some l /\ heap st !! l = Some d /\
     _fitting_options st = PyNone /\
     ds_get d "__fitting_options__" <> PyNone /\
     _fitting_options (snd (process ext dataIn st))
       = ds_get d "__fitting_options__" /\
     default_fitting_options (snd (process ext dataIn st))
       = default_fitting_options st ++ [ds_get d "__fitting_options__"]).
Proof.
  unfold process. destruct dataIn as [l |]; [| left; split; reflexivity].
  destruct (heap st !! l) as [d |] eqn:Hl.
  2:{ left. unfold fitting_process, bind, deref. rewrite Hl. split; reflexivity. }
  destruct ((1 <? length (ds_axes d))%nat || (1 <? length (ds_dependents d))%nat)
    eqn:Hdim.
  { left. unfold fitting_process, bind, deref. rewrite Hl, Hdim.
    split; reflexivity. }
  rewrite (fitting_process_cases ext st l d Hl Hdim).
  destruct (is_None (_fitting_options st)) eqn:Hnone.
  - destruct (is_None (ds_get d "__fitting_options__")) eqn:Hup; cbn [negb].
    + left. split; reflexivity.
    + right. exists l, d.
      split; [reflexivity |]. split; [exact Hl |].
      split; [now destruct (_fitting_options st) |].
      split; [intros E; now rewrite E in Hup |].
      split.
      * now rewrite run_fitting_keeps_options.
      * now rewrite run_fitting_keeps_emitted.
  - left. rewrite run_fitting_keeps_options, run_fitting_keeps_emitted.
    split; reflexivity.
Qed.

Lemma run_fitting_with_string (ext : Externals) (st : NodeState) (l out : loc)
    (d : Dataset) (ax dep : string) (axs deps : list string)
    (fx fy : DataField) (s : string) :
  heap st !! l = Some d ->
  ds_axes d = ax :: axs ->
  ds_dependents d = dep :: deps ->
  ds_data d !! ax = Some fx ->
  ds_data d !! dep = Some fy ->
  _fitting_options st = PyStr s ->
  run_fitting ext l out st = (Raise AttributeError, st).
Proof.
  intros Hl Hax Hdep Hx Hy Hopt. unfold run_fitting.
  rewrite (bind_Return _ _ _ _ _ (deref_Some _ _ _ Hl)).
  rewrite Hax. cbn [index0]. unfold bind at 1, ret at 1.
  unfold data_vals at 1. rewrite Hx. unfold bind at 1, ret at 1.
  rewrite Hdep. cbn [index0]. unfold bind at 1, ret at 1.
  unfold data_vals at 1. rewrite Hy. unfold bind at 1, ret at 1.
  rewrite bind_gets, Hopt. reflexivity.
Qed.

(** X4. Options that arrive with the data are adopted without the check
    of the setter.  A string under ['__fitting_options__'], which the
    setter refuses with [TypeError], becomes the node's options and is
    emitted; the call then fails with [AttributeError], and so does
    every later call on such data, since the node now has options. *)
Theorem upstream_string_adopted_unchecked (ext : Externals) (st : NodeState)
    (l : loc) (d : Dataset) (ax dep : string) (fx fy : DataField) (s : string) :
  heap st !! l = Some d ->
  ds_axes d = [ax] ->
  ds_dependents d = [dep] ->
  ds_data d !! ax = Some fx ->
  ds_data d !! dep = Some fy ->
  _fitting_options st = PyNone ->
  ds_get d "__fitting_options__" = PyStr s ->
  set_fitting_options (PyStr s) st = (Raise TypeError, st) /\
  process ext (Some l) st =
    (Raise AttributeError,
     {| heap := heap st ++ [d];
        _fitting_options := PyStr s;
        default_fitting_options := default_fitting_options st ++ [PyStr s] |}) /\
  fst (process ext (Some l) (snd (process ext (Some l) st))) = Raise AttributeError.
Proof.
  intros Hl Hax Hdep Hx Hy Hnone Hup.
  assert (Hdim : (1 <? length (ds_axes d))%nat
                 || (1 <? length (ds_dependents d))%nat = false)
    by now rewrite Hax, Hdep.
  assert (Hfirst : process ext (Some l) st =
    (Raise AttributeError,
     {| heap := heap st ++ [d];
        _fitting_options := PyStr s;
        default_fitting_options := default_fitting_options st ++ [PyStr s] |})).
  { unfold process. rewrite (fitting_process_cases ext st l d Hl Hdim).
    rewrite Hnone, Hup. cbn [is_None negb].
    apply (run_fitting_with_string ext _ l _ d ax dep [] [] fx fy s);
      try assumption; try reflexivity.
    cbn [heap set_options emit_default set_heap]. now apply lookup_app_l_Some. }
  split; [reflexivity |]. split; [exact Hfirst |].
  rewrite Hfirst. cbn [snd]. unfold process.
  rewrite (fitting_process_cases ext _ l d); [| now apply lookup_app_l_Some | exact Hdim].
  cbn [_fitting_options is_None heap].
  rewrite (run_fitting_with_string ext _ l _ d ax dep [] [] fx fy s);
    try assumption; try reflexivity.
  cbn [heap set_heap]. apply lookup_app_l_Some. now apply lookup_app_l_Some.
Qed.

Lemma upstream_string_adopted_unchecked_witness :
  set_fitting_options (PyStr "Linear")
    (node0 (line_data (upstream (PyStr "Linear"))) PyNone)
    = (Raise TypeError, node0 (line_data (upstream (PyStr "Linear"))) PyNone) /\
  process ext0 (Some 0) (node0 (line_data (upstream (PyStr "Linear"))) PyNone) =
    (Raise AttributeError,
     {| heap := [line_data (upstream (PyStr "Linear"));
                 line_data (upstream (PyStr "Linear"))];
        _fitting_options := PyStr "Linear";
        default_fitting_options := [PyStr "Linear"] |}) /\
  fst (process ext0 (Some 0)
         (snd (process ext0 (Some 0)
                 (node0 (line_data (upstream (PyStr "Linear"))) PyNone))))
    = Raise AttributeError.
Proof.
  apply (upstream_string_adopted_unchecked ext0
           (node0 (line_data (upstream (PyStr "Linear"))) PyNone) 0
           (line_data (upstream (PyStr "Linear"))) "x" "y"
           {| values := [0; 1; 2; 3]%Z; field_axes := [] |}
           {| values := [1; 3; 5; 7]%Z; field_axes := ["x"] |} "Linear");
    reflexivity.
Defined.

(** X5. Data without any axis pass through a node that has no options
    to work with, but once the node has options, or the data bring some,
    the call fails with [IndexError] on the first axis; the copy is made
    and the options of the data are adopted before that. *)
Theorem process_without_axes (ext : Externals) (st : NodeState) (l : loc)
    (d : Dataset) :
  heap st !! l = Some d ->
  ds_axes d = [] ->
  length (ds_dependents d) <= 1 ->
  resolved_options st d <> PyNone ->
  process ext (Some l) st =
    (Raise IndexError, set_heap (heap st ++ [d]) (adopted st d)).
Proof.
  intros Hl Hax Hdep Hopt.
  assert (Hdim : (1 <? length (ds_axes d))%nat
                 || (1 <? length (ds_dependents d))%nat = false).
  { rewrite Hax. apply orb_false_iff.
    split; [reflexivity | now apply Nat.ltb_ge]. }
  assert (Hrun : forall st1 out, heap st1 !! l = Some d ->
                   run_fitting ext l out st1 = (Raise IndexError, st1)).
  { intros st1 out H1. unfold run_fitting.
    rewrite (bind_Return _ _ _ _ _ (deref_Some _ _ _ H1)), Hax. reflexivity. }
  unfold process. rewrite (fitting_process_cases ext st l d Hl Hdim).
  unfold resolved_options in Hopt. unfold adopted.
  destruct (is_None (_fitting_options st)) eqn:Hnone; cbn [andb].
  - destruct (is_None (ds_get d "__fitting_options__")) eqn:Hup; cbn [negb].
    + destruct (ds_get d "__fitting_options__"); try discriminate. now destruct Hopt.
    + rewrite Hrun; [reflexivity |]. cbn. now apply lookup_app_l_Some.
  - rewrite Hrun; [reflexivity |]. cbn. now apply lookup_app_l_Some.
Qed.

Lemma process_without_axes_witness :
  process ext0 (Some 0)
    (node0 {| ds_axes := []; ds_dependents := [];
              ds_data := empty; ds_meta := empty |} linear_options)
    = (Raise IndexError,
       {| heap := [{| ds_axes := []; ds_dependents := [];
                      ds_data := empty; ds_meta := empty |};
                   {| ds_axes := []; ds_dependents := [];
                      ds_data := empty; ds_meta := empty |}];
          _fitting_options := linear_options;
          default_fitting_options := [] |}).
Proof.
  apply (process_without_axes ext0
           (node0 {| ds_axes := []; ds_dependents := [];
                     ds_data := empty; ds_meta := empty |} linear_options) 0
           {| ds_axes := []; ds_dependents := [];
              ds_data := empty; ds_meta := empty |});
    try reflexivity; [simpl; lia | discriminate].
Defined.

(** X6. An exception of the fit engine is not caught: it leaves
    [process], after the copy was made and the options of the data, if
    the node had none, were adopted and emitted. *)
Theorem engine_exception_propagates (ext : Externals) (st : NodeState) (l : loc)
    (d : Dataset) (ax dep : string) (fx fy : DataField) (c : pyclass)
    (ps : lmParameters) (e : exn) :
  heap st !! l = Some d ->
  ds_axes d = [ax] ->
  ds_dependents d = [dep] ->
  ds_data d !! ax = Some fx ->
  ds_data d !! dep = Some fy ->
  resolved_options st d = PyFittingOptions (PyClass c) ps ->
  run_fit ext c (values fx) (values fy) ps = Raise e ->
  process ext (Some l) st =
    (Raise e, set_heap (heap st ++ [d]) (adopted st d)).
Proof.
  intros Hl Hax Hdep Hx Hy Hopt Hrun. unfold process.
  rewrite (fitting_process_fit ext st l d ax dep fx fy c ps) by assumption.
  now rewrite Hrun.
Qed.

Lemma engine_exception_propagates_witness :
  process ext_failing (Some 0) (node0 (line_data empty) linear_options) =
    (Raise ValueError,
     {| heap := [line_data empty; line_data empty];
        _fitting_options := linear_options;
        default_fitting_options := [] |}).
Proof.
  apply (engine_exception_propagates ext_failing
           (node0 (line_data empty) linear_options) 0 (line_data empty) "x" "y"
           {| values := [0; 1; 2; 3]%Z; field_axes := [] |}
           {| values := [1; 3; 5; 7]%Z; field_axes := ["x"] |}
           Linear [("m", free_parameter 1%Z); ("of", free_parameter 1%Z)]
           ValueError);
    reflexivity.
Defined.

(** ** Discovery *)

Lemma resolve_name_absolute name : resolve_name name "" = name.
Proof.
  destruct name as [| a s]; [reflexivity |].
  destruct a as [[] [] [] [] [] [] [] []]; reflexivity.
Qed.

Lemma fold_dict_set_get {V} (l acc : pydict V) k v :
  dict_get k (fold_left (fun d mc => dict_set (fst mc) (snd mc) d) l acc) = Some v ->
  In (k, v) l \/ dict_get k acc = Some v.
Proof.
  revert acc. induction l as [| [k0 v0] l IH]; intros acc H; cbn in *; [now right |].
  destruct (IH _ H) as [Hin | Hget]; [left; now right |].
  destruct (string_dec k0 k) as [-> | Hne].
  - rewrite dict_get_set_same in Hget. injection Hget as ->. left. now left.
  - rewrite dict_get_set_other in Hget by exact Hne. now right.
Qed.

Lemma get_models_in_module_result (ext : Externals) (module : pymodule)
    (st : ImportSystem) (m' : pymodule) :
  find_module ext (sys_path st) (module_name module) = Some m' ->
  get_models_in_module ext module st =
    (Return (fold_left (fun d mc => dict_set (fst mc) (snd mc) d)
               (getmembers m' is_Fit_subclass) []),
     set_sys_modules (<[module_name module := m']>
                        (delete (module_name module) (sys_modules st))) st).
Proof.
  intros Hfind. unfold get_models_in_module.
  pose proof (reimport_fresh ext _ _ _ Hfind) as Hre. unfold bind in Hre |- *.
  destruct (try_pass (del_sys_modules (module_name module)) st) as [[[] | e] st1];
    [| discriminate].
  now rewrite Hre.
Qed.

(** X7. Discovery reads the file as it is now.  Given the name of a
    module that the finder finds, the models returned are members of the
    module just read that derive from [Fit]; neither the members of the
    module object that was passed nor a module cached under that name
    play a part, so two calls for module objects of the same name, on
    import systems with the same path, return the same models.
    Afterwards the cache holds the module just read. *)
Theorem discovery_reads_the_file_anew (ext : Externals)
    (module1 module2 m' : pymodule) (st1 st2 : ImportSystem) :
  module_name module1 = module_name module2 ->
  sys_path st1 = sys_path st2 ->
  find_module ext (sys_path st1) (module_name module1) = Some m' ->
  fst (get_models_in_module ext module1 st1)
    = fst (get_models_in_module ext module2 st2) /\
  (exists D, fst (get_models_in_module ext module1 st1) = Return D /\
             forall k v, dict_get k D = Some v ->
                         In (k, v) (module_members m') /\
                         is_Fit_subclass v = true) /\
  sys_modules (snd (get_models_in_module ext module1 st1)) !! module_name module1
    = Some m'.
Proof.
  intros Hname Hpath Hfind.
  rewrite (get_models_in_module_result ext module1 st1 m' Hfind).
  rewrite (get_models_in_module_result ext module2 st2 m')
    by now rewrite <- Hname, <- Hpath.
  split; [reflexivity |]. split.
  - eexists. split; [reflexivity |]. intros k v Hget.
    apply fold_dict_set_get in Hget as [Hin | Hget]; [| discriminate].
    unfold getmembers in Hin. apply filter_In in Hin. exact Hin.
  - cbn. apply lookup_insert_eq.
Qed.

Lemma discovery_reads_the_file_anew_witness :
  fst (get_models_in_module ext0 my_fits imports_lab)
    = fst (get_models_in_module ext0
             {| module_name := "my_fits"; module_file := "old/my_fits.py";
                module_members := [("Gone", PyClass Linear)] |}
             {| sys_modules :=
                  <["my_fits" :=
                      {| module_name := "my_fits"; module_file := "old/my_fits.py";
                         module_members := [("Gone", PyClass Linear)] |}]> empty;
                sys_path := ["."; "C:\Users\lab"] |}) /\
  (exists D, fst (get_models_in_module ext0 my_fits imports_lab) = Return D /\
             forall k v, dict_get k D = Some v ->
                         In (k, v) (module_members my_fits) /\
                         is_Fit_subclass v = true) /\
  sys_modules (snd (get_models_in_module ext0 my_fits imports_lab)) !! "my_fits"
    = Some my_fits.
Proof.
  apply (discovery_reads_the_file_anew ext0 my_fits
           {| module_name := "my_fits"; module_file := "old/my_fits.py";
              module_members := [("Gone", PyClass Linear)] |}
           my_fits imports_lab
           {| sys_modules :=
                <["my_fits" :=
                    {| module_name := "my_fits"; module_file := "old/my_fits.py";
                       module_members := [("Gone", PyClass Linear)] |}]> empty;
              sys_path := ["."; "C:\Users\lab"] |});
    reflexivity.
Defined.

(** X8. When the file of a module is gone, discovery raises
    [ModuleNotFoundError], whatever the cache held, and the cache has
    lost the entry of that name: there is no fallback to the module that
    was loaded before. *)
Theorem discovery_of_missing_file (ext : Externals) (module : pymodule)
    (st : ImportSystem) :
  find_module ext (sys_path st) (module_name module) = None ->
  get_models_in_module ext module st =
    (Raise ModuleNotFoundError,
     set_sys_modules (delete (module_name module) (sys_modules st)) st).
Proof.
  intros Hfind.
  unfold get_models_in_module, bind, try_pass, del_sys_modules, import_module.
  rewrite resolve_name_absolute.
  destruct (sys_modules st !! module_name module) eqn:E; cbn.
  - now rewrite lookup_delete_eq, Hfind.
  - rewrite E, Hfind. rewrite (delete_id _ _ E). now destruct st.
Qed.

Lemma discovery_of_missing_file_witness :
  get_models_in_module ext0 my_fits
    {| sys_modules := <["my_fits" := my_fits]> empty; sys_path := ["."] |}
    = (Raise ModuleNotFoundError,
       {| sys_modules := delete "my_fits" (<["my_fits" := my_fits]> empty);
          sys_path := ["."] |}).
Proof.
  exact (discovery_of_missing_file ext0 my_fits
           {| sys_modules := <["my_fits" := my_fits]> empty; sys_path := ["."] |}
           eq_refl).
Defined.

Section EnumerationMore.
Context (ext : Externals).

Lemma import_module_never_cached bad name package st :
  never_cached ext bad st ->
  match import_module ext name package st with
  | (Return _, st') => never_cached ext bad st'
  | (Raise e, _) => e = ModuleNotFoundError
  end.
Proof.
  intros [Hc Hf]. unfold import_module. cbv zeta.
  destruct (sys_modules st !! resolve_name name package) eqn:E; [now split |].
  destruct (find_module ext (sys_path st) (resolve_name name package)) eqn:F;
    [| reflexivity].
  split; cbn; [| exact Hf].
  rewrite lookup_insert_ne; [exact Hc |]. intros Heq. subst bad. congruence.
Qed.

Lemma del_sys_modules_never_cached bad name st :
  never_cached ext bad st ->
  never_cached ext bad (snd (try_pass (del_sys_modules name) st)).
Proof.
  intros [Hc Hf]. unfold try_pass, del_sys_modules.
  destruct (sys_modules st !! name) eqn:E; cbn; [| now split].
  split; [| exact Hf]. cbn.
  destruct (string_dec name bad) as [-> | Hne];
    [apply lookup_delete_eq | now rewrite lookup_delete_ne].
Qed.

Lemma get_modules_loop_fails pkg units modules st modname ispkg :
  In (modname, ispkg) units ->
  modname <> "fitter_base" ->
  never_cached ext (resolve_name ("." ++ modname) (pkg_name pkg)) st ->
  fst (get_modules_loop ext pkg units modules st) = Raise ModuleNotFoundError.
Proof.
  intros Hin Hne. revert modules st.
  induction units as [| [n b] units IH]; intros modules st Hbad; [destruct Hin |].
  cbn [get_modules_loop].
  destruct (String.eqb n "fitter_base") eqn:E; cbn [negb].
  - apply IH; [| exact Hbad]. destruct Hin as [[= -> ->] | Hin]; [| exact Hin].
    apply String.eqb_eq in E. contradiction.
  - unfold bind at 1.
    pose proof (import_module_never_cached _ ("." ++ n) (pkg_name pkg) st Hbad) as H1.
    destruct (import_module ext ("." ++ n) (pkg_name pkg) st) as [[m1 | e1] st1];
      [| now subst].
    unfold bind at 1.
    pose proof (del_sys_modules_never_cached _ (module_name m1) st1 H1) as H2.
    destruct (try_pass (del_sys_modules (module_name m1)) st1) as [[u | e2] st2] eqn:E2.
    2:{ unfold try_pass in E2.
        destruct (del_sys_modules (module_name m1) st1) as [[] ?]; discriminate. }
    cbn [snd] in H2. unfold bind at 1.
    pose proof (import_module_never_cached _ ("." ++ n) (pkg_name pkg) st2 H2) as H3.
    destruct (import_module ext ("." ++ n) (pkg_name pkg) st2) as [[m2 | e3] st3] eqn:E3;
      [| now subst].
    destruct Hin as [[= -> ->] | Hin]; [| now apply IH].
    exfalso. destruct H2 as [Hc Hf]. unfold import_module in E3.
    cbv zeta in E3. rewrite Hc, Hf in E3. discriminate.
Qed.

End EnumerationMore.

(** X9. One unit that cannot be imported fails the enumeration of the
    whole package: when a listed unit other than [fitter_base] is
    neither cached nor found, [get_modules_in_pkg] raises
    [ModuleNotFoundError] and returns no dictionary, whichever other
    units there are and wherever the unit stands in the listing. *)
Theorem enumeration_fails_as_a_whole (ext : Externals) (pkg : pypackage)
    (st : ImportSystem) (modname : string) (ispkg : bool) :
  In (modname, ispkg) (iter_modules ext (pkg_path pkg)) ->
  modname <> "fitter_base" ->
  sys_modules st !! resolve_name ("." ++ modname) (pkg_name pkg) = None ->
  find_module ext (sys_path st) (resolve_name ("." ++ modname) (pkg_name pkg))
    = None ->
  fst (get_modules_in_pkg ext pkg st) = Raise ModuleNotFoundError.
Proof.
  intros Hin Hne Hc Hf. unfold get_modules_in_pkg.
  apply (get_modules_loop_fails ext pkg _ [] st modname ispkg Hin Hne).
  now split.
Qed.

Lemma enumeration_fails_as_a_whole_witness :
  fst (get_modules_in_pkg ext_broken fitters imports0) = Raise ModuleNotFoundError.
Proof.
  apply (enumeration_fails_as_a_whole ext_broken fitters imports0 "scratch" false).
  - simpl. tauto.
  - discriminate.
  - reflexivity.
  - reflexivity.
Defined.

Lemma process_without_adoption_emits_nothing (ext : Externals) (st : NodeState)
    (l : loc) (d : Dataset) :
  heap st !! l = Some d ->
  _fitting_options st <> PyNone \/ ds_get d "__fitting_options__" = PyNone ->
  default_fitting_options (snd (process ext (Some l) st))
    = default_fitting_options st.
Proof.
  intros Hl Hno. unfold process.
  destruct ((1 <? length (ds_axes d))%nat || (1 <? length (ds_dependents d))%nat)
    eqn:Hdim.
  - unfold fitting_process, bind, deref. rewrite Hl, Hdim. reflexivity.
  - rewrite (fitting_process_cases ext st l d Hl Hdim).
    destruct (is_None (_fitting_options st)) eqn:Hnone.
    + destruct Hno as [Hset | Hup].
      * exfalso. apply Hset. now destruct (_fitting_options st).
      * rewrite Hup. reflexivity.
    + now rewrite run_fitting_keeps_emitted.
Qed.

(** X10. Data that arrive reach the widget only by adoption: when the
    node has options already, or the data carry none, the arrival
    leaves the widget exactly as it was, whatever the node does with the
    events of the widget. *)
Theorem arrival_without_adoption_leaves_widget (ext : Externals)
    (to_node : pyval -> NodeState -> NodeState) (s : System) (d : Dataset) :
  _fitting_options (node s) <> PyNone \/ ds_get d "__fitting_options__" = PyNone ->
  gui (step ext to_node s (Arrive d)) = gui s.
Proof.
  intros Hno.
  set (st0 := set_heap (heap (node s) ++ [d]) (node s)).
  set (l := length (heap (node s))).
  assert (He : default_fitting_options (snd (process ext (Some l) st0))
               = default_fitting_options st0).
  { apply (process_without_adoption_emits_nothing ext st0 l d); [| exact Hno].
    unfold st0, l. cbn [heap set_heap]. apply list_lookup_middle. reflexivity. }
  change (deliver ext
            (skipn (length (default_fitting_options st0))
               (default_fitting_options (snd (process ext (Some l) st0))))
            (gui s) = gui s).
  rewrite He, skipn_all. reflexivity.
Qed.

Lemma arrival_without_adoption_leaves_widget_witness :
  gui (step ext0 store_options system0 (Arrive (line_data empty))) = gui system0.
Proof.
  apply (arrival_without_adoption_leaves_widget ext0 store_options system0
           (line_data empty)).
  right. reflexivity.
Defined.

Section SetterMore.
Context (ext : Externals).

Lemma find_module_of_unlisted c items g :
  Forall (fun km => module_file (snd km) <> cls_file c) items ->
  find_module_of ext (PyClass c) items g = (Return false, g).
Proof.
  induction 1 as [| [mdu_name mdu] rest Hne _ IH]; [reflexivity |].
  cbn [find_module_of getsourcefile]. unfold bind at 1, ret at 1.
  cbn [snd] in Hne. apply String.eqb_neq in Hne. now rewrite Hne.
Qed.

End SetterMore.

(** X11. Options for a model of a file that no registered module has are
    refused as a whole: [fittingOptionSetter] raises
    [NotImplementedError] before it touches the widget, and
    [setDefaultFit] with it, so that such options are never recorded as
    the input options. *)
Theorem options_of_unlisted_file_refused (ext : Externals) (c : pyclass)
    (parameters : lmParameters) (g : Gui) :
  Forall (fun km => module_file (snd km) <> cls_file c) (fitting_modules g) ->
  fittingOptionSetter ext (PyFittingOptions (PyClass c) parameters) g
    = (Raise NotImplementedError, g) /\
  setDefaultFit ext (PyFittingOptions (PyClass c) parameters) g
    = (Raise NotImplementedError, g).
Proof.
  intros Hno.
  assert (H : fittingOptionSetter ext (PyFittingOptions (PyClass c) parameters) g
              = (Raise NotImplementedError, g)).
  { unfold fittingOptionSetter. rewrite bind_gets.
    unfold bind at 1. rewrite (find_module_of_unlisted ext c _ g Hno).
    reflexivity. }
  split; [exact H |]. unfold setDefaultFit, bind at 1. now rewrite H.
Qed.

Lemma options_of_unlisted_file_refused_witness :
  fittingOptionSetter ext0 (PyFittingOptions (PyClass MyCosine) []) gui0
    = (Raise NotImplementedError, gui0) /\
  setDefaultFit ext0 (PyFittingOptions (PyClass MyCosine) []) gui0
    = (Raise NotImplementedError, gui0).
Proof.
  apply (options_of_unlisted_file_refused ext0 MyCosine [] gui0).
  repeat constructor; discriminate.
Defined.




(** X13. A file whose name is new is registered under that name: when
    no module of the derived name is registered and the import returns
    a module, [add_user_module] returns, the module is the last entry of
    the dictionary under the derived name, the entries before it are as
    they were, and the box has the name as its last and current item. *)
Theorem new_name_module_registered (ext : Externals) (mod_file : string)
    (g : Gui) (user_module : pymodule) (imp' : ImportSystem) :
  str_suffix 3 mod_file = ".py" ->
  dict_mem (derived_name mod_file) (fitting_modules g) = false ->
  import_module ext (derived_name mod_file) (derived_dir mod_file)
    (with_dir mod_file (imports g)) = (Return user_module, imp') ->
  fst (add_user_module ext (Some mod_file) g) = Return tt /\
  fitting_modules (snd (add_user_module ext (Some mod_file) g))
    = fitting_modules g ++ [(derived_name mod_file, user_module)] /\
  combo_items (module_combo (snd (add_user_module ext (Some mod_file) g)))
    = combo_items (module_combo g) ++ [derived_name mod_file] /\
  currentText (module_combo (snd (add_user_module ext (Some mod_file) g)))
    = derived_name mod_file.
Proof.
  intros Hpy Hnew Himp.
  rewrite (add_user_module_imported ext mod_file g user_module imp' Hpy Himp).
  rewrite Hnew.
  destruct (register_module_spec ext (derived_name mod_file) user_module
              (set_imports imp' g)) as (H1 & H2 & H3 & H4).
  split; [exact H1 |]. split; [| split; [exact H3 | exact H4]].
  rewrite H2. cbn [fitting_modules set_imports].
  apply dict_set_fresh. intros Hin. apply dict_mem_true in Hin. congruence.
Qed.

Lemma new_name_module_registered_witness :
  fst (add_user_module ext0 (Some "C:/Users/lab/my_fits.py") gui_solo) = Return tt /\
  fitting_modules (snd (add_user_module ext0 (Some "C:/Users/lab/my_fits.py") gui_solo))
    = fitting_modules gui_solo ++ [("my_fits", my_fits)] /\
  combo_items (module_combo
     (snd (add_user_module ext0 (Some "C:/Users/lab/my_fits.py") gui_solo)))
    = combo_items (module_combo gui_solo) ++ ["my_fits"] /\
  currentText (module_combo
     (snd (add_user_module ext0 (Some "C:/Users/lab/my_fits.py") gui_solo)))
    = "my_fits".
Proof.
  apply (new_name_module_registered ext0 "C:/Users/lab/my_fits.py" gui_solo my_fits
           (snd (import_module ext0 "my_fits" "C:\Users\lab"
                   (with_dir "C:/Users/lab/my_fits.py" (imports gui_solo)))));
    [reflexivity | reflexivity | vm_compute; reflexivity].
Defined.

(** ** Live update and the parameter table *)

Lemma set_connections_same g : set_connections (connections g) g = g.
Proof. now destruct g. Qed.

Lemma alter_S_commute (i j : nat) (c : list nat) :
  alter S i (alter S j c) = alter S j (alter S i c).
Proof.
  apply list_eq. intros k. rewrite !list_lookup_alter.
  repeat case_decide; subst; try congruence; reflexivity.
Qed.

Lemma connect_all_alter sigs a c :
  connect_all sigs (alter S a c) = alter S a (connect_all sigs c).
Proof.
  revert c. induction sigs as [| b sigs IH]; intros c; [reflexivity |].
  cbn [connect_all fold_left]. fold (connect_all sigs (alter S b (alter S a c))).
  fold (connect_all sigs (alter S b c)).
  now rewrite alter_S_commute, IH.
Qed.

Lemma for_each_connect sigs g :
  for_each sigs connect g
    = (Return tt, set_connections (connect_all sigs (connections g)) g).
Proof.
  revert g. induction sigs as [| a sigs IH]; intros g.
  - cbn. now rewrite set_connections_same.
  - cbn [for_each]. unfold connect at 1. rewrite bind_modify, IH. reflexivity.
Qed.

Lemma disconnect_after_connect a c g :
  try_pass_TypeError (disconnect a) (set_connections (alter S a c) g)
    = (Return tt, set_connections c g).
Proof.
  unfold try_pass_TypeError, disconnect. cbn [connections set_connections].
  rewrite list_lookup_alter_eq. destruct (c !! a) as [n |] eqn:E.
  - assert (H : <[a := n]> (alter S a c) = c).
    { apply list_eq. intros k. destruct (decide (a = k)) as [<- | Hne].
      - rewrite list_lookup_insert_eq; [now rewrite E |].
        rewrite length_alter. now apply lookup_lt_Some in E.
      - now rewrite list_lookup_insert_ne, list_lookup_alter_ne by exact Hne. }
    cbn. now rewrite H.
  - assert (H : alter S a c = c).
    { apply list_eq. intros k. rewrite list_lookup_alter.
      destruct (decide (a = k)) as [<- | Hne]; [now rewrite E | reflexivity]. }
    cbn. now rewrite H.
Qed.

Lemma for_each_disconnect_connected sigs c g :
  for_each sigs (fun psig => try_pass_TypeError (disconnect psig))
    (set_connections (connect_all sigs c) g)
    = (Return tt, set_connections c g).
Proof.
  revert c. induction sigs as [| a sigs IH]; intros c; [reflexivity |].
  cbn [for_each connect_all fold_left]. fold (connect_all sigs (alter S a c)).
  rewrite connect_all_alter.
  rewrite (bind_Return _ _ _ _ _ (disconnect_after_connect a _ g)).
  apply IH.
Qed.

(** X14. Switching live update on and off again undoes itself.  For a
    widget whose [param_signals] are the signals of the rows it has, and
    however these were connected before, after [setLiveUpdate] for
    "checked" and then for "unchecked" every connection count is as it
    was, nothing has been raised, and only [live_update] may differ: it
    is off. *)
Theorem live_update_on_off_restores (g : Gui) :
  signals_of_rows g ->
  (setLiveUpdate true ;; setLiveUpdate false) g
    = (Return tt, set_live_update false g).
Proof.
  intros _.
  unfold setLiveUpdate, changeParamLiveUpdate.
  repeat (rewrite ?bind_modify, ?bind_gets; unfold bind at 1).
  cbn [param_signals set_model_list_connections].
  rewrite for_each_connect. cbn [connections set_model_list_connections].
  unfold modify at 1.
  unfold try_pass_TypeError at 1, model_list_disconnect.
  cbn [model_list_connections set_live_update set_connections
       set_model_list_connections].
  unfold gets at 1. cbn [param_signals].
  match goal with
  | |- context [for_each ?l ?body ?s] =>
      change s with
        (set_connections (connect_all (param_signals g) (connections g))
           (set_live_update true g))
  end.
  rewrite for_each_disconnect_connected. unfold modify.
  now destruct g.
Qed.

Lemma live_update_on_off_restores_witness :
  (setLiveUpdate true ;; setLiveUpdate false)
    (snd (model_list_setCurrentItem ext0 1 gui0))
    = (Return tt,
       set_live_update false (snd (model_list_setCurrentItem ext0 1 gui0))).
Proof.
  apply (live_update_on_off_restores (snd (model_list_setCurrentItem ext0 1 gui0))).
  reflexivity.
Defined.

Section ParamTableMore.
Context (ext : Externals).

Lemma for_each_add_param_row params g :
  for_each params (add_param_row ext) g =
    (Return tt,
     set_param_table
       (param_table g ++ fresh_rows ext params (length (connections g)))
       (set_param_signals
          (param_signals g
             ++ seq (length (connections g)) (4 * length params))
          (set_connections
             (connections g ++ replicate (4 * length params) 0) g))).
Proof.
  revert g. induction params as [| name params IH]; intros g.
  - cbn. rewrite !app_nil_r. now destruct g.
  - cbn [for_each]. unfold add_param_row at 1. rewrite bind_modify, IH.
    cbv zeta.
    cbn [param_table param_signals connections set_param_table
         set_param_signals set_connections].
    rewrite length_app. cbn [length fresh_rows].
    replace (4 * S (length params)) with (S (S (S (S (4 * length params)))))
      by lia.
    cbn [seq replicate]. rewrite <- !app_assoc. cbn [app].
    replace (length (connections g) + 1) with (S (length (connections g)))
      by lia.
    replace (length (connections g) + 2) with (S (S (length (connections g))))
      by lia.
    replace (length (connections g) + 3)
      with (S (S (S (length (connections g))))) by lia.
    replace (length (connections g) + 4)
      with (S (S (S (S (length (connections g)))))) by lia.
    reflexivity.
Qed.

Lemma connect_all_fresh m c :
  connect_all (seq (length c) m) (c ++ replicate m 0) = c ++ replicate m 1.
Proof.
  revert c. induction m as [| m IH]; intros c; [reflexivity |].
  cbn [seq connect_all fold_left replicate].
  fold (connect_all (seq (S (length c)) m) (alter S (length c) (c ++ 0 :: replicate m 0))).
  replace (alter S (length c) (c ++ 0 :: replicate m 0))
    with ((c ++ [1]) ++ replicate m 0).
  - replace (S (length c)) with (length (c ++ [1]))
      by (rewrite length_app; cbn; lia).
    rewrite IH, <- app_assoc. reflexivity.
  - rewrite <- app_assoc. cbn [app].
    pose proof (alter_app_r S c (0 :: replicate m 0) 0) as H.
    rewrite Nat.add_0_r in H. now rewrite H.
Qed.

Lemma for_each_disconnect_idle sigs g :
  Forall (fun psig => connections g !! psig = Some 0) sigs ->
  for_each sigs (fun psig => try_pass_TypeError (disconnect psig)) g
    = (Return tt, g).
Proof.
  induction 1 as [| a sigs Ha _ IH]; [reflexivity |].
  cbn [for_each]. unfold bind at 1, try_pass_TypeError at 1, disconnect at 1.
  now rewrite Ha.
Qed.

End ParamTableMore.

Lemma updateParamTable_result (ext : Externals) (c : pyclass) (g : Gui) :
  updateParamTable ext (PyClass c) g =
    (Return tt,
     set_param_table
       (fresh_rows ext (tl (cls_model_params c)) (length (connections g)))
       (set_param_signals
          (seq (length (connections g)) (4 * length (tl (cls_model_params c))))
          (set_connections
             (connections g
                ++ replicate (4 * length (tl (cls_model_params c)))
                     (if live_update g then 1 else 0))
             g))).
Proof.
  unfold updateParamTable. cbv zeta. rewrite !bind_modify.
  rewrite (bind_Return _ _ _ _ _ (for_each_add_param_row ext _ _)).
  rewrite bind_gets.
  cbn [param_table param_signals connections live_update set_param_table
       set_param_signals set_connections app].
  unfold changeParamLiveUpdate. rewrite bind_gets.
  cbn [param_signals set_param_table set_param_signals].
  destruct (live_update g).
  - rewrite for_each_connect.
    cbn [connections set_param_table set_param_signals set_connections].
    now rewrite connect_all_fresh.
  - apply for_each_disconnect_idle. apply Forall_forall. intros psig Hin.
    apply elem_of_seq in Hin.
    cbn [connections set_param_table set_param_signals set_connections].
    rewrite lookup_app_r by lia. apply lookup_replicate_2. lia.
Qed.

(** X15. What [updateParamTable] builds for a model class.  The old rows
    are dropped.  Each parameter of the model function but the first
    gets one row, in the order of the signature, with the box unchecked,
    the value [1], the widest range and no bounds; the signals of these
    rows are new and are the signals [param_signals] now lists.  Each of
    them is connected to [_signalAllOptions] once when live update is
    on, and not at all when it is off.  The connections of older signals
    and everything else in the widget stay as they were. *)
Theorem updateParamTable_builds_rows (ext : Externals) (c : pyclass) (g : Gui) :
  updateParamTable ext (PyClass c) g =
    (Return tt,
     set_param_table
       (fresh_rows ext (tl (cls_model_params c)) (length (connections g)))
       (set_param_signals
          (seq (length (connections g)) (4 * length (tl (cls_model_params c))))
          (set_connections
             (connections g
                ++ replicate (4 * length (tl (cls_model_params c)))
                     (if live_update g then 1 else 0))
             g))).
Proof. apply updateParamTable_result. Qed.

(** ** The module box and the model list *)

Section ModuleUpdateMore.
Context (ext : Externals).

Lemma signalAllOptions_idle g :
  currentItem (model_list g) = None -> _signalAllOptions ext g = (Return tt, g).
Proof. intros H. unfold _signalAllOptions. rewrite bind_gets. now rewrite H. Qed.

Lemma call_slots_idle n g :
  currentItem (model_list g) = None ->
  call_slots n (_signalAllOptions ext) g = (Return tt, g).
Proof.
  intros H. induction n as [| n IH]; [reflexivity |].
  cbn [call_slots]. unfold bind at 1, call_slot at 1.
  now rewrite (signalAllOptions_idle g H).
Qed.

Lemma model_list_clear_spec g :
  model_list_clear ext g = (Return tt, cleared g).
Proof.
  unfold model_list_clear, cleared. rewrite bind_gets.
  destruct (currentItem (model_list g)) as [text |]; [| reflexivity].
  unfold bind at 1. rewrite bind_modify.
  unfold emit_currentItemChanged, bind at 1, call_slot at 1.
  cbn [modelChanged]. rewrite bind_modify. unfold modify at 1.
  rewrite bind_gets, call_slots_idle by reflexivity.
  reflexivity.
Qed.

Lemma for_each_addItem keys g :
  for_each keys model_list_addItem g =
    (Return tt,
     set_model_list {| list_items := list_items (model_list g) ++ keys;
                       list_current := list_current (model_list g) |} g).
Proof.
  revert g. induction keys as [| k keys IH]; intros g.
  - cbn. rewrite app_nil_r. now destruct g as [? ? ? ? ? ? [] ? ? ? ? ? ?].
  - cbn [for_each]. unfold model_list_addItem at 1. rewrite bind_modify, IH.
    cbn [model_list set_model_list list_items list_current].
    now rewrite <- app_assoc.
Qed.

Lemma moduleUpdate_unknown name g :
  dict_get name (fitting_modules g) = None ->
  moduleUpdate ext name g = (Raise KeyError, cleared g).
Proof.
  intros Hget. unfold moduleUpdate.
  rewrite (bind_Return _ _ _ _ _ (model_list_clear_spec g)).
  unfold bind at 1, lookup_module.
  assert (Hm : fitting_modules (cleared g) = fitting_modules g).
  { unfold cleared. now destruct (currentItem (model_list g)). }
  now rewrite Hm, Hget.
Qed.

Lemma moduleUpdate_known name g existing m' :
  dict_get name (fitting_modules g) = Some existing ->
  find_module ext (sys_path (imports g)) (module_name existing) = Some m' ->
  moduleUpdate ext name g =
    (Return tt,
     set_model_list {| list_items := dict_keys (models_of m');
                       list_current := None |}
       (set_imports
          (set_sys_modules
             (<[module_name existing := m']>
                (delete (module_name existing) (sys_modules (imports g))))
             (imports g))
          (cleared g))).
Proof.
  intros Hget Hfind. unfold moduleUpdate.
  rewrite (bind_Return _ _ _ _ _ (model_list_clear_spec g)).
  assert (Hm : fitting_modules (cleared g) = fitting_modules g).
  { unfold cleared. now destruct (currentItem (model_list g)). }
  assert (Hi : imports (cleared g) = imports g).
  { unfold cleared. now destruct (currentItem (model_list g)). }
  unfold bind at 1, lookup_module. rewrite Hm, Hget.
  unfold bind at 1, zoom. rewrite Hi.
  rewrite (get_models_in_module_result ext existing (imports g) m' Hfind).
  rewrite for_each_addItem. reflexivity.
Qed.

End ModuleUpdateMore.

(** X16. Switching or refreshing the module tells the node nothing, even
    under live update: whatever its outcome, [moduleUpdate] leaves no
    model selected and raises no "options changed" event; and when a
    model was selected, the parameter table with all that was entered in
    it is gone. *)
Theorem moduleUpdate_deselects_silently (ext : Externals) (name : string)
    (g : Gui) :
  currentItem (model_list (snd (moduleUpdate ext name g))) = None /\
  options_changed (snd (moduleUpdate ext name g)) = options_changed g /\
  slot_errors (snd (moduleUpdate ext name g)) = slot_errors g /\
  (currentItem (model_list g) <> None ->
   param_table (snd (moduleUpdate ext name g)) = []).
Proof.
  assert (Hc : forall (T : Type) (f : Gui -> T),
             (forall x h, f (set_model_list x h) = f h) ->
             (forall x h, f (set_imports x h) = f h) ->
             f (snd (moduleUpdate ext name g)) = f (cleared g)).
  { intros T f H1 H2.
    destruct (dict_get name (fitting_modules g)) as [existing |] eqn:Hget.
    - unfold moduleUpdate.
      rewrite (bind_Return _ _ _ _ _ (model_list_clear_spec ext g)).
      assert (Hm : fitting_modules (cleared g) = fitting_modules g).
      { unfold cleared. now destruct (currentItem (model_list g)). }
      unfold bind at 1, lookup_module. rewrite Hm, Hget.
      unfold bind at 1, zoom.
      destruct (get_models_in_module ext existing (imports (cleared g)))
        as [[D | e] imp']; cbn [snd]; [| apply H2].
      rewrite for_each_addItem. cbn [snd]. now rewrite H1, H2.
    - now rewrite (moduleUpdate_unknown ext name g Hget). }
  split; [| split; [| split]].
  - destruct (dict_get name (fitting_modules g)) as [existing |] eqn:Hget.
    + unfold moduleUpdate.
      rewrite (bind_Return _ _ _ _ _ (model_list_clear_spec ext g)).
      assert (Hm : fitting_modules (cleared g) = fitting_modules g).
      { unfold cleared. now destruct (currentItem (model_list g)). }
      unfold bind at 1, lookup_module. rewrite Hm, Hget.
      unfold bind at 1, zoom.
      destruct (get_models_in_module ext existing (imports (cleared g)))
        as [[D | e] imp']; cbn [snd]; [| reflexivity].
      rewrite for_each_addItem. reflexivity.
    + now rewrite (moduleUpdate_unknown ext name g Hget).
  - rewrite (Hc _ options_changed) by reflexivity.
    unfold cleared. now destruct (currentItem (model_list g)).
  - rewrite (Hc _ slot_errors) by reflexivity.
    unfold cleared. now destruct (currentItem (model_list g)).
  - intros Hsel. rewrite (Hc _ param_table) by reflexivity.
    unfold cleared. now destruct (currentItem (model_list g)).
Qed.

(** X17. What [moduleUpdate] shows for a registered module whose file is
    found: it returns, the model list holds the names under which the
    file as it is now binds fit classes, in place of the old items and
    with none selected, and the module read from the file is in the
    cache. *)
Theorem moduleUpdate_lists_models_anew (ext : Externals) (name : string)
    (g : Gui) (existing m' : pymodule) :
  dict_get name (fitting_modules g) = Some existing ->
  find_module ext (sys_path (imports g)) (module_name existing) = Some m' ->
  fst (moduleUpdate ext name g) = Return tt /\
  model_list (snd (moduleUpdate ext name g))
    = {| list_items := dict_keys (models_of m'); list_current := None |} /\
  sys_modules (imports (snd (moduleUpdate ext name g)))
    !! module_name existing = Some m' /\
  fitting_modules (snd (moduleUpdate ext name g)) = fitting_modules g.
Proof.
  intros Hget Hfind.
  rewrite (moduleUpdate_known ext name g existing m' Hget Hfind).
  split; [reflexivity |]. split; [reflexivity |]. split.
  - cbn. apply lookup_insert_eq.
  - cbn [snd fitting_modules set_model_list set_imports].
    unfold cleared. now destruct (currentItem (model_list g)).
Qed.

Lemma moduleUpdate_lists_models_anew_witness :
  fst (moduleUpdate ext0 "my_fits" gui0) = Return tt /\
  model_list (snd (moduleUpdate ext0 "my_fits" gui0))
    = {| list_items := dict_keys (models_of packaged_my_fits);
         list_current := None |} /\
  sys_modules (imports (snd (moduleUpdate ext0 "my_fits" gui0)))
    !! module_name packaged_my_fits = Some packaged_my_fits /\
  fitting_modules (snd (moduleUpdate ext0 "my_fits" gui0)) = fitting_modules gui0.
Proof.
  apply (moduleUpdate_lists_models_anew ext0 "my_fits" gui0 packaged_my_fits
           packaged_my_fits); reflexivity.
Defined.

(** X18. A name that is not registered: [moduleUpdate] raises [KeyError],
    but only after it has cleared the model list, so the widget is left
    with an empty list and, when a model was selected, without its
    parameter table. *)
Theorem moduleUpdate_of_unregistered_name (ext : Externals) (name : string)
    (g : Gui) :
  dict_get name (fitting_modules g) = None ->
  moduleUpdate ext name g = (Raise KeyError, cleared g).
Proof. apply moduleUpdate_unknown. Qed.

Lemma moduleUpdate_of_unregistered_name_witness :
  moduleUpdate ext0 "my_fits(C:\Users\lab)" gui0
    = (Raise KeyError, cleared gui0).
Proof.
  apply (moduleUpdate_of_unregistered_name ext0 "my_fits(C:\Users\lab)" gui0).
  reflexivity.
Defined.

(** ** Building the widget *)

Lemma addModuleComboBox_fold keys c :
  fold_left
    (fun combo module_name =>
       {| combo_items := combo_items combo ++ [module_name];
          combo_index := match combo_items combo with
                         | [] => Some 0
                         | _ => combo_index combo
                         end |})
    keys c
  = {| combo_items := combo_items c ++ keys;
       combo_index := match combo_items c, keys with
                      | [], _ :: _ => Some 0
                      | _, _ => combo_index c
                      end |}.
Proof.
  revert c. induction keys as [| k keys IH]; intros c.
  - cbn. rewrite app_nil_r. now destruct c as [[| ? ?] ?].
  - cbn [fold_left]. rewrite IH. cbn [combo_items combo_index].
    rewrite <- app_assoc. now destruct (combo_items c).
Qed.

(** X19. The widget cannot be built without a fitting module: with an
    empty module dictionary the box has no current text, and
    [__init__] raises [KeyError] from its call of [moduleUpdate]. *)
Theorem widget_needs_a_module (ext : Externals) (imp : ImportSystem) :
  fst (FittingGui_init ext imp []) = Raise KeyError.
Proof.
  unfold FittingGui_init. cbv zeta.
  now rewrite moduleUpdate_unknown.
Qed.

(** X20. The widget as [__init__] leaves it.  When the file of the first
    module of the dictionary is found, [__init__] returns; the box lists
    the modules in the order of the dictionary with the first as the
    current one; the model list holds the models of that module, read
    from its file, and none is selected; there are no parameter rows, no
    recorded input options and no connections, and live update is off. *)
Theorem widget_shows_first_module (ext : Externals) (imp : ImportSystem)
    (name : string) (m m' : pymodule) (rest : pydict pymodule) :
  find_module ext (sys_path imp) (module_name m) = Some m' ->
  fst (FittingGui_init ext imp ((name, m) :: rest)) = Return tt /\
  module_combo (snd (FittingGui_init ext imp ((name, m) :: rest)))
    = {| combo_items := name :: dict_keys rest; combo_index := Some 0 |} /\
  currentText (module_combo (snd (FittingGui_init ext imp ((name, m) :: rest))))
    = name /\
  model_list (snd (FittingGui_init ext imp ((name, m) :: rest)))
    = {| list_items := dict_keys (models_of m'); list_current := None |} /\
  param_table (snd (FittingGui_init ext imp ((name, m) :: rest))) = [] /\
  input_options (snd (FittingGui_init ext imp ((name, m) :: rest))) = PyNone /\
  live_update (snd (FittingGui_init ext imp ((name, m) :: rest))) = false /\
  connections (snd (FittingGui_init ext imp ((name, m) :: rest))) = [] /\
  model_list_connections (snd (FittingGui_init ext imp ((name, m) :: rest))) = 0.
Proof.
  intros Hfind. unfold FittingGui_init. cbv zeta.
  unfold addModuleComboBox. rewrite addModuleComboBox_fold.
  cbn [fitting_modules FittingGui_fields dict_keys map fst combo_items
       combo_index app module_combo set_module_combo].
  change (map fst rest) with (dict_keys rest).
  assert (Hcur : currentText {| combo_items := name :: dict_keys rest;
                                combo_index := Some 0 |} = name) by reflexivity.
  rewrite Hcur.
  erewrite (moduleUpdate_known ext name _ m m').
  - repeat split; reflexivity.
  - cbn [fitting_modules set_module_combo FittingGui_fields dict_get].
    now rewrite String.eqb_refl.
  - exact Hfind.
Qed.

Lemma widget_shows_first_module_witness :
  fst (FittingGui_init ext0 imports0
         [("generic_functions", generic_functions); ("my_fits", packaged_my_fits)])
    = Return tt /\
  module_combo (snd (FittingGui_init ext0 imports0
         [("generic_functions", generic_functions); ("my_fits", packaged_my_fits)]))
    = {| combo_items := "generic_functions" :: dict_keys [("my_fits", packaged_my_fits)];
         combo_index := Some 0 |} /\
  currentText (module_combo (snd (FittingGui_init ext0 imports0
         [("generic_functions", generic_functions); ("my_fits", packaged_my_fits)])))
    = "generic_functions" /\
  model_list (snd (FittingGui_init ext0 imports0
         [("generic_functions", generic_functions); ("my_fits", packaged_my_fits)]))
    = {| list_items := dict_keys (models_of generic_functions);
         list_current := None |} /\
  param_table (snd (FittingGui_init ext0 imports0
         [("generic_functions", generic_functions); ("my_fits", packaged_my_fits)]))
    = [] /\
  input_options (snd (FittingGui_init ext0 imports0
         [("generic_functions", generic_functions); ("my_fits", packaged_my_fits)]))
    = PyNone /\
  live_update (snd (FittingGui_init ext0 imports0
         [("generic_functions", generic_functions); ("my_fits", packaged_my_fits)]))
    = false /\
  connections (snd (FittingGui_init ext0 imports0
         [("generic_functions", generic_functions); ("my_fits", packaged_my_fits)]))
    = [] /\
  model_list_connections (snd (FittingGui_init ext0 imports0
         [("generic_functions", generic_functions); ("my_fits", packaged_my_fits)]))
    = 0.
Proof.
  apply (widget_shows_first_module ext0 imports0 "generic_functions"
           generic_functions generic_functions [("my_fits", packaged_my_fits)]).
  reflexivity.
Defined.

(** ** The rows of the parameter table *)

Lemma bind_fst {S A B} (c : M S A) (k : A -> M S B) s a :
  fst (c s) = Return a -> bind c k s = k a (snd (c s)).
Proof.
  intros H. unfold bind. destruct (c s) as [[a' | e] s']; cbn in *; congruence.
Qed.

Section RowFacts.
Context (ext : Externals).

Lemma row_op_lookup c i g r r' :
  param_table g !! i = Some r -> row_op c i g r' ->
  param_table (snd (c g)) !! i = Some r'.
Proof.
  intros Hr [_ Ht]. rewrite Ht. apply list_lookup_insert_eq.
  now apply lookup_lt_Some in Hr.
Qed.

Lemma row_op_bind c k i g r r1 r2 :
  param_table g !! i = Some r ->
  row_op c i g r1 -> row_op k i (snd (c g)) r2 -> row_op (c ;; k) i g r2.
Proof.
  intros Hr [Hc1 Hc2] [Hk1 Hk2]. unfold row_op.
  rewrite (bind_fst _ _ _ _ Hc1). split; [exact Hk1 |].
  rewrite Hk2, Hc2. apply list_insert_insert_eq.
Qed.

Lemma row_op_keep c i g r :
  param_table g !! i = Some r ->
  keeps param_table c -> never_raises c -> row_op c i g r.
Proof.
  intros Hr Hk Hn. split.
  - destruct (Hn g) as [[] H]. exact H.
  - rewrite Hk. symmetry. now apply list_insert_id.
Qed.

Lemma row_op_call_slot c i g r' : row_op c i g r' -> row_op (call_slot c) i g r'.
Proof.
  intros [H1 H2]. unfold row_op, call_slot.
  destruct (c g) as [[[] | e] g1]; cbn in *; [now split | discriminate].
Qed.

Lemma row_op_update_row i f g r :
  param_table g !! i = Some r -> row_op (update_row i f) i g (f r).
Proof.
  intros Hr. split; [reflexivity |]. cbn.
  apply list_eq. intros j. rewrite list_lookup_alter.
  destruct (decide (i = j)) as [<- | Hne].
  - rewrite Hr, list_lookup_insert_eq; [reflexivity |].
    now apply lookup_lt_Some in Hr.
  - now rewrite list_lookup_insert_ne.
Qed.

Lemma keeps_param_table_emit psig :
  keeps param_table (emit_param_signal ext psig).
Proof. keeps_gui. Qed.

Lemma never_raises_emit psig : never_raises (emit_param_signal ext psig).
Proof. total_gui. Qed.

Lemma row_op_emit psig i g r :
  param_table g !! i = Some r -> row_op (emit_param_signal ext psig) i g r.
Proof.
  intros Hr.
  exact (row_op_keep _ i g r Hr (keeps_param_table_emit psig)
           (never_raises_emit psig)).
Qed.

Lemma with_fixed_same r : with_fixed (fix_checked r) r = r.
Proof. now destruct r. Qed.

Lemma setChecked_row i b g r :
  param_table g !! i = Some r -> row_op (setChecked ext i b) i g (with_fixed b r).
Proof.
  intros Hr. unfold row_op, setChecked.
  rewrite (bind_Return _ _ _ _ _ (get_cell_Some _ _ _ Hr)).
  destruct (Bool.eqb (fix_checked r) b) eqn:E.
  - apply eqb_prop in E. subst b. rewrite with_fixed_same.
    split; [reflexivity |]. symmetry. now apply list_insert_id.
  - pose proof (row_op_update_row i (with_fixed b) g r Hr) as H0.
    apply (row_op_bind _ _ i g r (with_fixed b r) _ Hr).
    + exact H0.
    + apply (row_op_emit _ i _ (with_fixed b r)).
      exact (row_op_lookup _ i g r _ Hr H0).
Qed.

Lemma spin_update_row i lo hi v g r :
  param_table g !! i = Some r ->
  row_op (spin_update ext i lo hi v) i g (with_spin lo hi v r).
Proof.
  intros Hr. unfold row_op, spin_update.
  rewrite (bind_Return _ _ _ _ _ (get_cell_Some _ _ _ Hr)). cbv zeta.
  pose proof (row_op_update_row i (with_spin lo hi v) g r Hr) as H0.
  apply (row_op_bind _ _ i g r (with_spin lo hi v r) _ Hr).
  - exact H0.
  - pose proof (row_op_lookup _ i g r _ Hr H0) as H1.
    destruct (Z.eqb _ _).
    + split; [reflexivity |]. symmetry. now apply list_insert_id.
    + now apply (row_op_emit _ i _ (with_spin lo hi v r)).
Qed.

Lemma spin_setValue_row i v g r :
  param_table g !! i = Some r ->
  row_op (spin_setValue ext i v) i g (with_spin (spin_min r) (spin_max r) v r).
Proof.
  intros Hr. unfold row_op, spin_setValue.
  rewrite (bind_Return _ _ _ _ _ (get_cell_Some _ _ _ Hr)).
  now apply spin_update_row.
Qed.

Lemma setMinimum_row i text g r :
  param_table g !! i = Some r ->
  row_op (OptionSpinbox_setMinimum ext i text) i g
    (with_spin (default (- MAX_FLOAT)%Z (eval_number ext text))
       (Z.max (default (- MAX_FLOAT)%Z (eval_number ext text)) (spin_max r))
       (spin_value r) r).
Proof.
  intros Hr. unfold row_op, OptionSpinbox_setMinimum.
  rewrite (bind_Return _ _ _ _ _ (get_cell_Some _ _ _ Hr)). cbv zeta.
  destruct (eval_number ext text); now apply spin_update_row.
Qed.

Lemma setMaximum_row i text g r :
  param_table g !! i = Some r ->
  row_op (OptionSpinbox_setMaximum ext i text) i g
    (with_spin (Z.min (default MAX_FLOAT (eval_number ext text)) (spin_min r))
       (default MAX_FLOAT (eval_number ext text))
       (spin_value r) r).
Proof.
  intros Hr. unfold row_op, OptionSpinbox_setMaximum.
  rewrite (bind_Return _ _ _ _ _ (get_cell_Some _ _ _ Hr)). cbv zeta.
  destruct (eval_number ext text); now apply spin_update_row.
Qed.

Lemma lower_setValue_row i v g r :
  param_table g !! i = Some r ->
  row_op (lower_setValue ext i v) i g (with_lower (py_str ext v) r).
Proof.
  intros Hr. unfold row_op, lower_setValue.
  rewrite (bind_Return _ _ _ _ _ (get_cell_Some _ _ _ Hr)).
  exact (row_op_update_row i (with_lower (py_str ext v)) g r Hr).
Qed.

Lemma upper_setValue_row i v g r :
  param_table g !! i = Some r ->
  row_op (upper_setValue ext i v) i g (with_upper (py_str ext v) r).
Proof.
  intros Hr. unfold row_op, upper_setValue.
  rewrite (bind_Return _ _ _ _ _ (get_cell_Some _ _ _ Hr)).
  exact (row_op_update_row i (with_upper (py_str ext v)) g r Hr).
Qed.

Lemma apply_edit_row e g r :
  param_table g !! edit_row e = Some r ->
  row_op (apply_edit ext e) (edit_row e) g (edited ext e r).
Proof.
  intros Hr. destruct e as [i b | i v | i text | i text];
    cbn [edit_row edited apply_edit] in *.
  - now apply setChecked_row.
  - now apply spin_setValue_row.
  - unfold row_op. rewrite (bind_Return _ _ _ _ _ (get_cell_Some _ _ _ Hr)).
    pose proof (row_op_update_row i (with_lower text) g r Hr) as H1.
    pose proof (row_op_lookup _ i g r _ Hr H1) as L1.
    apply (row_op_bind _ _ i g r _ _ Hr H1).
    pose proof (row_op_call_slot _ i _ _ (setMinimum_row i text _ _ L1)) as H2.
    pose proof (row_op_lookup _ i _ _ _ L1 H2) as L2.
    apply (row_op_bind _ _ i _ _ _ _ L1 H2).
    exact (row_op_emit _ i _ _ L2).
  - unfold row_op. rewrite (bind_Return _ _ _ _ _ (get_cell_Some _ _ _ Hr)).
    pose proof (row_op_update_row i (with_upper text) g r Hr) as H1.
    pose proof (row_op_lookup _ i g r _ Hr H1) as L1.
    apply (row_op_bind _ _ i g r _ _ Hr H1).
    pose proof (row_op_call_slot _ i _ _ (setMaximum_row i text _ _ L1)) as H2.
    pose proof (row_op_lookup _ i _ _ _ L1 H2) as L2.
    apply (row_op_bind _ _ i _ _ _ _ L1 H2).
    exact (row_op_emit _ i _ _ L2).
Qed.


Lemma set_param_row_row parameters i g r p :
  param_table g !! i = Some r ->
  dict_get (row_name r) parameters = Some p ->
  row_op (set_param_row ext parameters i) i g (options_row ext p r).
Proof.
  intros Hr Hp. unfold row_op, set_param_row.
  rewrite (bind_Return _ _ _ _ _ (get_cell_Some _ _ _ Hr)), Hp.
  pose proof (setChecked_row i (negb (p_vary p)) g r Hr) as H1.
  pose proof (row_op_lookup _ i g r _ Hr H1) as L1.
  apply (row_op_bind _ _ i g r _ _ Hr H1).
  pose proof (spin_setValue_row i (p_value p) _ _ L1) as H2.
  pose proof (row_op_lookup _ i _ _ _ L1 H2) as L2.
  apply (row_op_bind _ _ i _ _ _ _ L1 H2).
  pose proof (lower_setValue_row i (p_min p) _ _ L2) as H3.
  pose proof (row_op_lookup _ i _ _ _ L2 H3) as L3.
  apply (row_op_bind _ _ i _ _ _ _ L2 H3).
  exact (upper_setValue_row i (p_max p) _ _ L3).
Qed.

End RowFacts.



(** X21. An edit of a parameter field of a row that exists returns, and
    changes that row and no other, whatever is connected to its signals.
    In the row, the name and the signals stay; a click changes the box
    and nothing else; a value entered leaves the box, both bound texts
    and the range of the spin box as they were; a bound entered is kept
    as the text of its field and leaves the box and the other bound text
    as they were. *)
Theorem edit_changes_its_row_only (ext : Externals) (e : edit) (g : Gui)
    (r : ParamRow) :
  param_table g !! edit_row e = Some r ->
  fst (apply_edit ext e g) = Return tt /\
  exists r',
    param_table (snd (apply_edit ext e g))
      = <[edit_row e := r']> (param_table g) /\
    row_name r' = row_name r /\
    row_signals r' = row_signals r /\
    match e with
    | EditFixed _ b => r' = with_fixed b r
    | EditInitial _ _ =>
        fix_checked r' = fix_checked r /\
        lower_text r' = lower_text r /\ upper_text r' = upper_text r /\
        spin_min r' = spin_min r /\ spin_max r' = spin_max r
    | EditLower _ text =>
        lower_text r' = text /\
        fix_checked r' = fix_checked r /\ upper_text r' = upper_text r
    | EditUpper _ text =>
        upper_text r' = text /\
        fix_checked r' = fix_checked r /\ lower_text r' = lower_text r
    end.
Proof.
  intros Hr. destruct (apply_edit_row ext e g r Hr) as [H1 H2].
  split; [exact H1 |]. exists (edited ext e r). split; [exact H2 |].
  destruct e; repeat split; reflexivity.
Qed.

Lemma edit_changes_its_row_only_witness :
  fst (apply_edit ext_numbers (EditLower 0 "5") gui_live) = Return tt /\
  exists r',
    param_table (snd (apply_edit ext_numbers (EditLower 0 "5") gui_live))
      = <[0 := r']> (param_table gui_live) /\
    row_name r' = row_name (new_row ext0 "m" 0) /\
    row_signals r' = row_signals (new_row ext0 "m" 0) /\
    lower_text r' = "5" /\
    fix_checked r' = fix_checked (new_row ext0 "m" 0) /\
    upper_text r' = upper_text (new_row ext0 "m" 0).
Proof.
  apply (edit_changes_its_row_only ext_numbers (EditLower 0 "5") gui_live
           (new_row ext0 "m" 0)).
  reflexivity.
Defined.



(** X23. The setter does not set the range of the spin box from the
    bounds of the options.  One turn of its loop over the rows, for a
    row whose parameter the options contain, returns and changes that
    row only: the box is checked exactly when the parameter does not
    vary, the name and the signals of the row stay, and the minimum and
    the maximum of the spin box are as they were, whatever the bounds of
    the options are. *)
Theorem setter_row_keeps_spin_range (ext : Externals) (parameters : lmParameters)
    (i : nat) (g : Gui) (r : ParamRow) (p : lmParameter) :
  param_table g !! i = Some r ->
  dict_get (row_name r) parameters = Some p ->
  fst (set_param_row ext parameters i g) = Return tt /\
  exists r',
    param_table (snd (set_param_row ext parameters i g))
      = <[i := r']> (param_table g) /\
    row_name r' = row_name r /\
    row_signals r' = row_signals r /\
    fix_checked r' = negb (p_vary p) /\
    spin_min r' = spin_min r /\ spin_max r' = spin_max r.
Proof.
  intros Hr Hp.
  destruct (set_param_row_row ext parameters i g r p Hr Hp) as [H1 H2].
  split; [exact H1 |]. exists (options_row ext p r).
  split; [exact H2 |]. repeat split; reflexivity.
Qed.

Lemma setter_row_keeps_spin_range_witness :
  fst (set_param_row ext0 [("m", free_parameter 5%Z)] 0 gui_live) = Return tt /\
  exists r',
    param_table (snd (set_param_row ext0 [("m", free_parameter 5%Z)] 0 gui_live))
      = <[0 := r']> (param_table gui_live) /\
    row_name r' = row_name (new_row ext0 "m" 0) /\
    row_signals r' = row_signals (new_row ext0 "m" 0) /\
    fix_checked r' = negb (p_vary (free_parameter 5%Z)) /\
    spin_min r' = spin_min (new_row ext0 "m" 0) /\
    spin_max r' = spin_max (new_row ext0 "m" 0).
Proof.
  apply (setter_row_keeps_spin_range ext0 [("m", free_parameter 5%Z)] 0 gui_live
           (new_row ext0 "m" 0) (free_parameter 5%Z)); reflexivity.
Defined.

(** X24. What the enumeration of a package returns: when every listed
    unit but [fitter_base] is found, [get_modules_in_pkg] returns a
    dictionary whose keys are exactly the listed names other than
    [fitter_base]. *)
Theorem enumeration_lists_units_but_base (ext : Externals) (pkg : pypackage)
    (st : ImportSystem) :
  (forall modname ispkg,
     In (modname, ispkg) (iter_modules ext (pkg_path pkg)) ->
     modname <> "fitter_base" ->
     exists m, find_module ext (sys_path st)
                 (resolve_name ("." ++ modname) (pkg_name pkg)) = Some m) ->
  exists D st',
    get_modules_in_pkg ext pkg st = (Return D, st') /\
    forall k, In k (dict_keys D) <->
              In k (map fst (iter_modules ext (pkg_path pkg)))
              /\ k <> "fitter_base".
Proof.
  intros Hall. unfold get_modules_in_pkg.
  destruct (get_modules_loop_total ext pkg _ [] st Hall) as (D & st' & HD & Hk).
  exists D, st'. split; [exact HD |]. intros k. rewrite Hk. cbn. tauto.
Qed.

Lemma enumeration_lists_units_but_base_witness :
  exists D st',
    get_modules_in_pkg ext0 fitters imports0 = (Return D, st') /\
    forall k, In k (dict_keys D) <->
              In k (map fst (iter_modules ext0 (pkg_path fitters)))
              /\ k <> "fitter_base".
Proof.
  apply (enumeration_lists_units_but_base ext0 fitters imports0).
  intros modname ispkg Hin Hne. cbn in Hin.
  destruct Hin as [H | [H | [H | []]]]; inversion H; subst.
  - now destruct Hne.
  - now exists generic_functions.
  - now exists packaged_my_fits.
Defined.

(** ** Selecting a model *)

Section SelectionMore.
Context (ext : Externals).

Lemma getter_selected h text m v :
  currentItem (model_list h) = Some text ->
  dict_get (currentText (module_combo h)) (fitting_modules h) = Some m ->
  dict_get text (module_members m) = Some v ->
  fittingOptionGetter ext h
    = (Return (PyFittingOptions v (table_parameters ext (param_table h))), h).
Proof.
  intros Hsel Hm Hv. unfold fittingOptionGetter.
  rewrite bind_gets. unfold bind at 1, lookup_module. rewrite Hm.
  rewrite bind_gets, Hsel. unfold getattr. rewrite Hv.
  reflexivity.
Qed.

Lemma signalAllOptions_selected h text m v :
  currentItem (model_list h) = Some text ->
  dict_get (currentText (module_combo h)) (fitting_modules h) = Some m ->
  dict_get text (module_members m) = Some v ->
  _signalAllOptions ext h =
    (Return tt,
     set_options_changed
       (options_changed h
          ++ [PyFittingOptions v (table_parameters ext (param_table h))])
       h).
Proof.
  intros Hsel Hm Hv. unfold _signalAllOptions.
  rewrite bind_gets, Hsel. unfold signalAllOptions.
  now rewrite (bind_Return _ _ _ _ _ (getter_selected h text m v Hsel Hm Hv)).
Qed.

Lemma call_slots_selected n h text m v :
  currentItem (model_list h) = Some text ->
  dict_get (currentText (module_combo h)) (fitting_modules h) = Some m ->
  dict_get text (module_members m) = Some v ->
  call_slots n (_signalAllOptions ext) h =
    (Return tt,
     set_options_changed
       (options_changed h
          ++ replicate n
               (PyFittingOptions v (table_parameters ext (param_table h))))
       h).
Proof.
  revert h. induction n as [| n IH]; intros h Hsel Hm Hv.
  - cbn. rewrite app_nil_r. now destruct h.
  - cbn [call_slots]. unfold bind at 1, call_slot at 1.
    rewrite (signalAllOptions_selected h text m v Hsel Hm Hv).
    match goal with
    | |- call_slots n _ ?h' = _ => rewrite (IH h' Hsel Hm Hv)
    end.
    cbn [options_changed param_table set_options_changed replicate].
    now rewrite <- app_assoc.
Qed.

End SelectionMore.

(** X25. Selecting a model.  For an item of the list that is not the
    current one and that the current module binds to a class whose model
    function has a docstring, [setCurrentItem] returns with that item
    current, the docstring shown, and a fresh parameter table with the
    defaults in place of whatever was entered before.  It raises one
    "options changed" event for each connection that live update made to
    the list, none when it is off, and each event carries the model with
    the default parameters. *)
Theorem selecting_a_model_resets_parameters (ext : Externals) (i : nat)
    (g : Gui) (text : string) (m : pymodule) (c : pyclass) (doc : string) :
  list_items (model_list g) !! i = Some text ->
  list_current (model_list g) <> Some i ->
  dict_get (currentText (module_combo g)) (fitting_modules g) = Some m ->
  dict_get text (module_members m) = Some (PyClass c) ->
  cls_model_doc c = Some doc ->
  fst (model_list_setCurrentItem ext i g) = Return tt /\
  currentItem (model_list (snd (model_list_setCurrentItem ext i g)))
    = Some text /\
  model_doc_box (snd (model_list_setCurrentItem ext i g)) = doc /\
  param_table (snd (model_list_setCurrentItem ext i g))
    = fresh_rows ext (tl (cls_model_params c)) (length (connections g)) /\
  options_changed (snd (model_list_setCurrentItem ext i g))
    = options_changed g
        ++ replicate (model_list_connections g)
             (PyFittingOptions (PyClass c)
                (table_parameters ext
                   (fresh_rows ext (tl (cls_model_params c))
                      (length (connections g))))) /\
  slot_errors (snd (model_list_setCurrentItem ext i g)) = slot_errors g.
Proof.
  intros Hi Hcur Hm Hc Hdoc. unfold model_list_setCurrentItem. rewrite bind_gets.
  assert (E : match list_current (model_list g) with
              | Some j => Nat.eqb j i
              | None => false
              end = false).
  { destruct (list_current (model_list g)) as [j |]; [| reflexivity].
    apply Nat.eqb_neq. intros ->. now apply Hcur. }
  rewrite E, bind_modify, Hi. unfold emit_currentItemChanged.
  set (g1 := set_model_list _ g).
  assert (Hslot : call_slot (modelChanged ext (Some text)) g1 =
                  (Return tt,
                   set_model_doc_box doc
                     (snd (updateParamTable ext (PyClass c) g1)))).
  { unfold call_slot, modelChanged. rewrite bind_gets.
    unfold bind at 1, lookup_module.
    assert (Hm1 : dict_get (currentText (module_combo g1)) (fitting_modules g1)
                  = Some m) by exact Hm.
    rewrite Hm1. unfold getattr. rewrite Hc. unfold bind at 1, ret at 1.
    unfold bind at 1. rewrite updateParamTable_result, Hdoc. reflexivity. }
  rewrite (bind_Return _ _ _ _ _ Hslot), bind_gets.
  rewrite updateParamTable_result.
  erewrite (call_slots_selected ext _ _ text m (PyClass c)).
  - repeat split; try reflexivity. cbn. exact Hi.
  - cbn. exact Hi.
  - exact Hm.
  - exact Hc.
Qed.

Lemma selecting_a_model_resets_parameters_witness :
  fst (model_list_setCurrentItem ext0 1 gui0) = Return tt /\
  currentItem (model_list (snd (model_list_setCurrentItem ext0 1 gui0)))
    = Some "Linear" /\
  model_doc_box (snd (model_list_setCurrentItem ext0 1 gui0)) = "$m x + of$" /\
  param_table (snd (model_list_setCurrentItem ext0 1 gui0))
    = fresh_rows ext0 (tl (cls_model_params Linear)) (length (connections gui0)) /\
  options_changed (snd (model_list_setCurrentItem ext0 1 gui0))
    = options_changed gui0
        ++ replicate (model_list_connections gui0)
             (PyFittingOptions (PyClass Linear)
                (table_parameters ext0
                   (fresh_rows ext0 (tl (cls_model_params Linear))
                      (length (connections gui0))))) /\
  slot_errors (snd (model_list_setCurrentItem ext0 1 gui0)) = slot_errors gui0.
Proof.
  apply (selecting_a_model_resets_parameters ext0 1 gui0 "Linear"
           generic_functions Linear "$m x + of$").
  - reflexivity.
  - discriminate.
  - reflexivity.
  - reflexivity.
  - reflexivity.
Defined.

(** ** The path of a user file *)

Lemma list_ascii_of_string_app (s t : string) :
  list_ascii_of_string (s ++ t)
    = (list_ascii_of_string s ++ list_ascii_of_string t)%list.
Proof.
  induction s as [| c s IH]; [reflexivity |].
  change (c :: list_ascii_of_string (s ++ t)
          = c :: (list_ascii_of_string s ++ list_ascii_of_string t)%list).
  now f_equal.
Qed.

Lemma split_chars_no_sep sep cur l :
  ~ In sep l ->
  split_chars sep cur l = [string_of_list_ascii (rev cur ++ l)].
Proof.
  revert cur. induction l as [| c l IH]; intros cur Hn; cbn [split_chars].
  - now rewrite app_nil_r.
  - assert (E : Ascii.eqb c sep = false).
    { apply Ascii.eqb_neq. intros ->. apply Hn. now left. }
    rewrite E, IH; [| intros H; apply Hn; now right].
    cbn [rev]. now rewrite <- app_assoc.
Qed.

Lemma split_chars_sep sep cur l1 l2 :
  ~ In sep l1 ->
  split_chars sep cur (l1 ++ sep :: l2)
    = string_of_list_ascii (rev cur ++ l1) :: split_chars sep [] l2.
Proof.
  revert cur. induction l1 as [| c l1 IH]; intros cur Hn; cbn [split_chars app].
  - now rewrite Ascii.eqb_refl, app_nil_r.
  - assert (E : Ascii.eqb c sep = false).
    { apply Ascii.eqb_neq. intros ->. apply Hn. now left. }
    rewrite E, IH; [| intros H; apply Hn; now right].
    cbn [rev]. now rewrite <- app_assoc.
Qed.

Lemma str_split_join (p : string) (ps : list string) :
  Forall no_slash (p :: ps) ->
  str_split "/" (str_join "/" (p :: ps)) = p :: ps.
Proof.
  revert p. induction ps as [| q ps IH]; intros p Hall; unfold str_split.
  - cbn [str_join]. rewrite split_chars_no_sep.
    + cbn [rev app]. now rewrite string_of_list_ascii_of_string.
    + now inversion Hall.
  - cbn [str_join]. rewrite !list_ascii_of_string_app. cbn [list_ascii_of_string app].
    rewrite split_chars_sep by now inversion Hall.
    cbn [rev app]. rewrite string_of_list_ascii_of_string. f_equal.
    apply IH. now inversion Hall.
Qed.

Lemma str_drop_end_suffix (s t : string) :
  String.length t = 3 -> str_drop_end 3 (s ++ t) = s.
Proof.
  intros Ht. unfold str_drop_end. rewrite list_ascii_of_string_app, length_app.
  replace (length (list_ascii_of_string t)) with 3.
  - rewrite Nat.add_sub, take_app_length.
    apply string_of_list_ascii_of_string.
  - rewrite <- Ht. clear Ht. induction t as [| c t IH]; cbn; [reflexivity | now rewrite IH].
Qed.

(** X26. How [add_user_module] reads the path of the file: for a path
    made of directory components and a file name ending in [.py],
    joined by [/], the module name is the file name without [.py], and
    the directory put on the search path is the components joined by a
    backslash, whatever the separator of the platform: for
    [/home/lab/my_fits.py] it is [\home\lab]. *)
Theorem path_is_read_with_backslashes (parts : list string) (name : string) :
  Forall no_slash parts ->
  no_slash name ->
  derived_name (str_join "/" (parts ++ [(name ++ ".py")%string])) = name /\
  derived_dir (str_join "/" (parts ++ [(name ++ ".py")%string])) = str_join "\" parts.
Proof.
  intros Hparts Hname.
  assert (Hfile : no_slash (name ++ ".py")%string).
  { unfold no_slash in *. rewrite list_ascii_of_string_app. intros H.
    apply in_app_or in H. destruct H as [H | H]; [now apply Hname |].
    cbn in H. repeat (destruct H as [H | H]; [discriminate H |]). exact H. }
  assert (Hsplit : str_split "/" (str_join "/" (parts ++ [(name ++ ".py")%string]))
                   = parts ++ [(name ++ ".py")%string]).
  { destruct parts as [| p ps].
    - now apply (str_split_join (name ++ ".py")%string []), Forall_cons.
    - apply (str_split_join p (ps ++ [(name ++ ".py")%string])).
      change (Forall no_slash ((p :: ps) ++ [(name ++ ".py")%string])).
      apply Forall_app. split; [exact Hparts | now apply Forall_cons]. }
  unfold derived_name, derived_dir, list_last, list_init. rewrite Hsplit.
  rewrite last_last, removelast_last. split; [| reflexivity].
  now apply str_drop_end_suffix.
Qed.

Lemma path_is_read_with_backslashes_witness :
  derived_name (str_join "/" ([""; "home"; "lab"] ++ [("my_fits" ++ ".py")%string]))
    = "my_fits" /\
  derived_dir (str_join "/" ([""; "home"; "lab"] ++ [("my_fits" ++ ".py")%string]))
    = str_join "\" [""; "home"; "lab"].
Proof.
  apply (path_is_read_with_backslashes [""; "home"; "lab"] "my_fits").
  - repeat constructor; unfold no_slash; cbn; intros H;
      repeat (destruct H as [H | H]; [discriminate H |]); exact H.
  - unfold no_slash; cbn; intros H;
      repeat (destruct H as [H | H]; [discriminate H |]); exact H.
Defined.

(** X27. What [setDefaultFit] puts on record.  The options become the
    input options of the widget exactly when none were on record and
    [fittingOptionSetter] came back without an exception; in every other
    case the record is as before.  The slot ends as the setter did: an
    exception of the setter leaves [setDefaultFit] before the record is
    looked at. *)
Theorem setDefaultFit_records_what_was_set (ext : Externals) (v : pyval)
    (g : Gui) :
  input_options (snd (setDefaultFit ext v g))
    = (if is_None (input_options g)
          && returned (fst (fittingOptionSetter ext v g))
       then v else input_options g) /\
  fst (setDefaultFit ext v g) = fst (fittingOptionSetter ext v g).
Proof.
  pose proof (keeps_input_options_fittingOptionSetter ext v g) as Hk.
  unfold setDefaultFit.
  destruct (fittingOptionSetter ext v g) as [[[] | e] g1] eqn:E;
    cbn [fst snd returned] in *.
  - rewrite (bind_Return _ _ _ _ _ E), bind_gets, Hk.
    destruct (is_None (input_options g)); cbn [andb]; [split; reflexivity |].
    split; [exact Hk | reflexivity].
  - unfold bind. rewrite E, andb_false_r. now split.
Qed.

(** * The claims on a second file of the same name, on live update and
      on reload *)

(** ** A second user file of the same name *)

(** C8. The code at the input on which the claim fails.  The widget has
    the unit [my_fits] of the package and, under [my_fits(C:\Users\lab)],
    the user's file of that name; the user selects [D:/data/my_fits.py],
    a third file, which the finder would find in its own directory.  The
    import by name returns the module of [C:/Users/lab/my_fits.py], which
    the import system holds under [my_fits]; the selected file is not
    loaded.  The call returns, nothing is registered under the
    disambiguated name, no registered module has the selected file, and
    the box shows the unit of the package. *)
Theorem selected_file_is_not_loaded :
  gui_lab
    = snd (add_user_module ext_data (Some "C:/Users/lab/my_fits.py")
             (snd (moduleUpdate ext_data "generic_functions" gui_built))) /\
  find_module ext_data ["D:\data"] "my_fits" = Some data_fits /\
  fst (import_module ext_data (derived_name "D:/data/my_fits.py")
         (derived_dir "D:/data/my_fits.py")
         (with_dir "D:/data/my_fits.py" (imports gui_lab)))
    = Return my_fits /\
  fst (add_user_module ext_data (Some "D:/data/my_fits.py") gui_lab)
    = Return tt /\
  fitting_modules (snd (add_user_module ext_data (Some "D:/data/my_fits.py") gui_lab))
    = fitting_modules gui_lab /\
  dict_get (disambiguated "D:/data/my_fits.py")
    (fitting_modules
       (snd (add_user_module ext_data (Some "D:/data/my_fits.py") gui_lab)))
    = None /\
  Forall (fun m => module_file m <> "D:/data/my_fits.py")
    (dict_values
       (fitting_modules
          (snd (add_user_module ext_data (Some "D:/data/my_fits.py") gui_lab)))) /\
  currentText
    (module_combo
       (snd (add_user_module ext_data (Some "D:/data/my_fits.py") gui_lab)))
    = "my_fits".
Proof.
  split; [vm_compute; reflexivity |].
  split; [reflexivity |].
  split; [vm_compute; reflexivity |].
  split; [vm_compute; reflexivity |].
  split; [vm_compute; reflexivity |].
  split; [vm_compute; reflexivity |].
  split; [| vm_compute; reflexivity].
  assert (E : fitting_modules
                (snd (add_user_module ext_data (Some "D:/data/my_fits.py") gui_lab))
              = fitting_modules gui_lab) by (vm_compute; reflexivity).
  rewrite E. repeat constructor; discriminate.
Qed.

(** ** Live update: what the events of an edit carry *)

Lemma model_selected_model g :
  model_selected g <-> exists v, selected_model g v.
Proof.
  split.
  - intros (name & m & v & H). exists v, name, m. exact H.
  - intros (v & name & m & H). exists name, m, v. exact H.
Qed.

Lemma selected_model_selection g g' v :
  selection g' = selection g -> selected_model g v -> selected_model g' v.
Proof.
  unfold selection. intros [= H1 H2 H3] (name & m & Hc & Hm & Hv).
  exists name, m. now rewrite H1, H2, H3.
Qed.

Section EditEvents.
Context (ext : Externals) (v : pyval).

Lemma raises_on_table c g n T' :
  raises_on ext v c g n T' ->
  param_table (snd (c g)) = T' /\
  options_changed (snd (c g))
    = options_changed g
        ++ replicate n (PyFittingOptions v (table_parameters ext T')).
Proof. unfold raises_on. intros ->. split; reflexivity. Qed.

Lemma raises_on_ret g : raises_on ext v (ret tt) g 0 (param_table g).
Proof.
  unfold raises_on. cbn [replicate]. rewrite app_nil_r. now destruct g.
Qed.

Lemma raises_on_update_row i f g :
  raises_on ext v (update_row i f) g 0 (alter f i (param_table g)).
Proof.
  unfold raises_on, update_row, modify. cbn [replicate].
  rewrite app_nil_r. now destruct g.
Qed.

Lemma raises_on_emit psig g :
  selected_model g v ->
  raises_on ext v (emit_param_signal ext psig) g
    (default 0 (connections g !! psig)) (param_table g).
Proof.
  intros (name & m & Hsel & Hm & Hv). unfold raises_on, emit_param_signal.
  rewrite bind_gets.
  rewrite (call_slots_selected ext _ g name m v Hsel Hm Hv).
  now destruct g.
Qed.

Lemma raises_on_bind c k g n1 T1 n2 T2 :
  raises_on ext v c g n1 T1 ->
  n1 = 0 \/ T1 = T2 ->
  raises_on ext v k (snd (c g)) n2 T2 ->
  raises_on ext v (c ;; k) g (n1 + n2) T2.
Proof.
  unfold raises_on. intros Hc Hor Hk.
  rewrite (bind_Return _ _ _ _ _ Hc). rewrite Hc in Hk. cbn [snd] in Hk.
  rewrite Hk. cbn [options_changed set_options_changed set_param_table].
  f_equal.
  assert (E : (options_changed g
                 ++ replicate n1 (PyFittingOptions v (table_parameters ext T1)))
                ++ replicate n2 (PyFittingOptions v (table_parameters ext T2))
              = options_changed g
                  ++ replicate (n1 + n2)
                       (PyFittingOptions v (table_parameters ext T2))).
  { destruct Hor as [-> | ->].
    - cbn [replicate]. now rewrite app_nil_r.
    - now rewrite replicate_add, app_assoc. }
  rewrite E. reflexivity.
Qed.

Lemma raises_on_call_slot c g n T' :
  raises_on ext v c g n T' -> raises_on ext v (call_slot c) g n T'.
Proof. unfold raises_on, call_slot. now intros ->. Qed.

Lemma raises_on_selected c g n T' :
  raises_on ext v c g n T' -> selected_model g v ->
  selected_model (snd (c g)) v.
Proof. unfold raises_on. intros -> H. exact H. Qed.

Lemma raises_on_get_cell i (k : ParamRow -> M Gui unit) g r n T' :
  param_table g !! i = Some r ->
  raises_on ext v (k r) g n T' ->
  raises_on ext v (r0 <- get_cell i ;; k r0) g n T'.
Proof.
  unfold raises_on. intros Hr H.
  now rewrite (bind_Return _ _ _ _ _ (get_cell_Some _ _ _ Hr)).
Qed.

Lemma setChecked_raises i b g r :
  selected_model g v -> param_table g !! i = Some r ->
  exists n T', raises_on ext v (setChecked ext i b) g n T'.
Proof.
  intros Hsel Hr. destruct (Bool.eqb (fix_checked r) b) eqn:E.
  - exists 0, (param_table g). unfold setChecked.
    apply (raises_on_get_cell i _ g r _ _ Hr). rewrite E.
    apply raises_on_ret.
  - exists (0 + default 0 (connections g !! row_signals r)).
    eexists. unfold setChecked.
    apply (raises_on_get_cell i _ g r _ _ Hr). rewrite E.
    apply (raises_on_bind _ _ g 0 _ _ _ (raises_on_update_row i _ g));
      [now left |].
    apply (raises_on_emit (row_signals r) (snd (update_row i _ g))).
    exact (raises_on_selected _ _ _ _ (raises_on_update_row i _ g) Hsel).
Qed.

Lemma spin_update_raises i lo hi x g r :
  selected_model g v -> param_table g !! i = Some r ->
  exists n T', raises_on ext v (spin_update ext i lo hi x) g n T'.
Proof.
  intros Hsel Hr.
  destruct (Z.eqb (Z.max lo (Z.min hi x)) (spin_value r)) eqn:E.
  - exists (0 + 0). eexists. unfold spin_update.
    apply (raises_on_get_cell i _ g r _ _ Hr). cbv zeta. rewrite E.
    apply (raises_on_bind _ _ g 0 _ 0 _ (raises_on_update_row i _ g));
      [now left |].
    apply (raises_on_ret (snd (update_row i _ g))).
  - exists (0 + default 0 (connections g !! (row_signals r + 1))).
    eexists. unfold spin_update.
    apply (raises_on_get_cell i _ g r _ _ Hr). cbv zeta. rewrite E.
    apply (raises_on_bind _ _ g 0 _ _ _ (raises_on_update_row i _ g));
      [now left |].
    apply (raises_on_emit (row_signals r + 1) (snd (update_row i _ g))).
    exact (raises_on_selected _ _ _ _ (raises_on_update_row i _ g) Hsel).
Qed.

Lemma spin_setValue_raises i x g r :
  selected_model g v -> param_table g !! i = Some r ->
  exists n T', raises_on ext v (spin_setValue ext i x) g n T'.
Proof.
  intros Hsel Hr.
  destruct (spin_update_raises i (spin_min r) (spin_max r) x g r Hsel Hr)
    as (n & T' & H).
  exists n, T'. unfold spin_setValue.
  now apply (raises_on_get_cell i _ g r _ _ Hr).
Qed.

Lemma setMinimum_raises i text g r :
  selected_model g v -> param_table g !! i = Some r ->
  exists n T', raises_on ext v (OptionSpinbox_setMinimum ext i text) g n T'.
Proof.
  intros Hsel Hr.
  destruct (spin_update_raises i
              (default (- MAX_FLOAT)%Z (eval_number ext text))
              (Z.max (default (- MAX_FLOAT)%Z (eval_number ext text)) (spin_max r))
              (spin_value r) g r Hsel Hr) as (n & T' & H).
  exists n, T'. unfold OptionSpinbox_setMinimum.
  apply (raises_on_get_cell i _ g r _ _ Hr). cbv zeta.
  destruct (eval_number ext text); exact H.
Qed.

Lemma setMaximum_raises i text g r :
  selected_model g v -> param_table g !! i = Some r ->
  exists n T', raises_on ext v (OptionSpinbox_setMaximum ext i text) g n T'.
Proof.
  intros Hsel Hr.
  destruct (spin_update_raises i
              (Z.min (default MAX_FLOAT (eval_number ext text)) (spin_min r))
              (default MAX_FLOAT (eval_number ext text))
              (spin_value r) g r Hsel Hr) as (n & T' & H).
  exists n, T'. unfold OptionSpinbox_setMaximum.
  apply (raises_on_get_cell i _ g r _ _ Hr). cbv zeta.
  destruct (eval_number ext text); exact H.
Qed.

(** A bound that is entered: the text is kept, the spin box takes the
    bound, and the signal of the field is emitted; the events of the spin
    box and those of the field carry the same table, the one the edit
    leaves. *)
Lemma bound_edit_raises i f (slot : M Gui unit) psig g r :
  selected_model g v -> param_table g !! i = Some r ->
  (forall h r1, selected_model h v -> param_table h !! i = Some r1 ->
                exists n T', raises_on ext v slot h n T') ->
  exists n T',
    raises_on ext v
      (update_row i f ;; call_slot slot ;; emit_param_signal ext psig) g n T'.
Proof.
  intros Hsel Hr Hslot.
  pose proof (raises_on_update_row i f g) as H1.
  pose proof (raises_on_selected _ _ _ _ H1 Hsel) as S1.
  assert (L1 : param_table (snd (update_row i f g)) !! i = Some (f r)).
  { cbn. now rewrite list_lookup_alter_eq, Hr. }
  destruct (Hslot _ _ S1 L1) as (n2 & T2 & H2).
  apply raises_on_call_slot in H2.
  pose proof (raises_on_selected _ _ _ _ H2 S1) as S2.
  pose proof (raises_on_emit psig _ S2) as H3.
  destruct (raises_on_table _ _ _ _ H2) as [HT2 _]. rewrite HT2 in H3.
  exists (0 + (n2 + default 0
                       (connections (snd (call_slot slot (snd (update_row i f g))))
                          !! psig))), T2.
  apply (raises_on_bind _ _ g 0 _ _ _ H1); [now left |].
  apply (raises_on_bind _ _ _ n2 T2 _ T2 H2); [now right | exact H3].
Qed.

Lemma apply_edit_raises e g r :
  selected_model g v -> param_table g !! edit_row e = Some r ->
  exists n T', raises_on ext v (apply_edit ext e) g n T'.
Proof.
  intros Hsel Hr. destruct e as [i b | i x | i text | i text];
    cbn [edit_row apply_edit] in *.
  - exact (setChecked_raises i b g r Hsel Hr).
  - exact (spin_setValue_raises i x g r Hsel Hr).
  - destruct (bound_edit_raises i (with_lower text)
                (OptionSpinbox_setMinimum ext i text) (row_signals r + 2) g r
                Hsel Hr) as (n & T' & H).
    { intros h r1. apply setMinimum_raises. }
    exists n, T'. exact (raises_on_get_cell i _ g r _ _ Hr H).
  - destruct (bound_edit_raises i (with_upper text)
                (OptionSpinbox_setMaximum ext i text) (row_signals r + 3) g r
                Hsel Hr) as (n & T' & H).
    { intros h r1. apply setMaximum_raises. }
    exists n, T'. exact (raises_on_get_cell i _ g r _ _ Hr H).
Qed.

(** Every event that an edit raises carries the model selected and the
    parameters of all rows as the edit leaves them. *)
Lemma edit_events_carry_all_options e g r :
  selected_model g v -> param_table g !! edit_row e = Some r ->
  exists n,
    options_changed (snd (apply_edit ext e g))
      = options_changed g
          ++ replicate n
               (PyFittingOptions v
                  (table_parameters ext (param_table (snd (apply_edit ext e g))))).
Proof.
  intros Hsel Hr. destruct (apply_edit_raises e g r Hsel Hr) as (n & T' & H).
  destruct (raises_on_table _ _ _ _ H) as [HT Hoc].
  exists n. now rewrite HT.
Qed.

Lemma changes_field_row e g :
  changes_field e g -> exists r, param_table g !! edit_row e = Some r.
Proof.
  destruct e; cbn; intros (r & H); exists r; try exact H; apply H.
Qed.

End EditEvents.

Lemma gui_live_selected_model : selected_model gui_live (PyClass Linear).
Proof.
  exists "Linear", generic_functions. repeat split; vm_compute; reflexivity.
Qed.

Lemma three_edits_change : all_change ext_numbers three_edits gui_live.
Proof.
  cbn [all_change three_edits changes_field]. repeat split.
  - eexists. split; [vm_compute; reflexivity | discriminate].
  - eexists. split; [vm_compute; reflexivity | vm_compute; discriminate].
  - eexists. vm_compute. reflexivity.
Qed.

(** C9, as the code has it. With live update connected and a model
    selected, every edit of a parameter field raises an aggregated
    "options changed" event of its own, as soon as it is made, and each
    event carries all the options: the model selected with the
    parameters of every row as the table stands after the edit.  Any
    number of edits in succession raise at least as many events, so
    three edits raise three or more, never a single one for the batch.
    When each signal is connected once, clicks on check boxes and new
    values in spin boxes raise exactly one event each. *)
Theorem each_edit_raises_its_event (ext : Externals) (v : pyval)
    (edits : list edit) (g : Gui) :
  selected_model g v ->
  all_change ext edits g ->
  (live_connected g ->
   each_raises ext v edits g /\
   length edits + length (options_changed g)
     <= length (options_changed (apply_edits ext edits g))) /\
  (singly_connected g ->
   Forall is_value_edit edits ->
   length (options_changed (apply_edits ext edits g))
     = length edits + length (options_changed g)).
Proof.
  revert g. induction edits as [| e edits IH]; intros g Hsel Hall.
  - split; intros; cbn; [split; [exact I | lia] | lia].
  - destruct Hall as [Hch Hall]. cbn [apply_edits fold_left length each_raises].
    assert (Hms : model_selected g) by (apply model_selected_model; eauto).
    assert (Hsel' : selected_model (snd (apply_edit ext e g)) v).
    { apply (selected_model_selection g); [| exact Hsel].
      apply keeps_selection_apply_edit. }
    destruct (IH _ Hsel' Hall) as [IHlive IHone].
    unfold apply_edits in IHlive, IHone. split.
    + intros Hlive.
      pose proof (edit_raises_event ext g e Hlive Hms Hch) as H1.
      destruct (IHlive (edit_keeps_live ext g e Hlive)) as [IHeach IHlen].
      split; [| lia]. split; [| exact IHeach].
      destruct (changes_field_row e g Hch) as [r Hr].
      destruct (edit_events_carry_all_options ext v e g r Hsel Hr) as [n Hn].
      exists n. split; [| exact Hn].
      rewrite Hn, length_app, length_replicate in H1. lia.
    + intros Hone Hval. apply Forall_cons in Hval as [Hval Hvals].
      rewrite (IHone (edit_keeps_single ext g e Hone) Hvals).
      rewrite (value_edit_raises_one_event ext g e Hone Hms Hch Hval). lia.
Qed.

Lemma each_edit_raises_its_event_witness :
  (each_raises ext_numbers (PyClass Linear) three_edits gui_live /\
   3 + length (options_changed gui_live)
     <= length (options_changed (apply_edits ext_numbers three_edits gui_live))) /\
  length (options_changed
            (apply_edits ext_numbers [EditFixed 0 true; EditInitial 1 5%Z] gui_live))
    = 2 + length (options_changed gui_live).
Proof.
  split.
  - apply (proj1 (each_edit_raises_its_event ext_numbers (PyClass Linear)
                    three_edits gui_live
                    gui_live_selected_model three_edits_change)).
    exact gui_live_connected.
  - apply (proj2 (each_edit_raises_its_event ext_numbers (PyClass Linear)
                    [EditFixed 0 true; EditInitial 1 5%Z] gui_live
                    gui_live_selected_model
                    (conj (proj1 three_edits_change)
                          (conj (proj1 (proj2 three_edits_change)) I)))).
    + exact gui_live_single.
    + repeat constructor.
Defined.

(** C9, read literally, fails: fixing [m], setting [of] to 5 and entering
    the lower bound -5 for [m] raise three events, one after each edit. *)
Lemma three_edits_three_events : ~ three_edits_one_event ext_numbers.
Proof.
  intros H.
  specialize (H gui_live (EditFixed 0 true) (EditInitial 1 5%Z) (EditLower 0 "-5")
                gui_live_connected gui_live_selected three_edits_change).
  vm_compute in H. discriminate.
Qed.

(** ** Reload: a widget on which nothing is connected raises nothing *)

Lemma stays_quiet_ret {A} (a : A) : stays_quiet (@ret Gui A a).
Proof. intros g Q. now split. Qed.

Lemma stays_quiet_raise {A} e : stays_quiet (@raise Gui A e).
Proof. intros g Q. now split. Qed.

Lemma stays_quiet_gets {A} (f : Gui -> A) : stays_quiet (gets f).
Proof. intros g Q. now split. Qed.

Lemma stays_quiet_modify (f : Gui -> Gui) :
  (forall g, quiet g -> quiet (f g) /\ options_changed (f g) = options_changed g) ->
  stays_quiet (modify f).
Proof. intros H g Q. exact (H g Q). Qed.

Lemma stays_quiet_bind {A B} (c : M Gui A) (k : A -> M Gui B) :
  stays_quiet c -> (forall a, stays_quiet (k a)) -> stays_quiet (bind c k).
Proof.
  intros Hc Hk g Q. unfold bind. destruct (Hc g Q) as [Q1 E1].
  destruct (c g) as [[a | e] g1]; cbn [snd] in *; [| now split].
  destruct (Hk a g1 Q1) as [Q2 E2]. split; [exact Q2 | congruence].
Qed.

Lemma stays_quiet_for_each {A} (l : list A) (body : A -> M Gui unit) :
  (forall a, stays_quiet (body a)) -> stays_quiet (for_each l body).
Proof.
  intros H. induction l as [| a l IH]; cbn [for_each].
  - apply stays_quiet_ret.
  - apply stays_quiet_bind; [apply H | intros _; exact IH].
Qed.

Lemma stays_quiet_call_slot (c : M Gui unit) :
  stays_quiet c -> stays_quiet (call_slot c).
Proof.
  intros H g Q. unfold call_slot. destruct (H g Q) as [Q1 E1].
  destruct (c g) as [[[] | e] g1]; cbn [snd] in *; now split.
Qed.

Lemma stays_quiet_call_slots n (c : M Gui unit) :
  stays_quiet c -> stays_quiet (call_slots n c).
Proof.
  intros H. induction n as [| n IH]; cbn [call_slots].
  - apply stays_quiet_ret.
  - apply stays_quiet_bind; [now apply stays_quiet_call_slot | intros _; exact IH].
Qed.

Lemma stays_quiet_try_pass_TypeError (c : M Gui unit) :
  stays_quiet c -> stays_quiet (try_pass_TypeError c).
Proof.
  intros H g Q. unfold try_pass_TypeError. destruct (H g Q) as [Q1 E1].
  destruct (c g) as [[[] | []] g1]; cbn [snd] in *; now split.
Qed.

Lemma stays_quiet_lookup_module name : stays_quiet (lookup_module name).
Proof.
  intros g Q. unfold lookup_module.
  destruct (dict_get name (fitting_modules g)); now split.
Qed.

Lemma stays_quiet_get_cell i : stays_quiet (get_cell i).
Proof. intros g Q. unfold get_cell. destruct (param_table g !! i); now split. Qed.

Lemma stays_quiet_update_row i f : stays_quiet (update_row i f).
Proof. intros g Q. exact (conj Q eq_refl). Qed.

Lemma stays_quiet_zoom_imports {A} (c : M ImportSystem A) :
  stays_quiet (zoom imports set_imports c).
Proof.
  intros g Q. unfold zoom. destruct (c (imports g)) as [r t]. exact (conj Q eq_refl).
Qed.

Section Quiet.
Context (ext : Externals).

Lemma stays_quiet_emit psig : stays_quiet (emit_param_signal ext psig).
Proof.
  intros g Q. unfold emit_param_signal. rewrite bind_gets.
  assert (E : default 0 (connections g !! psig) = 0).
  { destruct (connections g !! psig) as [n |] eqn:Hn; [| reflexivity].
    destruct Q as (_ & _ & Hc). rewrite Forall_lookup in Hc. exact (Hc _ _ Hn). }
  rewrite E. exact (conj Q eq_refl).
Qed.

Lemma stays_quiet_updateParamTable model_cls :
  stays_quiet (updateParamTable ext model_cls).
Proof.
  intros g Q. destruct model_cls as [| s | c | model parameters | repr];
    try (unfold updateParamTable; rewrite bind_modify; exact (conj Q eq_refl)).
  rewrite updateParamTable_result. destruct Q as (Hl & Hm & Hc).
  cbn [snd]. rewrite Hl. split; [| reflexivity].
  split; [exact Hl |]. split; [exact Hm |]. cbn.
  apply Forall_app. split; [exact Hc |]. now apply Forall_replicate.
Qed.

Lemma stays_quiet_modelChanged current : stays_quiet (modelChanged ext current).
Proof.
  destruct current as [text |]; cbn [modelChanged].
  - apply stays_quiet_bind; [apply stays_quiet_gets | intros name].
    apply stays_quiet_bind; [apply stays_quiet_lookup_module | intros m].
    apply stays_quiet_bind.
    { unfold getattr. destruct (dict_get text (module_members m));
        [apply stays_quiet_ret | apply stays_quiet_raise]. }
    intros model_cls.
    apply stays_quiet_bind; [apply stays_quiet_updateParamTable | intros _].
    destruct model_cls; try apply stays_quiet_raise.
    destruct (cls_model_doc c); [| apply stays_quiet_raise].
    apply stays_quiet_modify. intros g Q. exact (conj Q eq_refl).
  - apply stays_quiet_bind; [| intros _];
      apply stays_quiet_modify; intros g Q; exact (conj Q eq_refl).
Qed.

Lemma stays_quiet_emit_currentItemChanged current :
  stays_quiet (emit_currentItemChanged ext current).
Proof.
  intros g Q. unfold emit_currentItemChanged.
  destruct (stays_quiet_call_slot _ (stays_quiet_modelChanged current) g Q)
    as [Q1 E1].
  rewrite (bind_total _ _ _ (never_raises_call_slot _)), bind_gets.
  destruct Q1 as (Hl & Hm & Hc). rewrite Hm. cbn [call_slots].
  split; [exact (conj Hl (conj Hm Hc)) | exact E1].
Qed.

End Quiet.

Ltac head_of t :=
  lazymatch t with
  | ?f _ => head_of f
  | _ => t
  end.

(** One step of the proof that an operation of the widget stays quiet:
    an operation that is none of the above is unfolded, it alone. *)
Ltac quiet_step :=
  lazymatch goal with
  | |- stays_quiet (ret _) => apply stays_quiet_ret
  | |- stays_quiet (raise _) => apply stays_quiet_raise
  | |- stays_quiet (gets _) => apply stays_quiet_gets
  | |- stays_quiet (modify _) =>
      apply stays_quiet_modify;
      let g := fresh "g" in let Q := fresh "Q" in
      intros g Q; exact (conj Q eq_refl)
  | |- stays_quiet (bind _ _) => apply stays_quiet_bind; [| intros ?]
  | |- stays_quiet (for_each _ _) => apply stays_quiet_for_each; intros ?
  | |- stays_quiet (try_pass_TypeError _) => apply stays_quiet_try_pass_TypeError
  | |- stays_quiet (call_slot _) => apply stays_quiet_call_slot
  | |- stays_quiet (call_slots _ _) => apply stays_quiet_call_slots
  | |- stays_quiet (lookup_module _) => apply stays_quiet_lookup_module
  | |- stays_quiet (get_cell _) => apply stays_quiet_get_cell
  | |- stays_quiet (update_row _ _) => apply stays_quiet_update_row
  | |- stays_quiet (zoom imports set_imports _) => apply stays_quiet_zoom_imports
  | |- stays_quiet (emit_param_signal _ _) => apply stays_quiet_emit
  | |- stays_quiet (emit_currentItemChanged _ _) =>
      apply stays_quiet_emit_currentItemChanged
  | |- stays_quiet (match ?x with _ => _ end) => destruct x
  | |- stays_quiet (let _ := _ in _) => cbv zeta
  | |- stays_quiet ?c =>
      first [ solve [auto] | let h := head_of c in progress unfold h ]
  end.

Ltac quiet_gui := repeat quiet_step.

Section QuietSetter.
Context (ext : Externals).

Lemma stays_quiet_setCurrentText name :
  stays_quiet (module_combo_setCurrentText ext name).
Proof. quiet_gui. Qed.

Lemma stays_quiet_find_module_of model items :
  stays_quiet (find_module_of ext model items).
Proof.
  induction items as [| [mdu_name mdu] rest IH]; cbn [find_module_of].
  - apply stays_quiet_ret.
  - apply stays_quiet_bind.
    { unfold getsourcefile. destruct model;
        first [apply stays_quiet_ret | apply stays_quiet_raise]. }
    intros src. destruct (String.eqb _ _); [| exact IH].
    apply stays_quiet_bind; [apply stays_quiet_setCurrentText |].
    intros _. apply stays_quiet_ret.
Qed.

Lemma stays_quiet_fittingOptionSetter v :
  stays_quiet (fittingOptionSetter ext v).
Proof.
  pose proof stays_quiet_find_module_of as Hfind.
  quiet_gui.
Qed.

Lemma stays_quiet_reload :
  stays_quiet (call_slot (reloadInputOption ext)).
Proof.
  apply stays_quiet_call_slot. unfold reloadInputOption.
  apply stays_quiet_bind; [apply stays_quiet_gets |].
  intros v. apply stays_quiet_fittingOptionSetter.
Qed.

End QuietSetter.

(** ** Upstream options, the record of them, and reload *)

Lemma process_adoption_emits_once (ext : Externals) (st : NodeState)
    (l : loc) (d : Dataset) :
  heap st !! l = Some d ->
  (1 <? length (ds_axes d))%nat || (1 <? length (ds_dependents d))%nat = false ->
  _fitting_options st = PyNone ->
  ds_get d "__fitting_options__" <> PyNone ->
  default_fitting_options (snd (process ext (Some l) st))
    = default_fitting_options st ++ [ds_get d "__fitting_options__"].
Proof.
  intros Hl Hdim Hnone Hup. unfold process.
  rewrite (fitting_process_cases ext st l d Hl Hdim), Hnone.
  cbn [is_None].
  assert (E : negb (is_None (ds_get d "__fitting_options__")) = true).
  { destruct (ds_get d "__fitting_options__"); try reflexivity. now destruct Hup. }
  rewrite E. now rewrite run_fitting_keeps_emitted.
Qed.

Section ReloadMore.
Context (ext : Externals).
Context (to_node : pyval -> NodeState -> NodeState).

Lemma feed_back_none before after st :
  options_changed after = options_changed before ->
  feed_back to_node before after st = st.
Proof. intros E. unfold feed_back. now rewrite E, skipn_all. Qed.

(** An arrival at a node that has options: the options stay, nothing is
    emitted, and the widget is not touched. *)
Lemma arrival_keeps_options s d :
  _fitting_options (node s) <> PyNone ->
  _fitting_options (node (step ext to_node s (Arrive d)))
    = _fitting_options (node s) /\
  gui (step ext to_node s (Arrive d)) = gui s.
Proof.
  intros Hset.
  set (st0 := set_heap (heap (node s) ++ [d]) (node s)).
  set (l := length (heap (node s))).
  assert (He : default_fitting_options (snd (process ext (Some l) st0))
               = default_fitting_options st0).
  { apply (process_without_adoption_emits_nothing ext st0 l d); [| now left].
    unfold st0, l. cbn [heap set_heap]. apply list_lookup_middle. reflexivity. }
  assert (Hg : gui (step ext to_node s (Arrive d)) = gui s).
  { change (deliver ext
              (skipn (length (default_fitting_options st0))
                 (default_fitting_options (snd (process ext (Some l) st0))))
              (gui s) = gui s).
    rewrite He, skipn_all. reflexivity. }
  split; [| exact Hg].
  change (_fitting_options
            (feed_back to_node (gui s) (gui (step ext to_node s (Arrive d)))
               (snd (process ext (Some l) st0)))
          = _fitting_options (node s)).
  rewrite Hg, feed_back_none by reflexivity.
  unfold process. now rewrite fitting_process_keeps_options.
Qed.

Lemma arrivals_keep_options events s :
  Forall is_arrival events ->
  _fitting_options (node s) <> PyNone ->
  _fitting_options (node (run ext to_node events s)) = _fitting_options (node s) /\
  gui (run ext to_node events s) = gui s.
Proof.
  intros Harr. revert s. induction Harr as [| e events He _ IH]; intros s Hset.
  - now split.
  - destruct e as [d |]; [| destruct He].
    cbn [run fold_left]. unfold run in IH.
    destruct (arrival_keeps_options s d Hset) as [H1 H2].
    destruct (IH (step ext to_node s (Arrive d))) as [H3 H4];
      [now rewrite H1 |].
    split; [now rewrite H3 | now rewrite H4].
Qed.

Lemma step_keeps_record s e :
  input_options (gui s) <> PyNone ->
  input_options (gui (step ext to_node s e)) = input_options (gui s).
Proof.
  intros Hrec. destruct e as [d |]; cbn [step gui].
  - now apply deliver_keeps_record.
  - apply reload_keeps_record.
Qed.

Lemma run_keeps_record events s :
  input_options (gui s) <> PyNone ->
  input_options (gui (run ext to_node events s)) = input_options (gui s).
Proof.
  revert s. induction events as [| e events IH]; intros s Hrec; [reflexivity |].
  cbn [run fold_left]. unfold run in IH.
  rewrite IH; rewrite step_keeps_record; auto.
Qed.

Lemma run_app events events' s :
  run ext to_node (events ++ events') s
    = run ext to_node events' (run ext to_node events s).
Proof. unfold run. apply fold_left_app. Qed.

(** The arrival that is adopted: the node emits the options of the data
    once, and the widget takes them on record when it has none and its
    setter takes them. *)
Lemma adoption_is_recorded s d :
  _fitting_options (node s) = PyNone ->
  input_options (gui s) = PyNone ->
  (1 <? length (ds_axes d))%nat || (1 <? length (ds_dependents d))%nat = false ->
  ds_get d "__fitting_options__" <> PyNone ->
  fst (fittingOptionSetter ext (ds_get d "__fitting_options__") (gui s))
    = Return tt ->
  input_options (gui (step ext to_node s (Arrive d)))
    = ds_get d "__fitting_options__".
Proof.
  intros Hnone Hrec Hdim Hup Hset.
  set (v := ds_get d "__fitting_options__") in *.
  set (st0 := set_heap (heap (node s) ++ [d]) (node s)).
  set (l := length (heap (node s))).
  assert (He : default_fitting_options (snd (process ext (Some l) st0))
               = default_fitting_options st0 ++ [v]).
  { apply (process_adoption_emits_once ext st0 l d); try assumption.
    unfold st0, l. cbn [heap set_heap]. apply list_lookup_middle. reflexivity. }
  change (input_options
            (deliver ext
               (skipn (length (default_fitting_options st0))
                  (default_fitting_options (snd (process ext (Some l) st0))))
               (gui s)) = v).
  rewrite He, drop_app_length. cbn [deliver fold_left].
  unfold call_slot, setDefaultFit.
  pose proof (keeps_input_options_fittingOptionSetter ext v (gui s)) as Hk.
  destruct (fittingOptionSetter ext v (gui s)) as [[[] | e] g1] eqn:E;
    cbn [fst snd] in *; [| discriminate].
  rewrite (bind_Return _ _ _ _ _ E), bind_gets, Hk, Hrec. reflexivity.
Qed.

End ReloadMore.

(** C3, as the code has it.  Once the node has options, data that
    arrive, whatever options they carry, change neither them nor the
    widget.  The widget never replaces the options it has on record; it
    takes the options of an adoption on record when it has none and its
    setter takes them.  A reload request hands the options on record,
    not the ones that arrived last, to the widget's option setter, and
    does nothing when there is no record.  On a widget on which live
    update is off and nothing is connected, the reload raises no
    "options changed" event, so the node's options stay, whatever the
    node does with such events. *)
Theorem options_stay_and_reload_uses_record (ext : Externals)
    (to_node : pyval -> NodeState -> NodeState) (s : System)
    (events : list event) :
  (Forall is_arrival events ->
   _fitting_options (node s) <> PyNone ->
   _fitting_options (node (run ext to_node events s)) = _fitting_options (node s) /\
   gui (run ext to_node events s) = gui s) /\
  (input_options (gui s) <> PyNone ->
   input_options (gui (run ext to_node events s)) = input_options (gui s) /\
   gui (run ext to_node (events ++ [ReloadInputOption]) s)
     = snd (call_slot (fittingOptionSetter ext (input_options (gui s)))
              (gui (run ext to_node events s)))) /\
  (forall d,
     _fitting_options (node s) = PyNone ->
     input_options (gui s) = PyNone ->
     (1 <? length (ds_axes d))%nat || (1 <? length (ds_dependents d))%nat = false ->
     ds_get d "__fitting_options__" <> PyNone ->
     fst (fittingOptionSetter ext (ds_get d "__fitting_options__") (gui s))
       = Return tt ->
     input_options (gui (step ext to_node s (Arrive d)))
       = ds_get d "__fitting_options__") /\
  (input_options (gui s) = PyNone -> step ext to_node s ReloadInputOption = s) /\
  (quiet (gui s) ->
   options_changed (gui (step ext to_node s ReloadInputOption))
     = options_changed (gui s) /\
   node (step ext to_node s ReloadInputOption) = node s).
Proof.
  split; [apply arrivals_keep_options |].
  split.
  { intros Hrec.
    pose proof (run_keeps_record ext to_node events s Hrec) as Hk.
    split; [exact Hk |].
    rewrite run_app. cbn [run fold_left step gui].
    unfold call_slot at 1, reloadInputOption. rewrite bind_gets, Hk.
    reflexivity. }
  split; [intros d; apply adoption_is_recorded |].
  split.
  { intros Hnone. destruct s as [n g]. cbn [step node gui] in *.
    assert (E : snd (call_slot (reloadInputOption ext) g) = g).
    { unfold call_slot, reloadInputOption. rewrite bind_gets, Hnone.
      reflexivity. }
    rewrite E, feed_back_none by reflexivity. reflexivity. }
  intros Hq. destruct (stays_quiet_reload ext (gui s) Hq) as [_ E].
  cbn [step node gui]. split; [exact E |].
  now apply feed_back_none.
Qed.

Lemma options_stay_and_reload_uses_record_witness :
  (_fitting_options
     (node (run ext0 store_options
              [Arrive (line_data (upstream linear_options'))]
              (run ext0 store_options
                 [Arrive (line_data (upstream linear_options))] system0)))
     = linear_options /\
   gui (run ext0 store_options
          [Arrive (line_data (upstream linear_options'))]
          (run ext0 store_options
             [Arrive (line_data (upstream linear_options))] system0))
     = gui (run ext0 store_options
              [Arrive (line_data (upstream linear_options))] system0)) /\
  input_options
    (gui (run ext0 store_options
            [Arrive (line_data (upstream linear_options'));
             ReloadInputOption]
            (run ext0 store_options
               [Arrive (line_data (upstream linear_options))] system0)))
    = linear_options /\
  input_options
    (gui (step ext0 store_options system0
            (Arrive (line_data (upstream linear_options)))))
    = linear_options /\
  node (step ext0 store_options
          (run ext0 store_options
             [Arrive (line_data (upstream linear_options));
              Arrive (line_data (upstream linear_options'))] system0)
          ReloadInputOption)
    = node (run ext0 store_options
              [Arrive (line_data (upstream linear_options));
               Arrive (line_data (upstream linear_options'))] system0).
Proof.
  split; [| split; [| split]].
  - apply (proj1 (options_stay_and_reload_uses_record ext0 store_options
             (run ext0 store_options
                [Arrive (line_data (upstream linear_options))] system0)
             [Arrive (line_data (upstream linear_options'))])).
    + repeat constructor.
    + vm_compute. discriminate.
  - apply (proj1 (proj2 (options_stay_and_reload_uses_record ext0 store_options
             (run ext0 store_options
                [Arrive (line_data (upstream linear_options))] system0)
             [Arrive (line_data (upstream linear_options')); ReloadInputOption]))).
    vm_compute. discriminate.
  - apply (proj1 (proj2 (proj2 (options_stay_and_reload_uses_record ext0
             store_options system0 [])))); try reflexivity.
    vm_compute. discriminate.
  - apply (proj2 (proj2 (proj2 (proj2 (options_stay_and_reload_uses_record ext0
             store_options
             (run ext0 store_options
                [Arrive (line_data (upstream linear_options));
                 Arrive (line_data (upstream linear_options'))] system0)
             []))))).
    repeat split; vm_compute; repeat constructor.
Defined.

(** C3, read literally, fails: after a dataset with options for [Linear]
    and a second one with other options, a reload leaves the node with
    the options of the first, also when the node takes whatever the
    widget signals. *)
Lemma reload_does_not_restore_latest :
  ~ reload_restores_latest ext0 store_options.
Proof.
  intros [_ H]. specialize (H system0 two_arrivals).
  vm_compute in H. specialize (H ltac:(discriminate)). discriminate.
Qed.
